(** * wcsaxes: the joint formatter/locator ([wcsaxes/formatter_locator.py])

    A shallow embedding of [BaseFormatterLocator], [AngleFormatterLocator]
    and [ScalarFormatterLocator], and the properties of their format
    parser, spacing policy and locator.

    Conventions of the embedding.
    - Python floats are idealised as exact rationals ([Q]); every literal of
      the source ([1.1], [1e-10], [15], [10. ** p]) is the rational it
      denotes.  Numeric results are compared with [==] ([Qeq]).
    - An instance is a record of its attributes; an attribute that has not
      been assigned yet is [None] for the descriptor attributes
      ([_decimal], [_fields], [_precision]), whose read then raises
      [AttributeError].
    - A method is a function from the instance to an outcome (a value or
      the exception raised), the instance it leaves behind and the
      warnings it emitted through [warnings.warn].
    - The helpers of [wcsaxes/utils.py] ([select_step_degree],
      [select_step_hour], [select_step_scalar]) are parameters. *)

From Stdlib Require Import ZArith QArith Qround Qabs List String Ascii Bool Lia.
From Stdlib Require Import DecimalString DecimalN Lqa.
Import ListNotations.

Set Implicit Arguments.

Close Scope Q_scope.
Local Open Scope string_scope.
Local Open Scope nat_scope.

(* ================================================================== *)
(** ** Python's [re]: the fragment used by the six patterns           *)
(* ================================================================== *)

Module PyRe.

(** Regular expressions: the body of a pattern between [^] and [$]. *)
Inductive regex : Type :=
| Void                       (* matches nothing              *)
| Eps                        (* the empty string             *)
| Chr (c : ascii)            (* a literal character          *)
| Dot                        (* [.]: any character but '\n'  *)
| Cat (r s : regex)
| Alt (r s : regex)
| Star (r : regex).

(** [(r)?] and [(r)+]. *)
Definition Opt (r : regex) : regex := Alt Eps r.
Definition Plus (r : regex) : regex := Cat r (Star r).

(** A literal string. *)
Fixpoint Lit (s : string) : regex :=
  match s with
  | EmptyString => Eps
  | String c EmptyString => Chr c
  | String c s' => Cat (Chr c) (Lit s')
  end.

Definition newline : ascii := "010"%char.

Fixpoint nullable (r : regex) : bool :=
  match r with
  | Void => false
  | Eps => true
  | Chr _ => false
  | Dot => false
  | Cat r s => nullable r && nullable s
  | Alt r s => nullable r || nullable s
  | Star _ => true
  end.

(** Simplifying constructors: they keep derivatives small. *)
Definition cat (r s : regex) : regex :=
  match r, s with
  | Void, _ => Void
  | _, Void => Void
  | Eps, _ => s
  | _, _ => Cat r s
  end.

Definition alt (r s : regex) : regex :=
  match r, s with
  | Void, _ => s
  | _, Void => r
  | _, _ => Alt r s
  end.

(** Brzozowski derivative. *)
Fixpoint deriv (c : ascii) (r : regex) : regex :=
  match r with
  | Void => Void
  | Eps => Void
  | Chr a => if Ascii.eqb a c then Eps else Void
  | Dot => if Ascii.eqb c newline then Void else Eps
  | Cat r s => alt (cat (deriv c r) s) (if nullable r then deriv c s else Void)
  | Alt r s => alt (deriv c r) (deriv c s)
  | Star r => cat (deriv c r) (Star r)
  end.

(** The whole string is in the language of [r]. *)
Fixpoint fullmatch (r : regex) (s : string) : bool :=
  match s with
  | EmptyString => nullable r
  | String c s' => fullmatch (deriv c r) s'
  end.

(** [re.compile('^' + r + '$').match(s) is not None]: [^] holds at the
    start, where [match] begins, and [$] holds at the end of the string
    and also just before a newline that ends the string. *)
Fixpoint re_match (r : regex) (s : string) : bool :=
  match s with
  | EmptyString => nullable r
  | String c s' =>
      (nullable r && Ascii.eqb c newline && String.eqb s' EmptyString)
      || re_match (deriv c r) s'
  end.

(** The denotation of a regular expression, against which the matcher is
    checked. *)
Inductive Matches : regex -> string -> Prop :=
| MEps : Matches Eps ""
| MChr c : Matches (Chr c) (String c "")
| MDot c : c <> newline -> Matches Dot (String c "")
| MCat r s u v : Matches r u -> Matches s v -> Matches (Cat r s) (u ++ v)
| MAltL r s u : Matches r u -> Matches (Alt r s) u
| MAltR r s u : Matches s u -> Matches (Alt r s) u
| MStar0 r : Matches (Star r) ""
| MStarS r u v : Matches r u -> Matches (Star r) v -> Matches (Star r) (u ++ v).

End PyRe.

Import PyRe.

(** DMS_RE = re.compile('^dd(:mm(:ss(.(s)+)?)?)?$') *)
Definition DMS_RE : regex :=
  Cat (Lit "dd") (Opt (Cat (Lit ":mm") (Opt (Cat (Lit ":ss") (Opt (Cat Dot (Plus (Chr "s")))))))).

(** HMS_RE = re.compile('^hh(:mm(:ss(.(s)+)?)?)?$') *)
Definition HMS_RE : regex :=
  Cat (Lit "hh") (Opt (Cat (Lit ":mm") (Opt (Cat (Lit ":ss") (Opt (Cat Dot (Plus (Chr "s")))))))).

(** DDEC_RE = re.compile('^d(.(d)+)?$') *)
Definition DDEC_RE : regex := Cat (Chr "d") (Opt (Cat Dot (Plus (Chr "d")))).

(** DMIN_RE = re.compile('^m(.(m)+)?$') *)
Definition DMIN_RE : regex := Cat (Chr "m") (Opt (Cat Dot (Plus (Chr "m")))).

(** DSEC_RE = re.compile('^s(.(s)+)?$') *)
Definition DSEC_RE : regex := Cat (Chr "s") (Opt (Cat Dot (Plus (Chr "s")))).

(** SCAL_RE = re.compile('^x(.(x)+)?$') *)
Definition SCAL_RE : regex := Cat (Chr "x") (Opt (Cat Dot (Plus (Chr "x")))).

(* ================================================================== *)
(** ** Python [str] methods used by the format setters                *)
(* ================================================================== *)

Module PyStr.

(** [c in s] for a one-character [c]. *)
Fixpoint contains (c : ascii) (s : string) : bool :=
  match s with
  | EmptyString => false
  | String a s' => Ascii.eqb a c || contains c s'
  end.

(** [s.index(c)]: the position of the first [c].  Python raises
    [ValueError] when there is none; the setters call it only under
    [c in s], and the model returns the length there. *)
Fixpoint index (c : ascii) (s : string) : nat :=
  match s with
  | EmptyString => 0
  | String a s' => if Ascii.eqb a c then 0 else S (index c s')
  end.

(** [s.count(c)]. *)
Fixpoint count (c : ascii) (s : string) : nat :=
  match s with
  | EmptyString => 0
  | String a s' => (if Ascii.eqb a c then 1 else 0) + count c s'
  end.

(** [len(s)]. *)
Definition len (s : string) : nat := String.length s.

(** [c * n]: [n] copies of the character [c]. *)
Fixpoint rep (c : ascii) (n : nat) : string :=
  match n with
  | O => EmptyString
  | S n' => String c (rep c n')
  end.

End PyStr.

(* ================================================================== *)
(** ** Numbers: numpy and Python arithmetic on idealised floats       *)
(* ================================================================== *)

Module Num.

Local Open Scope Q_scope.

(** [x < y] on floats. *)
Definition ltb (x y : Q) : bool := negb (Qle_bool y x).

(** [x == 0]. *)
Definition is_zero (x : Q) : bool := Qeq_bool x 0.

(** [np.ceil] and [np.floor]; the integers they return feed
    [np.arange(..., dtype=int)]. *)
Definition ceil (x : Q) : Z := Qceiling x.
Definition floor (x : Q) : Z := Qfloor x.

(** [np.round]: to the nearest integer, halves to the even one. *)
Definition round (x : Q) : Z :=
  let f := Qfloor x in
  let d := x - inject_Z f in
  if ltb d (1 # 2) then f
  else if ltb (1 # 2) d then (f + 1)%Z
  else if Z.even f then f else (f + 1)%Z.

(** [x % y] of Python and [np.remainder]: the result has the sign of
    [y]. *)
Definition mod_ (x y : Q) : Q := x - y * inject_Z (Qfloor (x / y)).

(** [10. ** p] for a non-negative integer [p]. *)
Definition pow10 (p : nat) : Q := inject_Z (10 ^ Z.of_nat p).

(** [np.arange(start, stop, dtype=int)] for integral [start] and
    [stop]: [start, start + 1, ..., stop - 1]. *)
Definition arange (start stop : Z) : list Z :=
  map (fun k => (start + Z.of_nat k)%Z) (seq 0 (Z.to_nat (stop - start))).

(** [np.floor(np.log10(x))] for [0 < x]: the integer [k] with
    [10^k <= x < 10^(k+1)], found by scaling [x] by ten until it lies in
    [[1, 10)].  The number of steps is bounded by the size of the
    denominator when [x < 1], of the numerator otherwise. *)
Fixpoint log10_below (fuel : nat) (x : Q) : nat :=
  match fuel with
  | O => O
  | S fuel' => if Qle_bool 1 x then O else S (log10_below fuel' (x * 10))
  end.

Fixpoint log10_above (fuel : nat) (x : Q) : nat :=
  match fuel with
  | O => O
  | S fuel' => if Qle_bool 10 x then S (log10_above fuel' (x / 10)) else O
  end.

Definition floor_log10 (x : Q) : Z :=
  if Qle_bool 1 x
  then Z.of_nat (log10_above (Pos.size_nat (Z.to_pos (Qnum x))) x)
  else (- Z.of_nat (log10_below (Pos.size_nat (Qden x)) x))%Z.

End Num.

(* ================================================================== *)
(** ** astropy units and quantities of angle                          *)
(* ================================================================== *)

(** The four angle units the module uses: [u.degree], [u.arcmin],
    [u.arcsec], [u.hourangle]. *)
Inductive AngleUnit : Type := degree | arcmin | arcsec | hourangle.

Definition AngleUnit_eqb (a b : AngleUnit) : bool :=
  match a, b with
  | degree, degree | arcmin, arcmin | arcsec, arcsec | hourangle, hourangle => true
  | _, _ => false
  end.

(** An [astropy.units.Quantity] whose unit has physical type ['angle']. *)
Record Quantity : Type := Qty { value : Q; unit : AngleUnit }.

Module Units.

Local Open Scope Q_scope.

(** Degrees in one unit. *)
Definition in_degrees (u : AngleUnit) : Q :=
  match u with
  | degree => 1
  | arcmin => 1 # 60
  | arcsec => 1 # 3600
  | hourangle => 15
  end.

(** [q.to(u)]. *)
Definition to (u : AngleUnit) (q : Quantity) : Quantity :=
  Qty (value q * (in_degrees (unit q) / in_degrees u)) u.

(** [x * u] and [u / x] for a float [x] and a unit [u]. *)
Definition times (x : Q) (u : AngleUnit) : Quantity := Qty x u.
Definition unit_over (u : AngleUnit) (x : Q) : Quantity := Qty (1 / x) u.

(** [q * x] (also [q *= x]) for a quantity and a pure number. *)
Definition scale (q : Quantity) (x : Q) : Quantity := Qty (value q * x) (unit q).

(** [a < b] and [a > b]: the right operand is converted to the unit of
    the left one. *)
Definition lt (a b : Quantity) : bool := Num.ltb (value a) (value (to (unit a) b)).
Definition gt (a b : Quantity) : bool := Num.ltb (value (to (unit a) b)) (value a).

(** [a % b]: in the unit of [a]. *)
Definition rem (a b : Quantity) : Quantity :=
  Qty (Num.mod_ (value a) (value (to (unit a) b))) (unit a).

(** [a / a]: the quotient of a quantity by itself, a dimensionless
    number. *)
Definition ratio (a b : Quantity) : Q := value a / value (to (unit a) b).

End Units.

(* ================================================================== *)
(** ** Exceptions, warnings and the method monad                      *)
(* ================================================================== *)

Inductive exn : Type :=
| ValueError (msg : string)
| TypeError (msg : string)
| AttributeError (attr : string)       (* the attribute was never assigned *)
| UnboundLocalError (var : string)     (* the local was never assigned     *)
| ZeroDivisionError.

Inductive outcome (A : Type) : Type :=
| Return (a : A)
| Raise (e : exn).

Arguments Return {A} a.
Arguments Raise {A} e.

(** What a call leaves behind: its outcome, the instance and the messages
    passed to [warnings.warn], oldest first. *)
Record run (S A : Type) : Type := Run { result : outcome A; self : S; warned : list string }.

Definition M (S A : Type) : Type := S -> run S A.

Section Monad.
Context {S : Type}.

Definition ret {A} (a : A) : M S A := fun s => Run (Return a) s [].

Definition raise {A} (e : exn) : M S A := fun s => Run (Raise e) s [].

Definition bind {A B} (m : M S A) (k : A -> M S B) : M S B :=
  fun s =>
    match m s with
    | Run (Return a) s' w =>
        match k a s' with
        | Run r s'' w' => Run r s'' (w ++ w')%list
        end
    | Run (Raise e) s' w => Run (Raise e) s' w
    end.

(** [self.attr] for an attribute that always exists. *)
Definition get {A} (f : S -> A) : M S A := fun s => Run (Return (f s)) s [].

(** [self.attr] for an attribute that may not have been assigned. *)
Definition getattr {A} (name : string) (f : S -> option A) : M S A :=
  fun s => match f s with
           | Some a => Run (Return a) s []
           | None => Run (Raise (AttributeError name)) s []
           end.

(** [self.attr = ...]. *)
Definition modify (f : S -> S) : M S Datatypes.unit := fun s => Run (Return tt) (f s) [].

(** [warnings.warn(msg)]. *)
Definition warn (msg : string) : M S Datatypes.unit := fun s => Run (Return tt) s [msg].

Definition when (b : bool) (m : M S Datatypes.unit) : M S Datatypes.unit := if b then m else ret tt.

End Monad.

Declare Scope method_scope.
Delimit Scope method_scope with method.
Notation "x <- m ;; k" := (bind m (fun x => k))
  (at level 61, m at next level, right associativity) : method_scope.
Notation "m ;; k" := (bind m (fun _ => k))
  (at level 61, right associativity) : method_scope.
Local Open Scope method_scope.

(* ================================================================== *)
(** ** Instances                                                      *)
(* ================================================================== *)

(** The attributes of a formatter/locator.  [T] is the type of a spacing:
    [Quantity] for the angle class, a float for the scalar one. *)
Record Instance (T : Type) : Type := Obj {
  _values : option (list Q);
  _number : option Z;
  _spacing : option T;
  _format : option string;
  _unit : option AngleUnit;
  _decimal : option bool;
  _fields : option nat;
  _precision : option nat
}.

Arguments Obj {T}.
Arguments _values {T}.
Arguments _number {T}.
Arguments _spacing {T}.
Arguments _format {T}.
Arguments _unit {T}.
Arguments _decimal {T}.
Arguments _fields {T}.
Arguments _precision {T}.

Section Attributes.
Context {T : Type}.
Implicit Type o : Instance T.

Definition set_values v o := Obj v (_number o) (_spacing o) (_format o) (_unit o) (_decimal o) (_fields o) (_precision o).
Definition set_number v o := Obj (_values o) v (_spacing o) (_format o) (_unit o) (_decimal o) (_fields o) (_precision o).
Definition set_spacing (v : option T) o : Instance T := Obj (_values o) (_number o) v (_format o) (_unit o) (_decimal o) (_fields o) (_precision o).
Definition set_format v o := Obj (_values o) (_number o) (_spacing o) v (_unit o) (_decimal o) (_fields o) (_precision o).
Definition set_unit v o := Obj (_values o) (_number o) (_spacing o) (_format o) (Some v) (_decimal o) (_fields o) (_precision o).
Definition set_decimal v o := Obj (_values o) (_number o) (_spacing o) (_format o) (_unit o) (Some v) (_fields o) (_precision o).
Definition set_fields v o := Obj (_values o) (_number o) (_spacing o) (_format o) (_unit o) (_decimal o) (Some v) (_precision o).
Definition set_precision v o := Obj (_values o) (_number o) (_spacing o) (_format o) (_unit o) (_decimal o) (_fields o) (Some v).

(** The object [object.__new__] hands to [__init__]: no attribute yet. *)
Definition blank : Instance T := Obj None None None None None None None None.

End Attributes.

(** What a caller may pass as [spacing] to the angle class. *)
Inductive PyValue : Type :=
| PyNone
| PyFloat (x : Q)                                   (* a bare number           *)
| PyAngle (q : Quantity)                            (* a quantity of angle     *)
| PyOtherQuantity (x : Q) (physical_type : string). (* a quantity of another physical type *)

(** [x / y] on floats: a zero divisor raises.  (With numpy operands the
    quotient is [inf] or [nan] instead and the call fails one step later,
    in [np.arange]; the model raises here in both cases.) *)
Definition fdiv {S} (x y : Q) : M S Q :=
  if Num.is_zero y then raise ZeroDivisionError else ret (x / y)%Q.

(* ================================================================== *)
(** ** What the formatters compute with                               *)
(* ================================================================== *)

(** How a call of a formatter ends.  A formatter reads the instance and
    assigns nothing.  [int] of an infinite float raises [OverflowError],
    which no other method of the module raises. *)
Inductive formatted (A : Type) : Type :=
| Done (a : A)
| Fails (e : exn)
| OverflowError (msg : string).

Arguments Done {A} a.
Arguments Fails {A} e.
Arguments OverflowError {A} msg.

Definition and_then {A B} (m : formatted A) (k : A -> formatted B) : formatted B :=
  match m with
  | Done a => k a
  | Fails e => Fails e
  | OverflowError msg => OverflowError msg
  end.

Declare Scope formatted_scope.
Delimit Scope formatted_scope with formatted.
Notation "x <- m ;; k" := (and_then m (fun x => k))
  (at level 61, m at next level, right associativity) : formatted_scope.

(** [self.attr] for an attribute that may not have been assigned. *)
Definition attribute {A} (name : string) (v : option A) : formatted A :=
  match v with
  | Some a => Done a
  | None => Fails (AttributeError name)
  end.

(** The list comprehension [[f(x) for x in xs]]. *)
Fixpoint for_each {A B} (f : A -> formatted B) (xs : list A) : formatted (list B) :=
  match xs with
  | [] => Done []
  | x :: xs' => (y <- f x ;; ys <- for_each f xs' ;; Done (y :: ys))%formatted
  end.

Module PyFormat.

(** The character of the decimal digit [n]. *)
Definition digit (n : Z) : ascii := ascii_of_nat (48 + Z.to_nat n).

(** The last [p] decimal digits of [n], the most significant first. *)
Fixpoint digits (p : nat) (n : Z) : string :=
  match p with
  | O => ""
  | S p' => String (digit ((n / 10 ^ Z.of_nat p') mod 10)) (digits p' n)
  end.

(** [str(n)] for an integer [n >= 0]. *)
Definition str_int (n : Z) : string := NilEmpty.string_of_uint (N.to_uint (Z.to_N n)).

(** [x] written with [p] decimals: [x] is rounded to a multiple of
    [10^-p], halves to the even neighbour, and written as a sign, an
    integer part and, unless [p] is zero, a point and [p] digits.  A
    negative number keeps its sign when it rounds to zero. *)
Definition fixed (p : nat) (x : Q) : string :=
  let scale := (10 ^ Z.of_nat p)%Z in
  let r := Num.round (Qabs x * inject_Z scale) in
  let sign := if Num.ltb x 0 then "-" else "" in
  let fraction := match p with
                  | O => ""
                  | S _ => String "." (digits p r)
                  end in
  sign ++ str_int (r / scale) ++ fraction.

(** [("{0:." + str(precision) + "f}").format(x)]; a negative
    [precision] does not give a format specifier. *)
Definition format_f (precision : Z) (x : Q) : formatted string :=
  if (precision <? 0)%Z then Fails (ValueError "Format specifier missing precision")
  else Done (fixed (Z.to_nat precision) x).

(** [int(np.floor(np.log10(x)))]: [np.log10] is [-inf] at zero and [nan]
    below it, and [int] refuses both. *)
Definition int_floor_log10 (x : Q) : formatted Z :=
  if Num.is_zero x then OverflowError "cannot convert float infinity to integer"
  else if Num.ltb x 0 then Fails (ValueError "cannot convert float NaN to integer")
  else Done (Num.floor_log10 x).

End PyFormat.

(* ================================================================== *)
(** ** class BaseFormatterLocator                                     *)
(* ================================================================== *)

Module BaseFormatterLocator.
Section Base.
Context {T : Type}.
Local Abbreviation method := (M (Instance T)).

(** The property setters (the getters are [get _values], [get _number]
    and [get _spacing]). *)
Definition values_setter (values : option (list Q)) : method Datatypes.unit :=
  modify (set_number None) ;;
  modify (set_spacing None) ;;
  modify (set_values values).

Definition number_setter (number : option Z) : method Datatypes.unit :=
  modify (set_number number) ;;
  modify (set_spacing None) ;;
  modify (set_values None).

Definition spacing_setter (spacing : option T) : method Datatypes.unit :=
  modify (set_number None) ;;
  modify (set_spacing spacing) ;;
  modify (set_values None).

(** [__init__].  [self.spacing = ...] and [self.format = ...] go to the
    setters of the class of [self], which are arguments here; [A] is
    what that class accepts as a spacing. *)
Section Init.
Context {A : Type}.
Variable is_None : A -> bool.
Variable self_spacing_setter : A -> method Datatypes.unit.
Variable self_format_setter : option string -> method Datatypes.unit.

(** [(values, number, spacing).count(None)] *)
Definition count_None (values : option (list Q)) (number : option Z) (spacing : A) : nat :=
  (match values with None => 1 | Some _ => 0 end)
  + (match number with None => 1 | Some _ => 0 end)
  + (if is_None spacing then 1 else 0).

Definition __init__ (values : option (list Q)) (number : option Z) (spacing : A)
           (format : option string) : method Datatypes.unit :=
  (if (count_None values number spacing <? 2)%nat
   then raise (ValueError "At most one of values/number/spacing can be specifed")
   else ret tt) ;;
  (match values, number with
   | Some _, _ => values_setter values
   | None, Some _ => number_setter number
   | None, None =>
       if negb (is_None spacing) then self_spacing_setter spacing
       else number_setter (Some 5%Z)
   end) ;;
  self_format_setter format.
End Init.

End Base.
End BaseFormatterLocator.

(* ================================================================== *)
(** ** class AngleFormatterLocator                                    *)
(* ================================================================== *)

Module AngleFormatterLocator.
Import PyStr.
Local Abbreviation method := (M (Instance Quantity)).

Definition is_None (v : PyValue) : bool :=
  match v with PyNone => true | _ => false end.

(** [isinstance(v, u.Quantity) and v.unit.physical_type == 'angle'] *)
Definition is_angle_quantity (v : PyValue) : bool :=
  match v with PyAngle _ => true | _ => false end.

(** The value stored by [self._spacing = spacing] once the guard of the
    setter has passed. *)
Definition stored (v : PyValue) : option Quantity :=
  match v with PyAngle q => Some q | _ => None end.

Definition spacing_setter (spacing : PyValue) : method Datatypes.unit :=
  if negb (is_None spacing) && negb (is_angle_quantity spacing)
  then raise (TypeError "spacing should be an astropy.units.Quantity instance with units of angle")
  else
    modify (set_number None) ;;
    modify (set_spacing (stored spacing)) ;;
    modify (set_values None).

(** The [base_spacing] property. *)
Definition base_spacing : method Quantity :=
  decimal <- getattr "_decimal" _decimal ;;
  spacing <-
    (if decimal : bool then
       u <- getattr "_unit" _unit ;;
       precision <- getattr "_precision" _precision ;;
       ret (Units.unit_over u (Num.pow10 precision))
     else
       fields <- getattr "_fields" _fields ;;
       if (fields =? 1)%nat then ret (Units.times 1 degree)
       else if (fields =? 2)%nat then ret (Units.times 1 arcmin)
       else if (fields =? 3)%nat then
         precision <- getattr "_precision" _precision ;;
         if (precision =? 0)%nat then ret (Units.times 1 arcsec)
         else ret (Units.unit_over arcsec (Num.pow10 precision))
       else raise (UnboundLocalError "spacing")) ;;
  u <- getattr "_unit" _unit ;;
  if AngleUnit_eqb u hourangle then ret (Units.scale spacing 15) else ret spacing.

(** The part of the [format] setter that reads the string (lines
    116-159). *)
Definition parse_format (value : string) : method Datatypes.unit :=
  if re_match DMS_RE value then
    modify (set_decimal false) ;;
    modify (set_unit degree) ;;
    if contains "." value then
      modify (set_precision (len value - index "." value - 1)) ;;
      modify (set_fields 3)
    else
      modify (set_precision 0) ;;
      modify (set_fields (count ":" value + 1))
  else if re_match HMS_RE value then
    modify (set_decimal false) ;;
    modify (set_unit hourangle) ;;
    if contains "." value then
      modify (set_precision (len value - index "." value - 1)) ;;
      modify (set_fields 3)
    else
      modify (set_precision 0) ;;
      modify (set_fields (count ":" value + 1))
  else if re_match DDEC_RE value then
    modify (set_decimal true) ;;
    modify (set_unit degree) ;;
    modify (set_fields 1) ;;
    if contains "." value then
      modify (set_precision (len value - index "." value - 1))
    else
      modify (set_precision 0)
  else if re_match DMIN_RE value then
    modify (set_decimal true) ;;
    modify (set_unit arcmin) ;;
    modify (set_fields 1) ;;
    if contains "." value then
      modify (set_precision (len value - index "." value - 1))
    else
      modify (set_precision 0)
  else if re_match DSEC_RE value then
    modify (set_decimal true) ;;
    modify (set_unit arcsec) ;;
    modify (set_fields 1) ;;
    if contains "." value then
      modify (set_precision (len value - index "." value - 1))
    else
      modify (set_precision 0)
  else
    raise (ValueError ("Invalid format: " ++ value)).

(** [1e-10 * u.deg] *)
Definition tolerance : Quantity := Units.times (1 # 10000000000) degree.

(** The part of the [format] setter that looks at the spacing (lines
    161-167). *)
Definition check_spacing : method Datatypes.unit :=
  spacing <- get _spacing ;;
  too_small <- match spacing with
               | None => ret false
               | Some s => b <- base_spacing ;; ret (Units.lt s b)
               end ;;
  when too_small
    (warn "Spacing is too small - resetting spacing to match format" ;;
     b <- base_spacing ;;
     spacing_setter (PyAngle b)) ;;
  spacing <- get _spacing ;;
  off_grid <- match spacing with
              | None => ret false
              | Some s => b <- base_spacing ;; ret (Units.gt (Units.rem s b) tolerance)
              end ;;
  when off_grid
    (warn "Spacing is not a multiple of base spacing - resetting spacing to match format" ;;
     b <- base_spacing ;;
     spacing <- get _spacing ;;
     match spacing with
     | Some s => spacing_setter (PyAngle (Units.scale b (inject_Z (Num.round (Units.ratio s s)))))
     | None => raise (TypeError "unsupported operand type(s) for /: 'NoneType' and 'NoneType'")
     end).

(** The [format] setter. *)
Definition format_setter (value : option string) : method Datatypes.unit :=
  modify (set_format value) ;;
  match value with
  | None => ret tt
  | Some value => parse_format value ;; check_spacing
  end.

Definition __init__ (values : option (list Q)) (number : option Z) (spacing : PyValue)
           (format : option string) : method Datatypes.unit :=
  modify (set_unit degree) ;;
  BaseFormatterLocator.__init__ is_None spacing_setter format_setter values number spacing format.

Section Locator.
(** [select_step_degree] and [select_step_hour] of [wcsaxes/utils.py]. *)
Variables select_step_degree select_step_hour : Quantity -> Quantity.

(** The spacing the locator works with, in degrees (lines 202-225). *)
Definition locator_spacing (value_min value_max : Q) : method Q :=
  spacing <- get _spacing ;;
  match spacing with
  | Some spacing => ret (value (Units.to degree spacing))
  | None =>
      number <- get _number ;;
      match number with
      | Some number =>
          x <- fdiv (Qabs (value_max - value_min)) (inject_Z number) ;;
          let dv := Units.times x degree in
          format <- get _format ;;
          too_fine <- match format with
                      | None => ret false
                      | Some _ => b <- base_spacing ;; ret (Units.lt dv b)
                      end ;;
          if too_fine : bool then
            b <- base_spacing ;;
            ret (value (Units.to degree b))
          else
            u <- getattr "_unit" _unit ;;
            if AngleUnit_eqb u degree
            then ret (value (Units.to degree (select_step_degree dv)))
            else ret (value (Units.to degree (select_step_hour dv)))
      | None => raise (UnboundLocalError "spacing_deg")
      end
  end.

Definition locator (value_min value_max : Q) : method (list Q * Quantity) :=
  values <- get _values ;;
  match values with
  | Some values => ret (values, Units.times (11 # 10) arcsec)
  | None =>
      spacing_deg <- locator_spacing value_min value_max ;;
      qmin <- fdiv value_min spacing_deg ;;
      qmax <- fdiv value_max spacing_deg ;;
      let imin := Num.ceil qmin in
      let imax := Num.floor qmax in
      let values := map (fun i => inject_Z i * spacing_deg)%Q (Num.arange imin (imax + 1)) in
      ret (values, Units.times spacing_deg degree)
  end.
End Locator.

Section Formatter.
(** [Angle(np.asarray(values), unit=u.deg).to_string(unit=...,
    precision=..., decimal=..., fields=..., sep=...).tolist()] of
    astropy. *)
Variable to_string :
  list Q -> AngleUnit -> Z -> bool -> nat -> option (list string) -> formatted (list string).

(** The separators of lines 264 and 266: the degree sign, the apostrophe
    and the double quote; the letters h, m and s. *)
Definition degree_separators : list string :=
  [String "176" EmptyString; "'"; String "034" EmptyString].
Definition hour_separators : list string := ["h"; "m"; "s"].

(** [fields] and [precision] when no format is set (lines 240-251). *)
Definition automatic_fields (spacing : Quantity) : formatted (nat * Z) :=
  if Units.gt spacing (Units.times 1 degree) then Done (1, 0%Z)
  else if Units.gt spacing (Units.times 1 arcmin) then Done (2, 0%Z)
  else if Units.gt spacing (Units.times 1 arcsec) then Done (3, 0%Z)
  else (k <- PyFormat.int_floor_log10 (value (Units.to arcsec spacing)) ;;
        Done (3, (- k)%Z))%formatted.

(** [sep] (lines 260-266). *)
Definition separators (decimal : bool) (unit : AngleUnit) (fields : nat) : option (list string) :=
  if decimal then None
  else if AngleUnit_eqb unit degree then Some (firstn fields degree_separators)
  else Some (firstn fields hour_separators).

Definition formatter (values : list Q) (spacing : Quantity) (o : Instance Quantity)
  : formatted (list string) :=
  match values with
  | [] => Done []
  | _ :: _ =>
      (d <- match _format o with
            | None =>
                fp <- automatic_fields spacing ;;
                Done (fst fp, snd fp, false, degree)
            | Some _ =>
                fields <- attribute "_fields" (_fields o) ;;
                precision <- attribute "_precision" (_precision o) ;;
                decimal <- attribute "_decimal" (_decimal o) ;;
                unit <- attribute "_unit" (_unit o) ;;
                Done (fields, Z.of_nat precision, decimal, unit)
            end ;;
       match d with
       | (fields, precision, decimal, unit) =>
           to_string values unit precision decimal fields (separators decimal unit fields)
       end)%formatted
  end.
End Formatter.

End AngleFormatterLocator.

(* ================================================================== *)
(** ** class ScalarFormatterLocator                                   *)
(* ================================================================== *)

Module ScalarFormatterLocator.
Import PyStr.
Local Abbreviation method := (M (Instance Q)).

Definition is_None (v : option Q) : bool :=
  match v with None => true | Some _ => false end.

(** The [base_spacing] property. *)
Definition base_spacing : method Q :=
  precision <- getattr "_precision" _precision ;;
  ret (1 / Num.pow10 precision)%Q.

Definition parse_format (value : string) : method Datatypes.unit :=
  if re_match SCAL_RE value then
    if contains "." value then
      modify (set_precision (len value - index "." value - 1))
    else
      modify (set_precision 0)
  else
    raise (ValueError ("Invalid format: " ++ value)).

(** [1e-10] *)
Definition tolerance : Q := 1 # 10000000000.

Definition check_spacing : method Datatypes.unit :=
  spacing <- get _spacing ;;
  too_small <- match spacing with
               | None => ret false
               | Some s => b <- base_spacing ;; ret (Num.ltb s b)
               end ;;
  when too_small
    (warn "Spacing is too small - resetting spacing to match format" ;;
     b <- base_spacing ;;
     BaseFormatterLocator.spacing_setter (Some b)) ;;
  spacing <- get _spacing ;;
  off_grid <- match spacing with
              | None => ret false
              | Some s => b <- base_spacing ;; ret (Num.ltb tolerance (Num.mod_ s b))
              end ;;
  when off_grid
    (warn "Spacing is not a multiple of base spacing - resetting spacing to match format" ;;
     b <- base_spacing ;;
     spacing <- get _spacing ;;
     match spacing with
     | Some s => r <- fdiv s s ;;
                 BaseFormatterLocator.spacing_setter (Some (b * inject_Z (Num.round r))%Q)
     | None => raise (TypeError "unsupported operand type(s) for /: 'NoneType' and 'NoneType'")
     end).

(** The [format] setter. *)
Definition format_setter (value : option string) : method Datatypes.unit :=
  modify (set_format value) ;;
  match value with
  | None => ret tt
  | Some value => parse_format value ;; check_spacing
  end.

Definition __init__ (values : option (list Q)) (number : option Z) (spacing : option Q)
           (format : option string) : method Datatypes.unit :=
  BaseFormatterLocator.__init__ is_None BaseFormatterLocator.spacing_setter format_setter
                                values number spacing format.

Section Locator.
(** [select_step_scalar] of [wcsaxes/utils.py]. *)
Variable select_step_scalar : Q -> Q.

(** The spacing the locator works with (lines 331-349). *)
Definition locator_spacing (value_min value_max : Q) : method Q :=
  spacing <- get _spacing ;;
  match spacing with
  | Some spacing => ret spacing
  | None =>
      number <- get _number ;;
      match number with
      | Some number =>
          dv <- fdiv (Qabs (value_max - value_min)) (inject_Z number) ;;
          format <- get _format ;;
          too_fine <- match format with
                      | None => ret false
                      | Some _ => b <- base_spacing ;; ret (Num.ltb dv b)
                      end ;;
          if too_fine : bool then base_spacing
          else ret (select_step_scalar dv)
      | None => raise (UnboundLocalError "spacing")
      end
  end.

Definition locator (value_min value_max : Q) : method (list Q * Q) :=
  values <- get _values ;;
  match values with
  | Some values => ret (values, (11 # 10)%Q)
  | None =>
      spacing <- locator_spacing value_min value_max ;;
      qmin <- fdiv value_min spacing ;;
      qmax <- fdiv value_max spacing ;;
      let imin := Num.ceil qmin in
      let imax := Num.floor qmax in
      let values := map (fun i => inject_Z i * spacing)%Q (Num.arange imin (imax + 1)) in
      ret (values, spacing)
  end.
End Locator.

(** [precision] (lines 362-368). *)
Definition formatter_precision (spacing : Q) (o : Instance Q) : formatted Z :=
  match _format o with
  | None =>
      if Num.ltb spacing 1
      then (k <- PyFormat.int_floor_log10 spacing ;; Done (- k)%Z)%formatted
      else Done 0%Z
  | Some _ =>
      (precision <- attribute "_precision" (_precision o) ;; Done (Z.of_nat precision))%formatted
  end.

Definition formatter (values : list Q) (spacing : Q) (o : Instance Q) : formatted (list string) :=
  match values with
  | [] => Done []
  | _ :: _ =>
      (precision <- formatter_precision spacing o ;;
       for_each (PyFormat.format_f precision) values)%formatted
  end.

End ScalarFormatterLocator.

(* ================================================================== *)
(** ** Vocabulary of the properties                                   *)
(* ================================================================== *)

(** How many of the three configuration attributes are not [None]. *)
Definition modes_set {T} (o : Instance T) : nat :=
  (match _values o with Some _ => 1 | None => 0 end)
  + (match _number o with Some _ => 1 | None => 0 end)
  + (match _spacing o with Some _ => 1 | None => 0 end).

(** An argument counts as supplied when it is not [None]. *)
Definition given {A} (x : option A) : nat :=
  match x with Some _ => 1 | None => 0 end.

Definition given_value (v : PyValue) : nat :=
  match v with PyNone => 0 | PyFloat _ | PyAngle _ | PyOtherQuantity _ _ => 1 end.

(** How many of [values], [number] and [spacing] a caller of the
    constructor supplies, for the arguments each class can be given. *)
Definition angle_supplied (values : option (list Q)) (number : option Z)
           (spacing : PyValue) : nat :=
  given values + given number + given_value spacing.

Definition scalar_supplied (values : option (list Q)) (number : option Z)
           (spacing : option Q) : nat :=
  given values + given number + given spacing.

(** The message of the error raised by a constructor that was given more
    than one mode. *)
Definition configuration_error : exn :=
  ValueError "At most one of values/number/spacing can be specifed".

(** The error raised by a format setter for a string it cannot read. *)
Definition invalid_format (value : string) : exn :=
  ValueError ("Invalid format: " ++ value).

(** No pattern of the angle class matches. *)
Definition angle_unmatched (value : string) : Prop :=
  re_match DMS_RE value = false /\ re_match HMS_RE value = false /\
  re_match DDEC_RE value = false /\ re_match DMIN_RE value = false /\
  re_match DSEC_RE value = false.

(** A method raises only exceptions that satisfy [P]. *)
Definition raises_only {S A} (P : exn -> Prop) (m : M S A) : Prop :=
  forall o e, result (m o) = Raise e -> P e.

(** The exceptions that come from reading the instance, never from the
    arguments of a call. *)
Definition from_descriptor (e : exn) : Prop :=
  match e with
  | AttributeError _ | UnboundLocalError _ | TypeError _ | ZeroDivisionError => True
  | ValueError _ => False
  end.

(** An exception other than the constructor's error. *)
Definition not_configuration_error (e : exn) : Prop := e <> configuration_error.

(** What [self.spacing = q] leaves behind when the setter does not raise. *)
Definition respaced {T} (q : T) (o : Instance T) : Instance T :=
  set_values None (set_spacing (Some q) (set_number None o)).

(** The two messages of [warnings.warn]. *)
Definition too_small_warning : string :=
  "Spacing is too small - resetting spacing to match format".
Definition not_multiple_warning : string :=
  "Spacing is not a multiple of base spacing - resetting spacing to match format".

(** The sexagesimal format strings, by their fields: [dd], [dd:mm],
    [dd:mm:ss] and [dd:mm:ss.s...] with [fraction] letters after the
    point; [lead] is ["dd"] or ["hh"]. *)
Inductive sexagesimal : Type :=
| Fields1
| Fields2
| Fields3 (fraction : nat).

Definition sexagesimal_format (lead : string) (f : sexagesimal) : string :=
  match f with
  | Fields1 => lead
  | Fields2 => lead ++ ":mm"
  | Fields3 O => lead ++ ":mm:ss"
  | Fields3 (S n) => lead ++ ":mm:ss." ++ PyStr.rep "s" (S n)
  end.


(** The stored spacing passes the test of the format setter: the
    remainder of the spacing by the base spacing is not above the
    tolerance [1e-10] (degrees for the angle class).  It holds when no
    spacing is stored. *)
Definition angle_on_grid (o : Instance Quantity) : bool :=
  match _spacing o with
  | None => true
  | Some s =>
      match result (AngleFormatterLocator.base_spacing o) with
      | Return b => negb (Units.gt (Units.rem s b) AngleFormatterLocator.tolerance)
      | Raise _ => false
      end
  end.

Definition scalar_on_grid (o : Instance Q) : bool :=
  match _spacing o with
  | None => true
  | Some s =>
      match result (ScalarFormatterLocator.base_spacing o) with
      | Return b => negb (Num.ltb ScalarFormatterLocator.tolerance (Num.mod_ s b))
      | Raise _ => false
      end
  end.

(** After the spec's words: the multiple of the base spacing nearest to a
    spacing. *)
Definition nearest_multiple (base spacing : Q) : Q :=
  (base * inject_Z (Num.round (spacing / base)))%Q.

(** After the spec's words: the grammars of the format strings,
    [dd[:mm[:ss[.s+]]]], [hh[:mm[:ss[.s+]]]], [d[.d+]], [m[.m+]],
    [s[.s+]] and [x[.x+]], in which the point is a point and the string
    ends where the grammar ends. *)
Definition fraction (c : ascii) : regex := Opt (Cat (Chr ".") (Plus (Chr c))).

Definition sexagesimal_grammar (lead : string) : regex :=
  Cat (Lit lead) (Opt (Cat (Lit ":mm") (Opt (Cat (Lit ":ss") (fraction "s"))))).

Definition decimal_grammar (c : ascii) : regex := Cat (Chr c) (fraction c).

Definition in_angle_grammar (value : string) : bool :=
  fullmatch (sexagesimal_grammar "dd") value || fullmatch (sexagesimal_grammar "hh") value
  || fullmatch (decimal_grammar "d") value || fullmatch (decimal_grammar "m") value
  || fullmatch (decimal_grammar "s") value.

Definition in_scalar_grammar (value : string) : bool :=
  fullmatch (decimal_grammar "x") value.

(** [Loosens r r']: [r'] is [r] with some literal characters, none of
    them a newline, replaced by [.]. *)
Inductive Loosens : regex -> regex -> Prop :=
| LRefl r : Loosens r r
| LDot c : c <> newline -> Loosens (Chr c) Dot
| LCat r r' s s' : Loosens r r' -> Loosens s s' -> Loosens (Cat r s) (Cat r' s')
| LAlt r r' s s' : Loosens r r' -> Loosens s s' -> Loosens (Alt r s) (Alt r' s')
| LStar r r' : Loosens r r' -> Loosens (Star r) (Star r').

(** A method only reads: it leaves the instance as it found it and warns
    of nothing. *)
Definition reads {S A} (m : M S A) : Prop :=
  forall o, self (m o) = o /\ warned (m o) = [].

(** The three ways in which a format assignment treats an explicit
    spacing [s], given the base spacing [b] of the new format: [s'] is the
    spacing stored afterwards and [w] the warnings emitted. *)
Definition angle_spacing_outcome (s b s' : Quantity) (w : list string) : Prop :=
  (Units.lt s b = false /\
   Units.gt (Units.rem s b) AngleFormatterLocator.tolerance = false /\
   s' = s /\ w = [])
  \/
  (Units.lt s b = true /\ s' = b /\ w = [too_small_warning])
  \/
  (Units.lt s b = false /\
   Units.gt (Units.rem s b) AngleFormatterLocator.tolerance = true /\
   unit s' = unit b /\ (value s' == value b)%Q /\ w = [not_multiple_warning]).

Definition scalar_spacing_outcome (s b s' : Q) (w : list string) : Prop :=
  (Num.ltb s b = false /\
   Num.ltb ScalarFormatterLocator.tolerance (Num.mod_ s b) = false /\
   s' = s /\ w = [])
  \/
  (Num.ltb s b = true /\ s' = b /\ w = [too_small_warning])
  \/
  (Num.ltb s b = false /\
   Num.ltb ScalarFormatterLocator.tolerance (Num.mod_ s b) = true /\
   (s' == b)%Q /\ w = [not_multiple_warning]).

(** The decimal format strings: the letter [c] alone, or [c], a point and
    [n] more letters [c]. *)
Definition decimal_format (c : ascii) (n : nat) : string :=
  String c (match n with O => "" | S _ => String "." (PyStr.rep c n) end).

(** The descriptor attributes of an instance. *)
Definition descriptor {T} (o : Instance T) : option bool * option AngleUnit * option nat * option nat :=
  (_decimal o, _unit o, _fields o, _precision o).

(** The fields and the fraction letters of a sexagesimal format. *)
Definition sexagesimal_fields (f : sexagesimal) : nat :=
  match f with Fields1 => 1 | Fields2 => 2 | Fields3 _ => 3 end.

Definition sexagesimal_precision (f : sexagesimal) : nat :=
  match f with Fields3 n => n | _ => 0 end.

(** [value] is one of the formats generated by [sexagesimal_format] and
    [decimal_format] for the angle class. *)
Definition angle_format_family (value : string) : Prop :=
  (exists (hours : bool) f, value = sexagesimal_format (if hours then "hh" else "dd") f)
  \/
  (exists c n, (c = "d" \/ c = "m" \/ c = "s")%char /\ value = decimal_format c n).

(** The characters [0] to [9], and the strings made of them. *)
Definition is_digit (c : ascii) : bool :=
  (48 <=? nat_of_ascii c) && (nat_of_ascii c <=? 57).

Fixpoint all_digits (s : string) : bool :=
  match s with
  | EmptyString => true
  | String c s' => is_digit c && all_digits s'
  end.

(** The instance a sexagesimal format in degrees leaves behind, as far as
    [base_spacing] reads it. *)
Definition sexagesimal_degrees (fields precision : nat) : Instance Quantity :=
  Obj None None None None (Some degree) (Some false) (Some fields) (Some precision).

(** A quantity in degrees. *)
Definition degrees (q : Quantity) : Q := (value q * Units.in_degrees (unit q))%Q.

(** The number of decimals a string shows, as the format setters read it
    off a format (lines 119-123, 303-306): the characters after the first
    point, none without a point. *)
Definition decimals (s : string) : nat :=
  if PyStr.contains "." s then PyStr.len s - PyStr.index "." s - 1 else 0.

(* ================================================================== *)
(** ** Reasoning about methods                                        *)
(* ================================================================== *)

Section MethodLemmas.
Context {S : Type}.

Lemma bind_Raise A B (m : M S A) (k : A -> M S B) o e :
  result (bind m k o) = Raise e ->
  result (m o) = Raise e \/
  exists a, result (m o) = Return a /\ result (k a (self (m o))) = Raise e.
Proof.
  unfold bind. destruct (m o) as [[a | e'] o' w]; cbn [result self].
  - destruct (k a o') as [r o'' w'] eqn:E. cbn [result]. intros ->.
    right. exists a. rewrite E. split; reflexivity.
  - intros H. left. injection H as <-. reflexivity.
Qed.

(** One statement of a method after the other. *)
Lemma bind_run A B (m : M S A) (k : A -> M S B) o a o' w :
  m o = Run (Return a) o' w ->
  bind m k o = Run (result (k a o')) (self (k a o')) (w ++ warned (k a o'))%list.
Proof. intros E. unfold bind. rewrite E. destruct (k a o'); reflexivity. Qed.

Lemma bind_run_Raise A B (m : M S A) (k : A -> M S B) o e o' w :
  m o = Run (Raise e) o' w -> bind m k o = Run (Raise e) o' w.
Proof. intros E. unfold bind. rewrite E. reflexivity. Qed.

Lemma bind_quiet A B (m : M S A) (k : A -> M S B) o a o' :
  m o = Run (Return a) o' [] -> bind m k o = k a o'.
Proof. intros E. unfold bind. rewrite E. destruct (k a o'); reflexivity. Qed.

Lemma bind_get A B (f : S -> A) (k : A -> M S B) o : bind (get f) k o = k (f o) o.
Proof. apply bind_quiet. reflexivity. Qed.

Lemma bind_ret A B (a : A) (k : A -> M S B) o : bind (ret a) k o = k a o.
Proof. apply bind_quiet. reflexivity. Qed.

Lemma bind_modify B (f : S -> S) (k : Datatypes.unit -> M S B) o :
  bind (modify f) k o = k tt (f o).
Proof. apply bind_quiet. reflexivity. Qed.

Lemma bind_warn B msg (k : Datatypes.unit -> M S B) o :
  bind (warn msg) k o = Run (result (k tt o)) (self (k tt o)) (msg :: warned (k tt o)).
Proof. unfold bind, warn. destruct (k tt o); reflexivity. Qed.

Lemma bind_raise A B e (k : A -> M S B) o : bind (raise e) k o = Run (Raise e) o [].
Proof. reflexivity. Qed.

Lemma raises_only_bind A B P (m : M S A) (k : A -> M S B) :
  raises_only P m -> (forall a, raises_only P (k a)) -> raises_only P (bind m k).
Proof.
  intros Hm Hk o e H. apply bind_Raise in H. destruct H as [H | (a & _ & H)].
  - exact (Hm _ _ H).
  - exact (Hk _ _ _ H).
Qed.

Lemma raises_only_ret A P (a : A) : raises_only P (ret (S := S) a).
Proof. intros o e H. discriminate. Qed.

Lemma raises_only_get A P (f : S -> A) : raises_only P (get f).
Proof. intros o e H. discriminate. Qed.

Lemma raises_only_modify P (f : S -> S) : raises_only P (modify f).
Proof. intros o e H. discriminate. Qed.

Lemma raises_only_warn P msg : raises_only P (warn (S := S) msg).
Proof. intros o e H. discriminate. Qed.

Lemma raises_only_raise A (P : exn -> Prop) e : P e -> raises_only P (raise (S := S) (A := A) e).
Proof. intros H o e' E. injection E as <-. exact H. Qed.

Lemma raises_only_getattr A (P : exn -> Prop) name (f : S -> option A) :
  P (AttributeError name) -> raises_only P (getattr name f).
Proof.
  intros H o e. unfold getattr. destruct (f o); simpl; intros E; [discriminate|].
  injection E as <-. exact H.
Qed.

Lemma raises_only_when P b (m : M S Datatypes.unit) :
  raises_only P m -> raises_only P (when b m).
Proof. intros H. destruct b; simpl; [exact H | apply raises_only_ret]. Qed.

Lemma raises_only_fdiv (P : exn -> Prop) x y :
  P ZeroDivisionError -> raises_only P (fdiv (S := S) x y).
Proof.
  intros H. unfold fdiv. destruct (Num.is_zero y);
    [apply raises_only_raise; exact H | apply raises_only_ret].
Qed.

End MethodLemmas.

(** Decomposes a method into its statements. *)
Ltac raises_only_step :=
  first
    [ apply raises_only_bind; [ | intros ? ]
    | apply raises_only_ret
    | apply raises_only_get
    | apply raises_only_modify
    | apply raises_only_warn
    | apply raises_only_when
    | apply raises_only_getattr; simpl; auto
    | apply raises_only_fdiv; simpl; auto
    | apply raises_only_raise; simpl; auto
    | match goal with
      | |- raises_only _ (if ?b then _ else _) => destruct b
      | |- raises_only _ (match ?x with _ => _ end) => destruct x
      end ].

Lemma angle_base_spacing_raises :
  raises_only from_descriptor AngleFormatterLocator.base_spacing.
Proof. unfold AngleFormatterLocator.base_spacing. repeat raises_only_step. Qed.

Lemma angle_spacing_setter_raises v :
  raises_only from_descriptor (AngleFormatterLocator.spacing_setter v).
Proof. unfold AngleFormatterLocator.spacing_setter. repeat raises_only_step. Qed.

Lemma angle_check_spacing_raises :
  raises_only from_descriptor AngleFormatterLocator.check_spacing.
Proof.
  unfold AngleFormatterLocator.check_spacing.
  repeat first [ apply angle_base_spacing_raises | apply angle_spacing_setter_raises
               | raises_only_step ].
Qed.

(* ================================================================== *)
(** ** The configuration modes                                        *)
(* ================================================================== *)

Ltac run_method :=
  cbv [bind ret raise get getattr modify warn when fdiv
       BaseFormatterLocator.values_setter BaseFormatterLocator.number_setter
       BaseFormatterLocator.spacing_setter AngleFormatterLocator.spacing_setter];
  cbn [result self warned app].

(** C4.  Each base-class setter stores its argument and sets the other
    two modes to [None], for every instance and every value; the angle
    class's spacing setter does the same unless its type guard raises, in
    which case the instance is left as it was.  After a setter has run,
    at most one mode is not [None]. *)
Theorem setters_clear_the_other_modes :
  (forall (T : Type) (o : Instance T) values,
      let r := BaseFormatterLocator.values_setter values o in
      result r = Return tt /\ _values (self r) = values /\
      _number (self r) = None /\ _spacing (self r) = None /\ modes_set (self r) <= 1)
  /\
  (forall (T : Type) (o : Instance T) number,
      let r := BaseFormatterLocator.number_setter number o in
      result r = Return tt /\ _number (self r) = number /\
      _values (self r) = None /\ _spacing (self r) = None /\ modes_set (self r) <= 1)
  /\
  (forall (T : Type) (o : Instance T) spacing,
      let r := BaseFormatterLocator.spacing_setter spacing o in
      result r = Return tt /\ _spacing (self r) = spacing /\
      _values (self r) = None /\ _number (self r) = None /\ modes_set (self r) <= 1)
  /\
  (forall (o : Instance Quantity) spacing,
      let r := AngleFormatterLocator.spacing_setter spacing o in
      (result r = Return tt /\ _spacing (self r) = AngleFormatterLocator.stored spacing /\
       _values (self r) = None /\ _number (self r) = None /\ modes_set (self r) <= 1)
      \/
      (AngleFormatterLocator.is_angle_quantity spacing = false /\ spacing <> PyNone /\
       (exists msg, result r = Raise (TypeError msg)) /\ self r = o)).
Proof.
  repeat split; try reflexivity.
  - destruct values; cbv; lia.
  - destruct number; cbv; lia.
  - destruct spacing; cbv; lia.
  - destruct spacing as [ | x | q | x p ].
    + left. repeat split; cbv; lia.
    + right. repeat split; [discriminate | eexists; reflexivity].
    + left. repeat split; cbv; lia.
    + right. repeat split; [discriminate | eexists; reflexivity].
Qed.

(* ================================================================== *)
(** ** The locator in explicit-values mode                            *)
(* ================================================================== *)

(** C7.  When [values] is set, the locator returns it as it is, whatever
    the range, with the fixed spacing [1.1 arcsec] (angle class) or [1.1]
    (scalar class); the instance is not changed and nothing is warned. *)
Theorem locator_returns_explicit_values :
  (forall select_step_degree select_step_hour (o : Instance Quantity) values value_min value_max,
      _values o = Some values ->
      AngleFormatterLocator.locator select_step_degree select_step_hour value_min value_max o
      = Run (Return (values, Qty (11 # 10) arcsec)) o [])
  /\
  (forall select_step_scalar (o : Instance Q) values value_min value_max,
      _values o = Some values ->
      ScalarFormatterLocator.locator select_step_scalar value_min value_max o
      = Run (Return (values, (11 # 10)%Q)) o []).
Proof.
  split; intros; unfold AngleFormatterLocator.locator, ScalarFormatterLocator.locator;
    run_method; rewrite H; reflexivity.
Qed.

Lemma locator_returns_explicit_values_witness :
  AngleFormatterLocator.locator (fun dv => dv) (fun dv => dv) 0 1
    (Obj (Some [(1 # 2)%Q; 7%Q; (-3)%Q]) None None None (Some degree) None None None)
  = Run (Return ([(1 # 2)%Q; 7%Q; (-3)%Q], Qty (11 # 10) arcsec))
        (Obj (Some [(1 # 2)%Q; 7%Q; (-3)%Q]) None None None (Some degree) None None None) []
  /\
  ScalarFormatterLocator.locator (fun dv => dv) 0 1
    (Obj (Some [(1 # 2)%Q; 7%Q; (-3)%Q]) None None None None None None None)
  = Run (Return ([(1 # 2)%Q; 7%Q; (-3)%Q], (11 # 10)%Q))
        (Obj (Some [(1 # 2)%Q; 7%Q; (-3)%Q]) None None None None None None None) [].
Proof.
  split.
  - apply (proj1 locator_returns_explicit_values). reflexivity.
  - apply (proj2 locator_returns_explicit_values). reflexivity.
Defined.

(* ================================================================== *)
(** ** A format string that is rejected                               *)
(* ================================================================== *)

(** C10.  For a string that none of the patterns matches, the format
    setter raises the invalid-format error after it has stored the string
    in [_format]: the instance left behind is the old one with [_format]
    replaced, so [_precision], [_fields], [_unit] and [_decimal] are those
    of the previous successful assignment. *)
Theorem rejected_format_is_stored :
  (forall (o : Instance Quantity) value,
      angle_unmatched value ->
      let r := AngleFormatterLocator.format_setter (Some value) o in
      result r = Raise (invalid_format value) /\
      self r = set_format (Some value) o /\
      _format (self r) = Some value /\
      _precision (self r) = _precision o /\ _fields (self r) = _fields o /\
      _unit (self r) = _unit o /\ _decimal (self r) = _decimal o)
  /\
  (forall (o : Instance Q) value,
      re_match SCAL_RE value = false ->
      let r := ScalarFormatterLocator.format_setter (Some value) o in
      result r = Raise (invalid_format value) /\
      self r = set_format (Some value) o /\
      _format (self r) = Some value /\
      _precision (self r) = _precision o).
Proof.
  split.
  - intros o value (H1 & H2 & H3 & H4 & H5).
    unfold AngleFormatterLocator.format_setter, AngleFormatterLocator.parse_format.
    rewrite H1, H2, H3, H4, H5. repeat split.
  - intros o value H.
    unfold ScalarFormatterLocator.format_setter, ScalarFormatterLocator.parse_format.
    rewrite H. repeat split.
Qed.

Lemma rejected_format_is_stored_witness :
  (let o := self (AngleFormatterLocator.__init__ None None PyNone (Some "dd:mm") blank) in
   let r := AngleFormatterLocator.format_setter (Some "degrees") o in
   result r = Raise (invalid_format "degrees") /\
   self r = set_format (Some "degrees") o /\
   _format (self r) = Some "degrees" /\
   _precision (self r) = Some 0 /\ _fields (self r) = Some 2 /\
   _unit (self r) = Some degree /\ _decimal (self r) = Some false)
  /\
  (let o := self (ScalarFormatterLocator.__init__ None None None (Some "x.xx") blank) in
   let r := ScalarFormatterLocator.format_setter (Some "%.2f") o in
   result r = Raise (invalid_format "%.2f") /\
   self r = set_format (Some "%.2f") o /\
   _format (self r) = Some "%.2f" /\
   _precision (self r) = Some 2).
Proof.
  split.
  - apply (proj1 rejected_format_is_stored). repeat split.
  - apply (proj2 rejected_format_is_stored). reflexivity.
Defined.

(* ================================================================== *)
(** ** Construction                                                   *)
(* ================================================================== *)

Lemma angle_parse_format_outcome value (o : Instance Quantity) :
  (angle_unmatched value /\
   AngleFormatterLocator.parse_format value o = Run (Raise (invalid_format value)) o [])
  \/
  (exists o', AngleFormatterLocator.parse_format value o = Run (Return tt) o' [] /\
              _values o' = _values o /\ _number o' = _number o /\
              _spacing o' = _spacing o /\ _format o' = _format o).
Proof.
  unfold AngleFormatterLocator.parse_format, angle_unmatched.
  destruct (re_match DMS_RE value);
    [right; destruct (PyStr.contains "." value); eexists; repeat split|].
  destruct (re_match HMS_RE value);
    [right; destruct (PyStr.contains "." value); eexists; repeat split|].
  destruct (re_match DDEC_RE value);
    [right; destruct (PyStr.contains "." value); eexists; repeat split|].
  destruct (re_match DMIN_RE value);
    [right; destruct (PyStr.contains "." value); eexists; repeat split|].
  destruct (re_match DSEC_RE value);
    [right; destruct (PyStr.contains "." value); eexists; repeat split|].
  left. repeat split.
Qed.

Lemma scalar_parse_format_outcome value (o : Instance Q) :
  (re_match SCAL_RE value = false /\
   ScalarFormatterLocator.parse_format value o = Run (Raise (invalid_format value)) o [])
  \/
  (exists o', ScalarFormatterLocator.parse_format value o = Run (Return tt) o' [] /\
              _values o' = _values o /\ _number o' = _number o /\
              _spacing o' = _spacing o /\ _format o' = _format o).
Proof.
  unfold ScalarFormatterLocator.parse_format.
  destruct (re_match SCAL_RE value);
    [right; destruct (PyStr.contains "." value); eexists; repeat split | left; repeat split].
Qed.

Lemma angle_check_spacing_idle (o : Instance Quantity) :
  _spacing o = None -> AngleFormatterLocator.check_spacing o = Run (Return tt) o [].
Proof.
  intros H. unfold AngleFormatterLocator.check_spacing.
  rewrite bind_get, H, bind_ret. cbn [when]. rewrite bind_ret, bind_get, H, bind_ret.
  reflexivity.
Qed.

Lemma scalar_check_spacing_idle (o : Instance Q) :
  _spacing o = None -> ScalarFormatterLocator.check_spacing o = Run (Return tt) o [].
Proof.
  intros H. unfold ScalarFormatterLocator.check_spacing.
  rewrite bind_get, H, bind_ret. cbn [when]. rewrite bind_ret, bind_get, H, bind_ret.
  reflexivity.
Qed.

Lemma scalar_base_spacing_raises :
  raises_only from_descriptor ScalarFormatterLocator.base_spacing.
Proof. unfold ScalarFormatterLocator.base_spacing. repeat raises_only_step. Qed.

Lemma scalar_check_spacing_raises :
  raises_only from_descriptor ScalarFormatterLocator.check_spacing.
Proof.
  unfold ScalarFormatterLocator.check_spacing, BaseFormatterLocator.spacing_setter.
  repeat first [ apply scalar_base_spacing_raises | raises_only_step ].
Qed.


Lemma from_descriptor_not_configuration e :
  from_descriptor e -> not_configuration_error e.
Proof. intros H E. subst e. exact H. Qed.

Lemma raises_only_weaken S A (P P' : exn -> Prop) (m : M S A) :
  (forall e, P e -> P' e) -> raises_only P m -> raises_only P' m.
Proof. intros HP H o e E. apply HP. exact (H o e E). Qed.

Lemma angle_format_setter_raises format :
  raises_only not_configuration_error (AngleFormatterLocator.format_setter format).
Proof.
  unfold AngleFormatterLocator.format_setter.
  apply raises_only_bind; [apply raises_only_modify | intros _].
  destruct format as [value|]; [|apply raises_only_ret].
  apply raises_only_bind.
  - intros o e H.
    destruct (angle_parse_format_outcome value o) as [(_ & E) | (o' & E & _)].
    + rewrite E in H. injection H as <-. discriminate.
    + rewrite E in H. discriminate.
  - intros _. eapply raises_only_weaken;
      [exact from_descriptor_not_configuration | exact angle_check_spacing_raises].
Qed.

Lemma scalar_format_setter_raises format :
  raises_only not_configuration_error (ScalarFormatterLocator.format_setter format).
Proof.
  unfold ScalarFormatterLocator.format_setter.
  apply raises_only_bind; [apply raises_only_modify | intros _].
  destruct format as [value|]; [|apply raises_only_ret].
  apply raises_only_bind.
  - intros o e H.
    destruct (scalar_parse_format_outcome value o) as [(_ & E) | (o' & E & _)].
    + rewrite E in H. injection H as <-. discriminate.
    + rewrite E in H. discriminate.
  - intros _. eapply raises_only_weaken;
      [exact from_descriptor_not_configuration | exact scalar_check_spacing_raises].
Qed.

Lemma angle_init_configuration_error values number spacing format (o : Instance Quantity) :
  result (AngleFormatterLocator.__init__ values number spacing format o)
  = Raise configuration_error
  <-> 2 <= angle_supplied values number spacing.
Proof.
  unfold AngleFormatterLocator.__init__, BaseFormatterLocator.__init__.
  destruct (BaseFormatterLocator.count_None _ values number spacing <? 2) eqn:C.
  - split; [intros _ | intros _; reflexivity].
    destruct values, number, spacing; cbn in C; try discriminate; cbn; lia.
  - split; [|intros H; exfalso; revert C H;
             destruct values, number, spacing; cbn; intros C H; try discriminate; lia].
    intros H. exfalso. revert H.
    assert (R : raises_only not_configuration_error
                  (modify (set_unit degree) ;;
                   ret tt ;;
                   match values with
                   | Some _ => BaseFormatterLocator.values_setter values
                   | None =>
                     match number with
                     | Some _ => BaseFormatterLocator.number_setter number
                     | None =>
                       if negb (AngleFormatterLocator.is_None spacing)
                       then AngleFormatterLocator.spacing_setter spacing
                       else BaseFormatterLocator.number_setter (Some 5%Z)
                     end
                   end ;;
                   AngleFormatterLocator.format_setter format)).
    { apply raises_only_bind; [apply raises_only_modify | intros _].
      apply raises_only_bind; [apply raises_only_ret | intros _].
      apply raises_only_bind; [ | intros _; apply angle_format_setter_raises].
      eapply raises_only_weaken; [exact from_descriptor_not_configuration|].
      unfold BaseFormatterLocator.values_setter, BaseFormatterLocator.number_setter.
      repeat first [ apply angle_spacing_setter_raises | raises_only_step ]. }
    intros H. exact (R o _ H eq_refl).
Qed.

Lemma scalar_init_configuration_error values number spacing format (o : Instance Q) :
  result (ScalarFormatterLocator.__init__ values number spacing format o)
  = Raise configuration_error
  <-> 2 <= scalar_supplied values number spacing.
Proof.
  unfold ScalarFormatterLocator.__init__, BaseFormatterLocator.__init__.
  destruct (BaseFormatterLocator.count_None _ values number spacing <? 2) eqn:C.
  - split; [intros _ | intros _; reflexivity].
    destruct values, number, spacing; cbn in C; try discriminate; cbn; lia.
  - split; [|intros H; exfalso; revert C H;
             destruct values, number, spacing; cbn; intros C H; try discriminate; lia].
    intros H. exfalso. revert H.
    assert (R : raises_only not_configuration_error
                  (ret tt ;;
                   match values with
                   | Some _ => BaseFormatterLocator.values_setter values
                   | None =>
                     match number with
                     | Some _ => BaseFormatterLocator.number_setter number
                     | None =>
                       if negb (ScalarFormatterLocator.is_None spacing)
                       then BaseFormatterLocator.spacing_setter spacing
                       else BaseFormatterLocator.number_setter (Some 5%Z)
                     end
                   end ;;
                   ScalarFormatterLocator.format_setter format)).
    { apply raises_only_bind; [apply raises_only_ret | intros _].
      apply raises_only_bind; [ | intros _; apply scalar_format_setter_raises].
      eapply raises_only_weaken; [exact from_descriptor_not_configuration|].
      unfold BaseFormatterLocator.values_setter, BaseFormatterLocator.number_setter,
        BaseFormatterLocator.spacing_setter.
      repeat raises_only_step. }
    intros H. exact (R o _ H eq_refl).
Qed.

Lemma angle_init_default format (o : Instance Quantity) :
  let r := AngleFormatterLocator.__init__ None None PyNone format o in
  _number (self r) = Some 5%Z /\ _values (self r) = None /\ _spacing (self r) = None /\
  (result r = Return tt \/
   exists value, format = Some value /\ angle_unmatched value /\
                 result r = Raise (invalid_format value)).
Proof.
  unfold AngleFormatterLocator.__init__, BaseFormatterLocator.__init__,
    AngleFormatterLocator.format_setter.
  rewrite bind_modify. cbn [BaseFormatterLocator.count_None AngleFormatterLocator.is_None Nat.add Nat.ltb
       Nat.leb negb].
  rewrite bind_ret.
  erewrite bind_quiet by reflexivity.
  rewrite bind_modify.
  destruct format as [value|]; [|repeat split; left; reflexivity].
  match goal with
  | |- context [bind (AngleFormatterLocator.parse_format value) _ ?o1] =>
      destruct (angle_parse_format_outcome value o1) as [(U & E) | (o' & E & Hv & Hn & Hs & Hf)]
  end.
  - erewrite bind_run_Raise by exact E. cbn [result self]. repeat split.
    right. exists value. repeat split; apply U.
  - erewrite bind_quiet by exact E.
    rewrite angle_check_spacing_idle by (rewrite Hs; reflexivity).
    cbn [result self]. rewrite Hv, Hn, Hs. repeat split. left. reflexivity.
Qed.

Lemma scalar_init_default format (o : Instance Q) :
  let r := ScalarFormatterLocator.__init__ None None None format o in
  _number (self r) = Some 5%Z /\ _values (self r) = None /\ _spacing (self r) = None /\
  (result r = Return tt \/
   exists value, format = Some value /\ re_match SCAL_RE value = false /\
                 result r = Raise (invalid_format value)).
Proof.
  unfold ScalarFormatterLocator.__init__, BaseFormatterLocator.__init__,
    ScalarFormatterLocator.format_setter.
  cbn [BaseFormatterLocator.count_None ScalarFormatterLocator.is_None Nat.add Nat.ltb
       Nat.leb negb].
  rewrite bind_ret.
  erewrite bind_quiet by reflexivity.
  rewrite bind_modify.
  destruct format as [value|]; [|repeat split; left; reflexivity].
  match goal with
  | |- context [bind (ScalarFormatterLocator.parse_format value) _ ?o1] =>
      destruct (scalar_parse_format_outcome value o1) as [(U & E) | (o' & E & Hv & Hn & Hs & Hf)]
  end.
  - erewrite bind_run_Raise by exact E. cbn [result self]. repeat split.
    right. exists value. repeat split; apply U.
  - erewrite bind_quiet by exact E.
    rewrite scalar_check_spacing_idle by (rewrite Hs; reflexivity).
    cbn [result self]. rewrite Hv, Hn, Hs. repeat split. left. reflexivity.
Qed.

(** C5.  A constructor raises "At most one of values/number/spacing can
    be specifed" exactly when two or three of [values], [number] and
    [spacing] are not [None].  With all three [None] it sets [number] to
    5 and leaves [values] and [spacing] at [None]; the construction then
    succeeds, unless the format string is one the class cannot read, and
    it always succeeds when no format is given either. *)
Theorem constructor_rejects_two_modes_and_defaults_to_five :
  (forall values number spacing format (o : Instance Quantity),
      result (AngleFormatterLocator.__init__ values number spacing format o)
      = Raise configuration_error
      <-> 2 <= angle_supplied values number spacing)
  /\
  (forall values number spacing format (o : Instance Q),
      result (ScalarFormatterLocator.__init__ values number spacing format o)
      = Raise configuration_error
      <-> 2 <= scalar_supplied values number spacing)
  /\
  (forall format (o : Instance Quantity),
      let r := AngleFormatterLocator.__init__ None None PyNone format o in
      _number (self r) = Some 5%Z /\ _values (self r) = None /\ _spacing (self r) = None /\
      (result r = Return tt \/
       exists value, format = Some value /\ angle_unmatched value /\
                     result r = Raise (invalid_format value)))
  /\
  (forall format (o : Instance Q),
      let r := ScalarFormatterLocator.__init__ None None None format o in
      _number (self r) = Some 5%Z /\ _values (self r) = None /\ _spacing (self r) = None /\
      (result r = Return tt \/
       exists value, format = Some value /\ re_match SCAL_RE value = false /\
                     result r = Raise (invalid_format value)))
  /\
  result (AngleFormatterLocator.__init__ None None PyNone None blank) = Return tt
  /\
  result (ScalarFormatterLocator.__init__ None None None None blank) = Return tt.
Proof.
  split; [exact angle_init_configuration_error|].
  split; [exact scalar_init_configuration_error|].
  split; [exact angle_init_default|].
  split; [exact scalar_init_default|].
  split; reflexivity.
Qed.

(* ================================================================== *)
(** ** The base spacing and the check of the spacing                  *)
(* ================================================================== *)

Lemma bind_assoc S A B C (m : M S A) (k : A -> M S B) (h : B -> M S C) o :
  bind (bind m k) h o = bind m (fun a => bind (k a) h) o.
Proof.
  unfold bind. destruct (m o) as [[a|e] o1 w1]; [|reflexivity].
  destruct (k a o1) as [[b|e] o2 w2]; [|reflexivity].
  destruct (h b o2) as [r o3 w3]. rewrite app_assoc. reflexivity.
Qed.

(** [base_spacing] only reads. *)
Lemma angle_base_spacing_reads (o : Instance Quantity) :
  AngleFormatterLocator.base_spacing o
  = Run (result (AngleFormatterLocator.base_spacing o)) o [].
Proof.
  destruct o as [v n s f u d fl p].
  destruct d as [[|]|], u as [[]|], fl as [[|[|[|[|]]]]|], p as [[|]|]; reflexivity.
Qed.

(** ... and only the descriptor. *)
Lemma angle_base_spacing_descriptor v n s f v' n' s' f' u d fl p :
  result (AngleFormatterLocator.base_spacing (Obj v n s f u d fl p))
  = result (AngleFormatterLocator.base_spacing
              (Obj v' n' s' f' u d fl p : Instance Quantity)).
Proof.
  destruct d as [[|]|], u as [[]|], fl as [[|[|[|[|]]]]|], p as [[|]|]; reflexivity.
Qed.

Lemma angle_base_spacing_respaced q (o : Instance Quantity) :
  result (AngleFormatterLocator.base_spacing (respaced q o))
  = result (AngleFormatterLocator.base_spacing o).
Proof. destruct o. apply angle_base_spacing_descriptor. Qed.

(** The check of the spacing, statement by statement. *)
Lemma angle_check_spacing_unfolded (o : Instance Quantity) :
  AngleFormatterLocator.check_spacing o =
  match _spacing o with
  | None => Run (Return tt) o []
  | Some s =>
      match result (AngleFormatterLocator.base_spacing o) with
      | Raise e => Run (Raise e) o []
      | Return b =>
          let s1 := if Units.lt s b then b else s in
          let o1 := if Units.lt s b then respaced b o else o in
          let w1 := if Units.lt s b then [too_small_warning] else [] in
          if Units.gt (Units.rem s1 b) AngleFormatterLocator.tolerance
          then Run (Return tt)
                   (respaced (Units.scale b (inject_Z (Num.round (Units.ratio s1 s1)))) o1)
                   (w1 ++ [not_multiple_warning])%list
          else Run (Return tt) o1 w1
      end
  end.
Proof.
  unfold AngleFormatterLocator.check_spacing.
  rewrite bind_get. destruct (_spacing o) as [s|] eqn:Es.
  2:{ rewrite bind_ret. cbn [when]. rewrite bind_ret, bind_get, Es, bind_ret. reflexivity. }
  pose proof (angle_base_spacing_reads o) as Ho.
  destruct (result (AngleFormatterLocator.base_spacing o)) as [b|e] eqn:Eb.
  2:{ rewrite bind_assoc. erewrite bind_run_Raise by exact Ho. reflexivity. }
  rewrite bind_assoc. erewrite bind_quiet by exact Ho. rewrite bind_ret.
  cbv zeta.
  assert (Hset : forall q (o' : Instance Quantity),
             AngleFormatterLocator.spacing_setter (PyAngle q) o'
             = Run (Return tt) (respaced q o') []) by reflexivity.
  assert (Hb' : forall q, AngleFormatterLocator.base_spacing (respaced q o)
                          = Run (Return b) (respaced q o) []).
  { intros q. rewrite angle_base_spacing_reads, angle_base_spacing_respaced, Eb. reflexivity. }
  destruct (Units.lt s b) eqn:Elt; cbn [when].
  - rewrite bind_assoc, bind_warn. cbv beta.
    rewrite !bind_assoc. erewrite bind_quiet by exact Ho.
    erewrite bind_quiet by apply Hset.
    rewrite bind_get. change (_spacing (respaced b o)) with (Some b). cbv beta iota.
    rewrite bind_assoc. erewrite bind_quiet by apply Hb'. rewrite bind_ret.
    destruct (Units.gt (Units.rem b b) AngleFormatterLocator.tolerance); cbn [when].
    + rewrite bind_warn. cbv beta. erewrite bind_quiet by apply Hb'.
      rewrite bind_get. change (_spacing (respaced b o)) with (Some b). cbv beta iota.
      rewrite Hset. reflexivity.
    + reflexivity.
  - rewrite bind_ret, bind_get, Es. cbv beta iota.
    rewrite bind_assoc. erewrite bind_quiet by exact Ho. rewrite bind_ret.
    destruct (Units.gt (Units.rem s b) AngleFormatterLocator.tolerance); cbn [when].
    + rewrite bind_warn. cbv beta. erewrite bind_quiet by exact Ho.
      rewrite bind_get, Es. cbv beta iota. rewrite Hset. reflexivity.
    + reflexivity.
Qed.

(* ================================================================== *)
(** ** Hour-angle formats                                             *)
(* ================================================================== *)

Lemma re_match_Void s : re_match Void s = false.
Proof. induction s as [|c s IH]; simpl; [reflexivity | exact IH]. Qed.

Lemma re_match_Star_rep c n :
  c <> newline -> re_match (Star (Chr c)) (PyStr.rep c n) = true.
Proof.
  intros Hc. induction n as [|n IH]; simpl; [reflexivity|].
  rewrite Ascii.eqb_refl. simpl. rewrite IH. apply orb_true_r.
Qed.

Lemma length_rep c n : String.length (PyStr.rep c n) = n.
Proof. induction n as [|n IH]; simpl; [reflexivity | rewrite IH; reflexivity]. Qed.

(** The format setter never fails once the descriptor is readable. *)
Lemma angle_check_spacing_returns (o : Instance Quantity) b :
  result (AngleFormatterLocator.base_spacing o) = Return b ->
  result (AngleFormatterLocator.check_spacing o) = Return tt /\
  _unit (self (AngleFormatterLocator.check_spacing o)) = _unit o /\
  _decimal (self (AngleFormatterLocator.check_spacing o)) = _decimal o /\
  _fields (self (AngleFormatterLocator.check_spacing o)) = _fields o /\
  _precision (self (AngleFormatterLocator.check_spacing o)) = _precision o /\
  _format (self (AngleFormatterLocator.check_spacing o)) = _format o.
Proof.
  intros Hb. rewrite angle_check_spacing_unfolded, Hb.
  destruct (_spacing o) as [s|]; [|repeat split].
  cbv zeta.
  destruct (Units.lt s b);
    match goal with |- context [if ?c then _ else _] => destruct c end;
    repeat split.
Qed.

Lemma angle_base_spacing_of_descriptor (o o' : Instance Quantity) :
  _unit o = _unit o' -> _decimal o = _decimal o' ->
  _fields o = _fields o' -> _precision o = _precision o' ->
  result (AngleFormatterLocator.base_spacing o)
  = result (AngleFormatterLocator.base_spacing o').
Proof.
  destruct o, o'. simpl. intros -> -> -> ->. apply angle_base_spacing_descriptor.
Qed.



Example hour_angle_base_spacing_values :
  map (fun v => result (AngleFormatterLocator.base_spacing
                          (self (AngleFormatterLocator.format_setter (Some v) blank))))
      ["hh"; "hh:mm"; "hh:mm:ss"; "hh:mm:ss.ss"; "dd:mm:ss.ss"]
  = [Return (Qty (1 * 15) degree); Return (Qty (1 * 15) arcmin);
     Return (Qty (1 * 15) arcsec); Return (Qty (1 / 100 * 15) arcsec);
     Return (Qty (1 / 100) arcsec)].
Proof. reflexivity. Qed.

(* ================================================================== *)
(** ** Running a method after another                                 *)
(* ================================================================== *)

Lemma bind_result S A B (m : M S A) (k : A -> M S B) o a :
  result (m o) = Return a -> result (bind m k o) = result (k a (self (m o))).
Proof.
  unfold bind. destruct (m o) as [r o' w]. cbn [result self]. intros ->.
  destruct (k a o'); reflexivity.
Qed.

Lemma is_zero_false s : ~ (s == 0)%Q -> Num.is_zero s = false.
Proof.
  intros H. unfold Num.is_zero. destruct (Qeq_bool s 0) eqn:E; [|reflexivity].
  apply Qeq_bool_eq in E. contradiction.
Qed.

(* ================================================================== *)
(** ** The spacing against the base spacing                           *)
(* ================================================================== *)

Lemma in_degrees_pos u : (0 < Units.in_degrees u)%Q.
Proof. destruct u; reflexivity. Qed.

Lemma mod_of_multiple (b b' : Q) (k : Z) :
  (b' == b)%Q -> (Num.mod_ (b * inject_Z k) b' == 0)%Q.
Proof.
  intros E. unfold Num.mod_.
  assert (F : Qfloor (b * inject_Z k / b') = Qfloor (b * inject_Z k / b))
    by (apply Qfloor_comp; rewrite E; reflexivity).
  rewrite F. setoid_rewrite E. clear F.
  destruct (Qeq_dec b 0) as [Z0 | NZ].
  - generalize (inject_Z (Qfloor (b * inject_Z k / b))). intros x.
    rewrite Z0. ring.
  - assert (G : Qfloor (b * inject_Z k / b) = k).
    { rewrite <- (Qfloor_Z k) at 2. apply Qfloor_comp. field. exact NZ. }
    rewrite G. ring.
Qed.

Lemma ltb_false_of_le x y : (y <= x)%Q -> Num.ltb x y = false.
Proof.
  intros H. unfold Num.ltb. apply Qle_bool_iff in H. rewrite H. reflexivity.
Qed.

Lemma angle_multiple_on_grid (b : Quantity) (k : Z) :
  Units.gt (Units.rem (Units.scale b (inject_Z k)) b) AngleFormatterLocator.tolerance
  = false.
Proof.
  unfold Units.gt, Units.rem, Units.scale, Units.to. cbn [value unit].
  apply ltb_false_of_le.
  rewrite mod_of_multiple.
  - apply Qmult_le_0_compat; [discriminate|].
    apply Qlt_le_weak. apply Qlt_shift_div_l; [apply in_degrees_pos|].
    rewrite Qmult_0_l. reflexivity.
  - assert (N : ~ (Units.in_degrees (unit b) == 0)%Q).
    { intros E. pose proof (in_degrees_pos (unit b)) as P. rewrite E in P.
      exact (Qlt_irrefl _ P). }
    field. exact N.
Qed.

Lemma scalar_multiple_on_grid (b : Q) (k : Z) :
  Num.ltb ScalarFormatterLocator.tolerance (Num.mod_ (b * inject_Z k) b) = false.
Proof.
  apply ltb_false_of_le. rewrite mod_of_multiple by reflexivity. discriminate.
Qed.

Lemma scalar_base_spacing_reads (o : Instance Q) :
  ScalarFormatterLocator.base_spacing o
  = Run (result (ScalarFormatterLocator.base_spacing o)) o [].
Proof. destruct o as [v n s f u d fl p]. destruct p; reflexivity. Qed.

Lemma scalar_base_spacing_respaced q (o : Instance Q) :
  result (ScalarFormatterLocator.base_spacing (respaced q o))
  = result (ScalarFormatterLocator.base_spacing o).
Proof. destruct o as [v n s f u d fl p]. destruct p; reflexivity. Qed.

Lemma scalar_check_spacing_unfolded (o : Instance Q) :
  ScalarFormatterLocator.check_spacing o =
  match _spacing o with
  | None => Run (Return tt) o []
  | Some s =>
      match result (ScalarFormatterLocator.base_spacing o) with
      | Raise e => Run (Raise e) o []
      | Return b =>
          let s1 := if Num.ltb s b then b else s in
          let o1 := if Num.ltb s b then respaced b o else o in
          let w1 := if Num.ltb s b then [too_small_warning] else [] in
          if Num.ltb ScalarFormatterLocator.tolerance (Num.mod_ s1 b)
          then
            if Num.is_zero s1
            then Run (Raise ZeroDivisionError) o1 (w1 ++ [not_multiple_warning])%list
            else Run (Return tt)
                     (respaced (b * inject_Z (Num.round (s1 / s1)))%Q o1)
                     (w1 ++ [not_multiple_warning])%list
          else Run (Return tt) o1 w1
      end
  end.
Proof.
  unfold ScalarFormatterLocator.check_spacing.
  rewrite bind_get. destruct (_spacing o) as [s|] eqn:Es.
  2:{ rewrite bind_ret. cbn [when]. rewrite bind_ret, bind_get, Es, bind_ret. reflexivity. }
  pose proof (scalar_base_spacing_reads o) as Ho.
  destruct (result (ScalarFormatterLocator.base_spacing o)) as [b|e] eqn:Eb.
  2:{ rewrite bind_assoc. erewrite bind_run_Raise by exact Ho. reflexivity. }
  rewrite bind_assoc. erewrite bind_quiet by exact Ho. rewrite bind_ret.
  cbv zeta.
  assert (Hset : forall q (o' : Instance Q),
             BaseFormatterLocator.spacing_setter (Some q) o'
             = Run (Return tt) (respaced q o') []) by reflexivity.
  assert (Hb' : forall q, ScalarFormatterLocator.base_spacing (respaced q o)
                          = Run (Return b) (respaced q o) []).
  { intros q. rewrite scalar_base_spacing_reads, scalar_base_spacing_respaced, Eb.
    reflexivity. }
  destruct (Num.ltb s b) eqn:Elt; cbn [when].
  - rewrite bind_assoc, bind_warn. cbv beta.
    rewrite !bind_assoc. erewrite bind_quiet by exact Ho.
    erewrite bind_quiet by apply Hset.
    rewrite bind_get. change (_spacing (respaced b o)) with (Some b). cbv beta iota.
    rewrite bind_assoc. erewrite bind_quiet by apply Hb'. rewrite bind_ret.
    destruct (Num.ltb ScalarFormatterLocator.tolerance (Num.mod_ b b)); cbn [when].
    + rewrite bind_warn. cbv beta. erewrite bind_quiet by apply Hb'.
      rewrite bind_get. change (_spacing (respaced b o)) with (Some b). cbv beta iota.
      unfold fdiv. destruct (Num.is_zero b).
      * reflexivity.
      * rewrite bind_ret, Hset. reflexivity.
    + reflexivity.
  - rewrite bind_ret, bind_get, Es. cbv beta iota.
    rewrite bind_assoc. erewrite bind_quiet by exact Ho. rewrite bind_ret.
    destruct (Num.ltb ScalarFormatterLocator.tolerance (Num.mod_ s b)); cbn [when].
    + rewrite bind_warn. cbv beta. erewrite bind_quiet by exact Ho.
      rewrite bind_get, Es. cbv beta iota.
      unfold fdiv. destruct (Num.is_zero s).
      * reflexivity.
      * rewrite bind_ret, Hset. reflexivity.
    + reflexivity.
Qed.

(** C3.  The spacing setters do not look at the format: an assignment
    to [spacing] stores the value as it is given (the angle class checks
    only that it is a quantity of angle), emits no warning and clears the
    other two modes, whatever the base spacing.  So with the format [dd]
    (base spacing 1 degree) the assignment of 0.5 degree returns and
    leaves 0.5 degree, whose remainder by the base spacing is 0.5 degree;
    with the format [x] (base spacing 1) the assignment of 0.5 leaves 0.5.
    The format setter, given the same spacing, resets it with a
    warning. *)
Theorem spacing_setter_does_not_revalidate :
  (forall q (o : Instance Quantity),
      AngleFormatterLocator.spacing_setter (PyAngle q) o = Run (Return tt) (respaced q o) [])
  /\
  (forall q (o : Instance Q),
      BaseFormatterLocator.spacing_setter (Some q) o = Run (Return tt) (respaced q o) [])
  /\
  (let o := self (AngleFormatterLocator.__init__ None None PyNone (Some "dd") blank) in
   let r := AngleFormatterLocator.spacing_setter (PyAngle (Qty (1 # 2) degree)) o in
   _format o = Some "dd" /\
   result (AngleFormatterLocator.base_spacing (self r)) = Return (Qty 1 degree) /\
   result r = Return tt /\ warned r = [] /\
   _spacing (self r) = Some (Qty (1 # 2) degree) /\
   (value (Units.rem (Qty (1 # 2) degree) (Qty 1 degree)) == 1 # 2)%Q /\
   Units.gt (Units.rem (Qty (1 # 2) degree) (Qty 1 degree)) AngleFormatterLocator.tolerance
   = true /\
   angle_on_grid (self r) = false /\
   let r' := AngleFormatterLocator.format_setter (Some "dd") (self r) in
   result r' = Return tt /\ warned r' = [too_small_warning] /\
   _spacing (self r') = Some (Qty 1 degree))
  /\
  (let o := self (ScalarFormatterLocator.__init__ None None None (Some "x") blank) in
   let r := BaseFormatterLocator.spacing_setter (Some (1 # 2)%Q) o in
   _format o = Some "x" /\
   result (ScalarFormatterLocator.base_spacing (self r)) = Return 1%Q /\
   result r = Return tt /\ warned r = [] /\
   _spacing (self r) = Some (1 # 2)%Q /\
   (Num.mod_ (1 # 2) 1 == 1 # 2)%Q /\
   Num.ltb ScalarFormatterLocator.tolerance (Num.mod_ (1 # 2) 1) = true /\
   scalar_on_grid (self r) = false /\
   let r' := ScalarFormatterLocator.format_setter (Some "x") (self r) in
   result r' = Return tt /\ warned r' = [too_small_warning] /\
   _spacing (self r') = Some 1%Q).
Proof.
  split; [reflexivity|]. split; [reflexivity|].
  split; cbv zeta; repeat split.
Qed.

(* ================================================================== *)
(** ** The matcher against the denotation of the patterns             *)
(* ================================================================== *)

Lemma append_empty (u v : string) : u ++ v = "" -> u = "" /\ v = "".
Proof. destruct u; simpl; intros H; [split; [reflexivity | exact H] | discriminate]. Qed.

Lemma append_nil_r (u : string) : u ++ "" = u.
Proof. induction u as [|c u IH]; simpl; [reflexivity | rewrite IH; reflexivity]. Qed.

Lemma append_assoc (u v w : string) : (u ++ v) ++ w = u ++ (v ++ w).
Proof. induction u as [|c u IH]; simpl; [reflexivity | rewrite IH; reflexivity]. Qed.

Lemma Matches_Cat r s w :
  Matches (Cat r s) w -> exists u v, w = u ++ v /\ Matches r u /\ Matches s v.
Proof. intros H. inversion H; subst. eexists _, _. repeat split; eassumption. Qed.

Lemma Matches_Alt r s w : Matches (Alt r s) w -> Matches r w \/ Matches s w.
Proof. intros H. inversion H; subst; [left | right]; assumption. Qed.

Lemma nullable_spec r : nullable r = true <-> Matches r "".
Proof.
  induction r as [ | | c | | r IHr s IHs | r IHr s IHs | r IHr ]; simpl.
  - split; [discriminate | intros H; inversion H].
  - split; [constructor | reflexivity].
  - split; [discriminate | intros H; inversion H].
  - split; [discriminate | intros H; inversion H].
  - rewrite andb_true_iff, IHr, IHs. split.
    + intros [H1 H2]. change "" with ("" ++ ""). constructor; assumption.
    + intros H. apply Matches_Cat in H. destruct H as (u & v & E & H1 & H2).
      symmetry in E. apply append_empty in E. destruct E as [-> ->]. split; assumption.
  - rewrite orb_true_iff, IHr, IHs. split.
    + intros [H | H]; [apply MAltL | apply MAltR]; exact H.
    + apply Matches_Alt.
  - split; [constructor | reflexivity].
Qed.

Lemma Matches_Void u : ~ Matches Void u.
Proof. intros H. inversion H. Qed.

Lemma Matches_Eps u : Matches Eps u -> u = "".
Proof. intros H. inversion H. reflexivity. Qed.

Lemma cat_spec r s u : Matches (cat r s) u <-> Matches (Cat r s) u.
Proof.
  assert (V1 : forall s' w, Matches (Cat Void s') w -> False).
  { intros s' w H. apply Matches_Cat in H. destruct H as (a & b & _ & H & _).
    exact (Matches_Void H). }
  assert (V2 : forall r' w, Matches (Cat r' Void) w -> False).
  { intros r' w H. apply Matches_Cat in H. destruct H as (a & b & _ & _ & H).
    exact (Matches_Void H). }
  assert (E1 : forall s' w, Matches s' w <-> Matches (Cat Eps s') w).
  { intros s' w. split.
    - intros H. change w with ("" ++ w). constructor; [constructor | exact H].
    - intros H. apply Matches_Cat in H. destruct H as (a & b & -> & H1 & H2).
      apply Matches_Eps in H1. subst a. exact H2. }
  destruct r; simpl;
    try (split; [intros H; exfalso; exact (Matches_Void H)
                | intros H; exfalso; exact (V1 _ _ H)]);
    destruct s; simpl;
      try reflexivity;
      try (split; [intros H; exfalso; exact (Matches_Void H)
                  | intros H; exfalso; exact (V2 _ _ H)]);
      try apply E1.
Qed.

Lemma alt_spec r s u : Matches (alt r s) u <-> Matches (Alt r s) u.
Proof.
  assert (L : forall s', Matches s' u <-> Matches (Alt Void s') u).
  { intros s'. split; [apply MAltR|].
    intros H. apply Matches_Alt in H. destruct H as [H | H];
      [exfalso; exact (Matches_Void H) | exact H]. }
  assert (R : forall r', Matches r' u <-> Matches (Alt r' Void) u).
  { intros r'. split; [apply MAltL|].
    intros H. apply Matches_Alt in H. destruct H as [H | H];
      [exact H | exfalso; exact (Matches_Void H)]. }
  destruct r; simpl; try apply L; destruct s; simpl; try reflexivity; try apply R.
Qed.

(** A non-empty match of [Star r] starts with a non-empty match of [r]. *)
Lemma Matches_Star_cons r c w :
  Matches (Star r) (String c w) ->
  exists u v, w = u ++ v /\ Matches r (String c u) /\ Matches (Star r) v.
Proof.
  intros H. remember (Star r) as t eqn:Et. remember (String c w) as x eqn:Ex.
  revert w Ex.
  induction H as [ | | | | | | r0 | r0 u v H1 _ H2 IH2 ]; intros w Ex;
    try discriminate.
  injection Et as ->.
  destruct u as [|a u]; simpl in Ex.
  - apply (IH2 eq_refl w Ex).
  - injection Ex as -> <-. exists u, v. repeat split; assumption.
Qed.

Lemma deriv_spec c r u : Matches (deriv c r) u <-> Matches r (String c u).
Proof.
  revert u. induction r as [ | | a | | r IHr s IHs | r IHr s IHs | r IHr ]; intros u; simpl.
  - split; intros H; inversion H.
  - split; intros H; inversion H.
  - destruct (Ascii.eqb_spec a c) as [-> | N].
    + split.
      * intros H. apply Matches_Eps in H. subst u. constructor.
      * intros H. inversion H; subst. constructor.
    + split; [intros H; inversion H|].
      intros H. inversion H; subst. contradiction.
  - destruct (Ascii.eqb_spec c newline) as [-> | N].
    + split; [intros H; inversion H|].
      intros H. inversion H; subst. contradiction.
    + split.
      * intros H. apply Matches_Eps in H. subst u. constructor. exact N.
      * intros H. inversion H; subst. constructor.
  - rewrite alt_spec. split.
    + intros H. apply Matches_Alt in H. destruct H as [H1 | H1].
      * apply cat_spec in H1. apply Matches_Cat in H1.
        destruct H1 as (a & b & -> & Ha & Hb).
        apply IHr in Ha. change (String c (a ++ b)) with (String c a ++ b).
        constructor; assumption.
      * destruct (nullable r) eqn:N; [|exfalso; exact (Matches_Void H1)].
        apply IHs in H1. apply nullable_spec in N.
        change (String c u) with ("" ++ String c u). constructor; assumption.
    + intros H. apply Matches_Cat in H. destruct H as (a & b & E & Ha & Hb).
      destruct a as [|x a]; simpl in E.
      * subst b. apply MAltR. apply nullable_spec in Ha. rewrite Ha.
        apply IHs. exact Hb.
      * injection E as <- ->. apply MAltL. apply cat_spec.
        constructor; [apply IHr; exact Ha | exact Hb].
  - rewrite alt_spec. split.
    + intros H. apply Matches_Alt in H.
      destruct H as [H | H]; [apply MAltL, IHr | apply MAltR, IHs]; exact H.
    + intros H. apply Matches_Alt in H.
      destruct H as [H | H]; [apply MAltL, IHr | apply MAltR, IHs]; exact H.
  - rewrite cat_spec. split.
    + intros H. apply Matches_Cat in H. destruct H as (a & b & -> & Ha & Hb).
      apply IHr in Ha. change (String c (a ++ b)) with (String c a ++ b).
      apply MStarS; assumption.
    + intros H. apply Matches_Star_cons in H. destruct H as (a & b & -> & Ha & Hb).
      constructor; [apply IHr; exact Ha | exact Hb].
Qed.

(** [fullmatch] decides the denotation. *)
Lemma fullmatch_spec r s : fullmatch r s = true <-> Matches r s.
Proof.
  revert r. induction s as [|c s IH]; intros r; simpl.
  - apply nullable_spec.
  - rewrite IH. apply deriv_spec.
Qed.

(** [re_match] is [fullmatch] up to one final newline. *)
Lemma re_match_spec r s :
  re_match r s = true
  <-> Matches r s \/ exists p, s = p ++ String newline "" /\ Matches r p.
Proof.
  revert r. induction s as [|c s IH]; intros r; simpl.
  - rewrite nullable_spec. split; [intros H; left; exact H|].
    intros [H | (p & E & _)]; [exact H|]. destruct p; discriminate.
  - rewrite orb_true_iff, IH, !andb_true_iff, nullable_spec. split.
    + intros [[[H1 H2] H3] | [H | (p & -> & H)]].
      * apply Ascii.eqb_eq in H2. apply String.eqb_eq in H3. subst.
        right. exists "". split; [reflexivity | exact H1].
      * left. apply deriv_spec. exact H.
      * right. exists (String c p). split; [reflexivity|]. apply deriv_spec. exact H.
    + intros [H | (p & E & H)].
      * right. left. apply deriv_spec. exact H.
      * destruct p as [|a p]; simpl in E.
        -- injection E as -> ->. left.
           split; [split; [exact H | apply Ascii.eqb_refl] | reflexivity].
        -- injection E as -> ->. right. right. exists p. split; [reflexivity|].
           apply deriv_spec. exact H.
Qed.


Lemma Loosens_Star r r' :
  (forall u, Matches r u -> Matches r' u) ->
  forall u, Matches (Star r) u -> Matches (Star r') u.
Proof.
  intros Hr u H. remember (Star r) as t eqn:Et.
  induction H as [ | | | | | | r0 | r0 a b H1 _ H2 IH2 ]; try discriminate.
  - constructor.
  - injection Et as ->. apply MStarS; [apply Hr; exact H1 | apply IH2; reflexivity].
Qed.

Lemma Loosens_Matches r r' :
  Loosens r r' -> forall u, Matches r u -> Matches r' u.
Proof.
  induction 1 as [ r | c N | r r' s s' _ IHr _ IHs | r r' s s' _ IHr _ IHs | r r' _ IHr ];
    intros u H.
  - exact H.
  - inversion H; subst. constructor. exact N.
  - apply Matches_Cat in H. destruct H as (a & b & -> & Ha & Hb).
    constructor; [apply IHr | apply IHs]; assumption.
  - apply Matches_Alt in H. destruct H as [H | H];
      [apply MAltL, IHr | apply MAltR, IHs]; exact H.
  - exact (Loosens_Star IHr H).
Qed.

Ltac loosens :=
  repeat first
    [ apply LRefl
    | apply LDot; discriminate
    | apply LCat
    | apply LAlt
    | apply LStar ].

Lemma fullmatch_re_match r r' value :
  Loosens r r' -> fullmatch r value = true -> re_match r' value = true.
Proof.
  intros L H. apply re_match_spec. left.
  apply (Loosens_Matches L). apply fullmatch_spec. exact H.
Qed.

(** Every string of the grammars is matched by a pattern of its class. *)
Lemma angle_grammar_is_matched value :
  in_angle_grammar value = true -> ~ angle_unmatched value.
Proof.
  unfold in_angle_grammar, angle_unmatched. rewrite !orb_true_iff.
  intros [[[[H | H] | H] | H] | H] (U1 & U2 & U3 & U4 & U5).
  - assert (E : re_match DMS_RE value = true)
      by (revert H; apply fullmatch_re_match; cbv [sexagesimal_grammar fraction DMS_RE]; loosens).
    congruence.
  - assert (E : re_match HMS_RE value = true)
      by (revert H; apply fullmatch_re_match; cbv [sexagesimal_grammar fraction HMS_RE]; loosens).
    congruence.
  - assert (E : re_match DDEC_RE value = true)
      by (revert H; apply fullmatch_re_match; cbv [decimal_grammar fraction DDEC_RE]; loosens).
    congruence.
  - assert (E : re_match DMIN_RE value = true)
      by (revert H; apply fullmatch_re_match; cbv [decimal_grammar fraction DMIN_RE]; loosens).
    congruence.
  - assert (E : re_match DSEC_RE value = true)
      by (revert H; apply fullmatch_re_match; cbv [decimal_grammar fraction DSEC_RE]; loosens).
    congruence.
Qed.

Lemma scalar_grammar_is_matched value :
  in_scalar_grammar value = true -> re_match SCAL_RE value = true.
Proof.
  unfold in_scalar_grammar. apply fullmatch_re_match.
  cbv [decimal_grammar fraction SCAL_RE]. loosens.
Qed.

(** The format setters raise the invalid-format error exactly for the
    strings that no pattern matches; in particular never for a string of
    the grammars. *)
Lemma angle_format_setter_rejects_the_unmatched value (o : Instance Quantity) :
  result (AngleFormatterLocator.format_setter (Some value) o) = Raise (invalid_format value)
  <-> angle_unmatched value.
Proof.
  split.
  - unfold AngleFormatterLocator.format_setter. rewrite bind_modify. intros H.
    match goal with
    | _ : context [bind (AngleFormatterLocator.parse_format value) _ ?o1] |- _ =>
        destruct (angle_parse_format_outcome value o1) as [(U & _) | (o' & E & _)]
    end; [exact U|].
    erewrite bind_quiet in H by exact E.
    apply angle_check_spacing_raises in H. destruct H.
  - intros (U1 & U2 & U3 & U4 & U5).
    unfold AngleFormatterLocator.format_setter, AngleFormatterLocator.parse_format.
    rewrite U1, U2, U3, U4, U5. reflexivity.
Qed.

Lemma scalar_format_setter_rejects_the_unmatched value (o : Instance Q) :
  result (ScalarFormatterLocator.format_setter (Some value) o) = Raise (invalid_format value)
  <-> re_match SCAL_RE value = false.
Proof.
  split.
  - unfold ScalarFormatterLocator.format_setter. rewrite bind_modify. intros H.
    match goal with
    | _ : context [bind (ScalarFormatterLocator.parse_format value) _ ?o1] |- _ =>
        destruct (scalar_parse_format_outcome value o1) as [(U & _) | (o' & E & _)]
    end; [exact U|].
    erewrite bind_quiet in H by exact E.
    apply scalar_check_spacing_raises in H. destruct H.
  - intros U.
    unfold ScalarFormatterLocator.format_setter, ScalarFormatterLocator.parse_format.
    rewrite U. reflexivity.
Qed.

Lemma grammar_strings_are_not_rejected value :
  (in_angle_grammar value = true ->
   forall o : Instance Quantity,
     result (AngleFormatterLocator.format_setter (Some value) o)
     <> Raise (invalid_format value))
  /\
  (in_scalar_grammar value = true ->
   forall o : Instance Q,
     result (ScalarFormatterLocator.format_setter (Some value) o)
     <> Raise (invalid_format value)).
Proof.
  split.
  - intros G o H. apply angle_format_setter_rejects_the_unmatched in H.
    apply angle_grammar_is_matched in G. exact (G H).
  - intros G o H. apply scalar_format_setter_rejects_the_unmatched in H.
    apply scalar_grammar_is_matched in G. rewrite G in H. discriminate.
Qed.

(* ================================================================== *)
(** ** Where the code departs from its description                    *)
(* ================================================================== *)

(** C1.  A spacing that is not a multiple of the base spacing is not
    rounded to the nearest multiple: the setters multiply the base
    spacing by [round(spacing / spacing)], which is 1.  With 2.25 degrees
    and the format [dd] the spacing becomes 1 degree, where the nearest
    multiple of the base spacing is 2 degrees; with 2.25 and the format
    [x] the scalar class stores 1 where the nearest multiple is 2.  The
    warning is emitted and nothing is raised. *)
Theorem format_setter_resets_off_grid_spacing_to_base :
  (let r := AngleFormatterLocator.__init__
              None None (PyAngle (Qty (9 # 4) degree)) (Some "dd") blank in
   result r = Return tt /\
   warned r = [not_multiple_warning] /\
   result (AngleFormatterLocator.base_spacing (self r)) = Return (Qty 1 degree) /\
   (exists s, _spacing (self r) = Some (Qty s degree) /\ (s == 1)%Q) /\
   (nearest_multiple 1 (9 # 4) == 2)%Q)
  /\
  (let r := ScalarFormatterLocator.__init__ None None (Some (9 # 4)%Q) (Some "x") blank in
   result r = Return tt /\
   warned r = [not_multiple_warning] /\
   (exists b, result (ScalarFormatterLocator.base_spacing (self r)) = Return b /\ (b == 1)%Q) /\
   (exists s, _spacing (self r) = Some s /\ (s == 1)%Q) /\
   (nearest_multiple 1 (9 # 4) == 2)%Q).
Proof.
  split; cbv zeta.
  - repeat split. eexists. split; reflexivity.
  - repeat split; eexists; split; reflexivity.
Qed.

(** The part of C1 that holds: a spacing below the base spacing is
    raised to it, with a warning. *)
Example format_setter_raises_small_spacing :
  let r := AngleFormatterLocator.__init__
             None None (PyAngle (Qty (1 # 2) degree)) (Some "dd") blank in
  result r = Return tt /\ warned r = [too_small_warning] /\
  _spacing (self r) = Some (Qty 1 degree).
Proof. repeat split. Qed.

(** C6.  The point of the patterns is not escaped and [$] also matches
    before a final newline, so the setters accept strings outside the
    grammars: [dd:mm:ssxs] is read as three fields without fraction,
    [dd:mm:ss:s] as four fields, [dd] followed by a newline as [dd], and
    the scalar class reads [xxx] as [x]. *)
Theorem format_setter_accepts_strings_outside_the_grammars :
  (let r := AngleFormatterLocator.format_setter
              (Some "dd:mm:ssxs") (self (AngleFormatterLocator.__init__ None None PyNone None blank)) in
   in_angle_grammar "dd:mm:ssxs" = false /\
   result r = Return tt /\ _fields (self r) = Some 3 /\ _precision (self r) = Some 0)
  /\
  (let r := AngleFormatterLocator.format_setter
              (Some "dd:mm:ss:s") (self (AngleFormatterLocator.__init__ None None PyNone None blank)) in
   in_angle_grammar "dd:mm:ss:s" = false /\
   result r = Return tt /\ _fields (self r) = Some 4)
  /\
  (let value := String "d" (String "d" (String newline "")) in
   let r := AngleFormatterLocator.format_setter
              (Some value) (self (AngleFormatterLocator.__init__ None None PyNone None blank)) in
   in_angle_grammar value = false /\
   result r = Return tt /\ _fields (self r) = Some 1)
  /\
  (let r := ScalarFormatterLocator.format_setter
              (Some "xxx") (self (ScalarFormatterLocator.__init__ None None None None blank)) in
   in_scalar_grammar "xxx" = false /\
   result r = Return tt /\ _precision (self r) = Some 0).
Proof. repeat split. Qed.

(** C8.  In desired-count mode the locator calls [select_step_degree]
    only when the unit of the format is the degree; for the decimal
    arcminute and arcsecond formats ([m], [s]) it calls
    [select_step_hour], as for hour angles. *)
Theorem locator_calls_hour_selector_for_arcminutes :
  forall select_step_degree select_step_hour : Quantity -> Quantity,
    let spacing_for format value_max :=
      result (AngleFormatterLocator.locator_spacing
                select_step_degree select_step_hour 0 value_max
                (self (AngleFormatterLocator.__init__
                         None (Some 5%Z) PyNone (Some format) blank))) in
    let dv value_max := Qty (Qabs (value_max - 0) / inject_Z 5) degree in
    (value (dv 10%Q) == 2)%Q /\
    spacing_for "m" 10%Q = Return (value (Units.to degree (select_step_hour (dv 10%Q)))) /\
    spacing_for "s" 10%Q = Return (value (Units.to degree (select_step_hour (dv 10%Q)))) /\
    spacing_for "d" 10%Q = Return (value (Units.to degree (select_step_degree (dv 10%Q)))) /\
    spacing_for "dd" 10%Q = Return (value (Units.to degree (select_step_degree (dv 10%Q)))) /\
    spacing_for "hh" 100%Q = Return (value (Units.to degree (select_step_hour (dv 100%Q)))).
Proof. intros sd sh. repeat split. Qed.

(* ================================================================== *)
(** ** The locator only reads                                         *)
(* ================================================================== *)

Lemma reads_run S A (m : M S A) o : reads m -> m o = Run (result (m o)) o [].
Proof. intros H. destruct (H o) as [E1 E2]. destruct (m o); simpl in *. subst. reflexivity. Qed.

Lemma reads_bind S A B (m : M S A) (k : A -> M S B) :
  reads m -> (forall a, reads (k a)) -> reads (bind m k).
Proof.
  intros Hm Hk o. unfold bind. rewrite (reads_run o Hm).
  destruct (result (m o)) as [a|e]; [|split; reflexivity].
  rewrite (reads_run o (Hk a)). split; reflexivity.
Qed.

Lemma reads_ret S A (a : A) : reads (ret (S := S) a).
Proof. intros o. split; reflexivity. Qed.

Lemma reads_raise S A e : reads (raise (S := S) (A := A) e).
Proof. intros o. split; reflexivity. Qed.

Lemma reads_get S A (f : S -> A) : reads (get f).
Proof. intros o. split; reflexivity. Qed.

Lemma reads_getattr S A name (f : S -> option A) : reads (getattr name f).
Proof. intros o. unfold getattr. destruct (f o); split; reflexivity. Qed.

Lemma reads_fdiv S x y : reads (fdiv (S := S) x y).
Proof. intros o. unfold fdiv. destruct (Num.is_zero y); split; reflexivity. Qed.

Ltac reads_step :=
  first
    [ apply reads_bind; [ | intros ? ]
    | apply reads_ret
    | apply reads_raise
    | apply reads_get
    | apply reads_getattr
    | apply reads_fdiv
    | match goal with
      | |- reads (if ?b then _ else _) => destruct b
      | |- reads (match ?x with _ => _ end) => destruct x
      end ].

Lemma angle_base_spacing_only_reads : reads AngleFormatterLocator.base_spacing.
Proof. intros o. rewrite angle_base_spacing_reads. split; reflexivity. Qed.

Lemma scalar_base_spacing_only_reads : reads ScalarFormatterLocator.base_spacing.
Proof. intros o. rewrite scalar_base_spacing_reads. split; reflexivity. Qed.

Lemma angle_locator_spacing_reads sd sh value_min value_max :
  reads (AngleFormatterLocator.locator_spacing sd sh value_min value_max).
Proof.
  unfold AngleFormatterLocator.locator_spacing.
  repeat first [ apply angle_base_spacing_only_reads | reads_step ].
Qed.

Lemma scalar_locator_spacing_reads ss value_min value_max :
  reads (ScalarFormatterLocator.locator_spacing ss value_min value_max).
Proof.
  unfold ScalarFormatterLocator.locator_spacing.
  repeat first [ apply scalar_base_spacing_only_reads | reads_step ].
Qed.

Lemma angle_locator_reads sd sh value_min value_max :
  reads (AngleFormatterLocator.locator sd sh value_min value_max).
Proof.
  unfold AngleFormatterLocator.locator.
  repeat first [ apply angle_locator_spacing_reads | reads_step ].
Qed.

Lemma scalar_locator_reads ss value_min value_max :
  reads (ScalarFormatterLocator.locator ss value_min value_max).
Proof.
  unfold ScalarFormatterLocator.locator.
  repeat first [ apply scalar_locator_spacing_reads | reads_step ].
Qed.

(** X1.  The locators assign no attribute: whatever the configuration
    and the range, and whether the call returns or raises, the instance
    is afterwards the one it was before. *)
Theorem locator_leaves_the_instance_unchanged :
  (forall sd sh value_min value_max (o : Instance Quantity),
      self (AngleFormatterLocator.locator sd sh value_min value_max o) = o)
  /\
  (forall ss value_min value_max (o : Instance Q),
      self (ScalarFormatterLocator.locator ss value_min value_max o) = o).
Proof.
  split.
  - intros sd sh vmin vmax o. destruct (angle_locator_reads sd sh vmin vmax o) as [E _].
    exact E.
  - intros ss vmin vmax o. destruct (scalar_locator_reads ss vmin vmax o) as [E _].
    exact E.
Qed.

(* ================================================================== *)
(** ** The ticks for a resolved spacing                               *)
(* ================================================================== *)

Lemma scalar_locator_ticks ss (o : Instance Q) value_min value_max s :
  _values o = None ->
  result (ScalarFormatterLocator.locator_spacing ss value_min value_max o) = Return s ->
  ~ (s == 0)%Q ->
  result (ScalarFormatterLocator.locator ss value_min value_max o)
  = Return (map (fun i => inject_Z i * s)%Q
                (Num.arange (Qceiling (value_min / s)) (Qfloor (value_max / s) + 1)),
            s).
Proof.
  intros Hv Hs Hz.
  unfold ScalarFormatterLocator.locator. rewrite bind_get, Hv. cbv beta iota.
  erewrite bind_result by exact Hs. cbv beta.
  unfold fdiv. rewrite (is_zero_false Hz), !bind_ret. reflexivity.
Qed.

Lemma positive_not_zero (s : Q) : (0 < s)%Q -> ~ (s == 0)%Q.
Proof. intros Hs E. rewrite E in Hs. discriminate. Qed.

(* ================================================================== *)
(** ** When the locator raises                                        *)
(* ================================================================== *)

(** X3.  Without a mode the locator cannot resolve a spacing: when
    [values], [spacing] and [number] are all [None] (as after
    [number = None]) it raises [UnboundLocalError] for the local that
    holds the spacing, and in desired-count mode with a count of zero it
    raises [ZeroDivisionError] when it divides the range by the count.
    The range and the format play no part in these failures. *)
Theorem locator_raises_without_usable_spacing :
  (forall sd sh (o : Instance Quantity) value_min value_max,
      _values o = None -> _spacing o = None -> _number o = None ->
      result (AngleFormatterLocator.locator sd sh value_min value_max o)
      = Raise (UnboundLocalError "spacing_deg"))
  /\
  (forall ss (o : Instance Q) value_min value_max,
      _values o = None -> _spacing o = None -> _number o = None ->
      result (ScalarFormatterLocator.locator ss value_min value_max o)
      = Raise (UnboundLocalError "spacing"))
  /\
  (forall sd sh (o : Instance Quantity) value_min value_max,
      _values o = None -> _spacing o = None -> _number o = Some 0%Z ->
      result (AngleFormatterLocator.locator sd sh value_min value_max o)
      = Raise ZeroDivisionError)
  /\
  (forall ss (o : Instance Q) value_min value_max,
      _values o = None -> _spacing o = None -> _number o = Some 0%Z ->
      result (ScalarFormatterLocator.locator ss value_min value_max o)
      = Raise ZeroDivisionError).
Proof.
  repeat split.
  - intros sd sh o vmin vmax Hv Hs Hn.
    unfold AngleFormatterLocator.locator, AngleFormatterLocator.locator_spacing.
    rewrite bind_get, Hv. cbv beta iota. rewrite bind_assoc, bind_get, Hs. cbv beta iota.
    rewrite bind_assoc, bind_get, Hn. reflexivity.
  - intros ss o vmin vmax Hv Hs Hn.
    unfold ScalarFormatterLocator.locator, ScalarFormatterLocator.locator_spacing.
    rewrite bind_get, Hv. cbv beta iota. rewrite bind_assoc, bind_get, Hs. cbv beta iota.
    rewrite bind_assoc, bind_get, Hn. reflexivity.
  - intros sd sh o vmin vmax Hv Hs Hn.
    unfold AngleFormatterLocator.locator, AngleFormatterLocator.locator_spacing.
    rewrite bind_get, Hv. cbv beta iota. rewrite bind_assoc, bind_get, Hs. cbv beta iota.
    rewrite bind_assoc, bind_get, Hn. reflexivity.
  - intros ss o vmin vmax Hv Hs Hn.
    unfold ScalarFormatterLocator.locator, ScalarFormatterLocator.locator_spacing.
    rewrite bind_get, Hv. cbv beta iota. rewrite bind_assoc, bind_get, Hs. cbv beta iota.
    rewrite bind_assoc, bind_get, Hn. reflexivity.
Qed.

Lemma locator_raises_without_usable_spacing_witness :
  result (AngleFormatterLocator.locator (fun dv => dv) (fun dv => dv) 0 10
            (self (BaseFormatterLocator.number_setter None
                     (self (AngleFormatterLocator.__init__ None None PyNone None blank)))))
  = Raise (UnboundLocalError "spacing_deg")
  /\
  result (ScalarFormatterLocator.locator (fun dv => dv) 0 10
            (self (BaseFormatterLocator.number_setter None
                     (self (ScalarFormatterLocator.__init__ None None None None blank)))))
  = Raise (UnboundLocalError "spacing")
  /\
  result (AngleFormatterLocator.locator (fun dv => dv) (fun dv => dv) 0 10
            (self (AngleFormatterLocator.__init__ None (Some 0%Z) PyNone None blank)))
  = Raise ZeroDivisionError
  /\
  result (ScalarFormatterLocator.locator (fun dv => dv) 0 10
            (self (ScalarFormatterLocator.__init__ None (Some 0%Z) None None blank)))
  = Raise ZeroDivisionError.
Proof.
  split; [|split; [|split]].
  - apply (proj1 locator_raises_without_usable_spacing); reflexivity.
  - apply (proj1 (proj2 locator_raises_without_usable_spacing)); reflexivity.
  - apply (proj1 (proj2 (proj2 locator_raises_without_usable_spacing))); reflexivity.
  - apply (proj2 (proj2 (proj2 locator_raises_without_usable_spacing))); reflexivity.
Defined.

(* ================================================================== *)
(** ** The spacing in desired-count mode                              *)
(* ================================================================== *)




(* ================================================================== *)
(** ** What the format setter does to the spacing                     *)
(* ================================================================== *)

Lemma ltb_comp x x' y y' : (x == x')%Q -> (y == y')%Q -> Num.ltb x y = Num.ltb x' y'.
Proof. intros E F. unfold Num.ltb. rewrite (Qleb_comp _ _ F _ _ E). reflexivity. Qed.

Lemma mod_comp x x' y y' : (x == x')%Q -> (y == y')%Q -> (Num.mod_ x y == Num.mod_ x' y')%Q.
Proof.
  intros E F. unfold Num.mod_.
  assert (G : Qfloor (x / y) = Qfloor (x' / y')) by (apply Qfloor_comp; rewrite E, F; reflexivity).
  rewrite G, E, F. reflexivity.
Qed.

Lemma mod_zero y : (Num.mod_ 0 y == 0)%Q.
Proof.
  unfold Num.mod_.
  assert (H : (0 / y == 0)%Q) by (unfold Qdiv; ring).
  rewrite (Qfloor_comp _ _ H). change (Qfloor 0) with 0%Z. ring.
Qed.

Lemma round_comp x x' : (x == x')%Q -> Num.round x = Num.round x'.
Proof.
  intros E. unfold Num.round.
  assert (G : Qfloor x = Qfloor x') by (apply Qfloor_comp; exact E).
  rewrite G.
  assert (D : (x - inject_Z (Qfloor x') == x' - inject_Z (Qfloor x'))%Q) by (rewrite E; reflexivity).
  rewrite (ltb_comp D (Qeq_refl (1 # 2))), (ltb_comp (Qeq_refl (1 # 2)) D). reflexivity.
Qed.

Lemma round_one : Num.round 1 = 1%Z.
Proof. reflexivity. Qed.

Lemma round_self_ratio (x : Q) : ~ (x == 0)%Q -> Num.round (x / x) = 1%Z.
Proof.
  intros N. transitivity (Num.round 1); [|reflexivity].
  apply round_comp. field. exact N.
Qed.

Lemma to_own_unit (b : Quantity) : (value (Units.to (unit b) b) == value b)%Q.
Proof.
  unfold Units.to. cbn [value].
  assert (N : ~ (Units.in_degrees (unit b) == 0)%Q).
  { intros E. pose proof (in_degrees_pos (unit b)) as P. rewrite E in P. discriminate. }
  field. exact N.
Qed.

Lemma tolerance_pos u : (0 < value (Units.to u AngleFormatterLocator.tolerance))%Q.
Proof.
  unfold Units.to, AngleFormatterLocator.tolerance, Units.times. cbn [value unit].
  apply Qmult_lt_0_compat; [reflexivity|].
  apply Qlt_shift_div_l; [apply in_degrees_pos|]. rewrite Qmult_0_l. reflexivity.
Qed.

Lemma angle_gt_tolerance_zero (x b : Quantity) :
  (value x == 0)%Q -> Units.gt (Units.rem x b) AngleFormatterLocator.tolerance = false.
Proof.
  intros E. unfold Units.gt, Units.rem. cbn [value unit].
  apply ltb_false_of_le.
  rewrite (mod_comp E (Qeq_refl _)), mod_zero.
  apply Qlt_le_weak. apply tolerance_pos.
Qed.

Lemma angle_rem_self (b : Quantity) :
  Units.gt (Units.rem b b) AngleFormatterLocator.tolerance = false.
Proof.
  unfold Units.gt, Units.rem. cbn [value unit]. apply ltb_false_of_le.
  assert (E : (value b == value b * inject_Z 1)%Q) by ring.
  rewrite (mod_comp E (Qeq_refl _)), (mod_of_multiple 1 (to_own_unit b)).
  apply Qlt_le_weak. apply tolerance_pos.
Qed.

Lemma angle_lt_irrefl (b : Quantity) : Units.lt b b = false.
Proof.
  unfold Units.lt. apply ltb_false_of_le. rewrite to_own_unit. apply Qle_refl.
Qed.

Lemma angle_round_ratio_self (s : Quantity) :
  ~ (value s == 0)%Q -> Num.round (Units.ratio s s) = 1%Z.
Proof.
  intros N. transitivity (Num.round 1); [|reflexivity].
  apply round_comp. unfold Units.ratio. rewrite to_own_unit. field. exact N.
Qed.

Lemma angle_format_setter_as_check value (o : Instance Quantity) :
  result (AngleFormatterLocator.format_setter (Some value) o) = Return tt ->
  exists o1,
    AngleFormatterLocator.format_setter (Some value) o
    = AngleFormatterLocator.check_spacing o1 /\
    _spacing o1 = _spacing o.
Proof.
  unfold AngleFormatterLocator.format_setter. rewrite bind_modify.
  destruct (angle_parse_format_outcome value (set_format (Some value) o))
    as [(_ & E) | (o1 & E & _ & _ & Hs & _)]; intros H.
  - erewrite bind_run_Raise in H by exact E. discriminate.
  - exists o1. erewrite bind_quiet by exact E. split; [reflexivity | exact Hs].
Qed.

Lemma scalar_format_setter_as_check value (o : Instance Q) :
  result (ScalarFormatterLocator.format_setter (Some value) o) = Return tt ->
  exists o1,
    ScalarFormatterLocator.format_setter (Some value) o
    = ScalarFormatterLocator.check_spacing o1 /\
    _spacing o1 = _spacing o.
Proof.
  unfold ScalarFormatterLocator.format_setter. rewrite bind_modify.
  destruct (scalar_parse_format_outcome value (set_format (Some value) o))
    as [(_ & E) | (o1 & E & _ & _ & Hs & _)]; intros H.
  - erewrite bind_run_Raise in H by exact E. discriminate.
  - exists o1. erewrite bind_quiet by exact E. split; [reflexivity | exact Hs].
Qed.

Lemma angle_format_setter_spacing_outcome fmt (o : Instance Quantity) s :
  _spacing o = Some s ->
  result (AngleFormatterLocator.format_setter (Some fmt) o) = Return tt ->
  exists b s',
    result (AngleFormatterLocator.base_spacing
              (self (AngleFormatterLocator.format_setter (Some fmt) o))) = Return b /\
    _spacing (self (AngleFormatterLocator.format_setter (Some fmt) o)) = Some s' /\
    angle_spacing_outcome s b s' (warned (AngleFormatterLocator.format_setter (Some fmt) o)).
Proof.
  intros Hs H.
  destruct (angle_format_setter_as_check _ _ H) as (o1 & E & Hs1).
  rewrite E in *. rewrite Hs in Hs1. revert H.
  rewrite angle_check_spacing_unfolded, Hs1.
  destruct (result (AngleFormatterLocator.base_spacing o1)) as [b|e] eqn:Eb; [|discriminate].
  intros _. exists b. cbv zeta. unfold angle_spacing_outcome.
  destruct (Units.lt s b) eqn:L.
  + rewrite angle_rem_self. cbn [self warned result].
    exists b. rewrite angle_base_spacing_respaced, Eb. repeat split.
    right. left. repeat split.
  + destruct (Units.gt (Units.rem s b) AngleFormatterLocator.tolerance) eqn:G;
      cbn [self warned result].
    * eexists. rewrite angle_base_spacing_respaced, Eb.
      split; [reflexivity|]. split; [reflexivity|].
      right. right. repeat split.
      assert (N : ~ (value s == 0)%Q).
      { intros Z0. rewrite angle_gt_tolerance_zero in G by exact Z0. discriminate. }
      rewrite angle_round_ratio_self by exact N. unfold Units.scale. simpl. ring.
    * exists s. rewrite Eb. repeat split; [exact Hs1|]. left. repeat split.
Qed.

Lemma scalar_format_setter_spacing_outcome fmt (o : Instance Q) s :
  _spacing o = Some s ->
  result (ScalarFormatterLocator.format_setter (Some fmt) o) = Return tt ->
  exists b s',
    result (ScalarFormatterLocator.base_spacing
              (self (ScalarFormatterLocator.format_setter (Some fmt) o))) = Return b /\
    _spacing (self (ScalarFormatterLocator.format_setter (Some fmt) o)) = Some s' /\
    scalar_spacing_outcome s b s' (warned (ScalarFormatterLocator.format_setter (Some fmt) o)).
Proof.
  intros Hs H.
  destruct (scalar_format_setter_as_check _ _ H) as (o1 & E & Hs1).
  rewrite E in *. rewrite Hs in Hs1. revert H.
  rewrite scalar_check_spacing_unfolded, Hs1.
  destruct (result (ScalarFormatterLocator.base_spacing o1)) as [b|e] eqn:Eb; [|discriminate].
  cbv zeta. unfold scalar_spacing_outcome.
  assert (Sb : Num.ltb ScalarFormatterLocator.tolerance (Num.mod_ b b) = false).
  { apply ltb_false_of_le.
    assert (E1 : (b == b * inject_Z 1)%Q) by ring.
    rewrite (mod_comp E1 (Qeq_refl b)), (mod_of_multiple 1 (Qeq_refl b)). discriminate. }
  destruct (Num.ltb s b) eqn:L.
  + rewrite Sb. intros _. cbn [self warned result].
    exists b, b. rewrite scalar_base_spacing_respaced, Eb. repeat split.
    right. left. repeat split; assumption.
  + destruct (Num.ltb ScalarFormatterLocator.tolerance (Num.mod_ s b)) eqn:G.
    * destruct (Num.is_zero s) eqn:Z0; [discriminate|]. intros _.
      cbn [self warned result].
      exists b. eexists. rewrite scalar_base_spacing_respaced, Eb.
      split; [reflexivity|]. split; [reflexivity|].
      right. right. repeat split; try assumption.
      assert (N : ~ (s == 0)%Q).
      { intros Z1. apply Qeq_bool_iff in Z1. unfold Num.is_zero in Z0. congruence. }
      rewrite round_self_ratio by exact N. ring.
    * intros _. cbn [self warned result]. exists b, s. rewrite Eb.
      repeat split; [exact Hs1|]. left. repeat split; assumption.
Qed.

Lemma angle_lt_comp (a a' b : Quantity) :
  unit a = unit a' -> (value a == value a')%Q -> Units.lt a b = Units.lt a' b.
Proof.
  intros U V. unfold Units.lt. rewrite U. apply ltb_comp; [exact V | reflexivity].
Qed.

(** X6.  After a format assignment that returns, an explicit spacing is
    never below the base spacing of the format. *)
Theorem format_setter_leaves_spacing_at_least_base :
  (forall fmt (o : Instance Quantity) s,
      _spacing o = Some s ->
      result (AngleFormatterLocator.format_setter (Some fmt) o) = Return tt ->
      let r := AngleFormatterLocator.format_setter (Some fmt) o in
      exists b s',
        result (AngleFormatterLocator.base_spacing (self r)) = Return b /\
        _spacing (self r) = Some s' /\ Units.lt s' b = false)
  /\
  (forall fmt (o : Instance Q) s,
      _spacing o = Some s ->
      result (ScalarFormatterLocator.format_setter (Some fmt) o) = Return tt ->
      let r := ScalarFormatterLocator.format_setter (Some fmt) o in
      exists b s',
        result (ScalarFormatterLocator.base_spacing (self r)) = Return b /\
        _spacing (self r) = Some s' /\ Num.ltb s' b = false).
Proof.
  split.
  - intros fmt o s Hs H. cbv zeta.
    destruct (angle_format_setter_spacing_outcome _ _ Hs H) as (b & s' & Hb & Hs' & O).
    exists b, s'. split; [exact Hb|]. split; [exact Hs'|].
    destruct O as [(L & _ & -> & _) | [(_ & -> & _) | (_ & _ & U & V & _)]].
    + exact L.
    + apply angle_lt_irrefl.
    + rewrite (@angle_lt_comp s' b b U V). apply angle_lt_irrefl.
  - intros fmt o s Hs H. cbv zeta.
    destruct (scalar_format_setter_spacing_outcome _ _ Hs H) as (b & s' & Hb & Hs' & O).
    exists b, s'. split; [exact Hb|]. split; [exact Hs'|].
    destruct O as [(L & _ & -> & _) | [(_ & -> & _) | (_ & _ & V & _)]].
    + exact L.
    + apply ltb_false_of_le. apply Qle_refl.
    + apply ltb_false_of_le. rewrite V. apply Qle_refl.
Qed.

Lemma format_setter_leaves_spacing_at_least_base_witness :
  (let o := self (AngleFormatterLocator.__init__
                    None None (PyAngle (Qty 20 arcsec)) None blank) in
   let r := AngleFormatterLocator.format_setter (Some "hh:mm:ss") o in
   exists b s',
     result (AngleFormatterLocator.base_spacing (self r)) = Return b /\
     _spacing (self r) = Some s' /\ Units.lt s' b = false)
  /\
  (let o := self (ScalarFormatterLocator.__init__ None None (Some (1 # 1000)%Q) None blank) in
   let r := ScalarFormatterLocator.format_setter (Some "x.x") o in
   exists b s',
     result (ScalarFormatterLocator.base_spacing (self r)) = Return b /\
     _spacing (self r) = Some s' /\ Num.ltb s' b = false).
Proof.
  split.
  - apply (proj1 format_setter_leaves_spacing_at_least_base "hh:mm:ss" _ (Qty 20 arcsec));
      reflexivity.
  - apply (proj2 format_setter_leaves_spacing_at_least_base "x.x" _ (1 # 1000)%Q);
      reflexivity.
Defined.

(* ================================================================== *)
(** ** The base spacing is positive                                   *)
(* ================================================================== *)

Lemma pow10_pos p : (0 < Num.pow10 p)%Q.
Proof.
  unfold Num.pow10. change 0%Q with (inject_Z 0). rewrite <- Zlt_Qlt.
  apply Z.pow_pos_nonneg; lia.
Qed.

Lemma inv_pow10_pos p : (0 < 1 / Num.pow10 p)%Q.
Proof.
  apply Qlt_shift_div_l; [apply pow10_pos|]. rewrite Qmult_0_l. reflexivity.
Qed.

(** X7.  Whenever a base spacing can be read it is a positive quantity,
    so that remainders and quotients by it are defined. *)
Theorem base_spacing_is_positive :
  (forall (o : Instance Quantity) b,
      result (AngleFormatterLocator.base_spacing o) = Return b -> (0 < value b)%Q)
  /\
  (forall (o : Instance Q) b,
      result (ScalarFormatterLocator.base_spacing o) = Return b -> (0 < b)%Q).
Proof.
  split.
  - intros [v n s f u d fl p] b.
    assert (P15 : forall x : Q, (0 < x)%Q -> (0 < x * 15)%Q).
    { intros x Hx. apply Qmult_lt_0_compat; [exact Hx | reflexivity]. }
    destruct d as [[|]|], u as [[]|], fl as [[|[|[|[|]]]]|], p as [[|p]|];
      cbn; intros H; try discriminate; injection H as <-; cbn [value];
        first [ reflexivity | apply inv_pow10_pos | apply P15; apply inv_pow10_pos ].
  - intros [v n s f u d fl p] b. destruct p as [p|]; cbn; intros H; [|discriminate].
    injection H as <-. apply inv_pow10_pos.
Qed.

Lemma base_spacing_is_positive_witness :
  (0 < value (Qty (1 / Num.pow10 2 * 15) arcsec))%Q /\ (0 < 1 / Num.pow10 3)%Q.
Proof.
  split.
  - apply (proj1 base_spacing_is_positive
             (self (AngleFormatterLocator.format_setter (Some "hh:mm:ss.ss") blank))).
    reflexivity.
  - apply (proj2 base_spacing_is_positive
             (self (ScalarFormatterLocator.format_setter (Some "x.xxx") blank))).
    reflexivity.
Defined.

(* ================================================================== *)
(** ** The descriptor of every format of the grammars                 *)
(* ================================================================== *)

Lemma angle_format_setter_descriptor fmt (o o1 : Instance Quantity) b :
  AngleFormatterLocator.parse_format fmt (set_format (Some fmt) o) = Run (Return tt) o1 [] ->
  result (AngleFormatterLocator.base_spacing o1) = Return b ->
  let r := AngleFormatterLocator.format_setter (Some fmt) o in
  result r = Return tt /\ descriptor (self r) = descriptor o1 /\
  _format (self r) = _format o1 /\
  result (AngleFormatterLocator.base_spacing (self r)) = Return b.
Proof.
  intros E Hb. cbv zeta. unfold AngleFormatterLocator.format_setter.
  rewrite bind_modify. erewrite bind_quiet by exact E.
  destruct (angle_check_spacing_returns o1 Hb) as (R & Ku & Kd & Kf & Kp & Kfmt).
  split; [exact R|]. split; [unfold descriptor; rewrite Ku, Kd, Kf, Kp; reflexivity|].
  split; [exact Kfmt|].
  rewrite <- Hb. apply angle_base_spacing_of_descriptor; assumption.
Qed.

Lemma contains_rep_other c a n : a <> c -> PyStr.contains c (PyStr.rep a n) = false.
Proof.
  intros N. induction n as [|n IH]; simpl; [reflexivity|].
  rewrite IH. destruct (Ascii.eqb_spec a c); [contradiction | reflexivity].
Qed.

Lemma angle_sexagesimal_parse (hours : bool) f (o : Instance Quantity) :
  let lead := if hours then "hh" else "dd" in
  let r := AngleFormatterLocator.format_setter (Some (sexagesimal_format lead f)) o in
  result r = Return tt /\
  descriptor (self r)
  = (Some false, Some (if hours then hourangle else degree),
     Some (sexagesimal_fields f), Some (sexagesimal_precision f)) /\
  _format (self r) = Some (sexagesimal_format lead f).
Proof.
  cbv zeta.
  set (fmt := sexagesimal_format (if hours then "hh" else "dd") f).
  assert (P : exists o1 b,
             AngleFormatterLocator.parse_format fmt (set_format (Some fmt) o)
             = Run (Return tt) o1 [] /\
             result (AngleFormatterLocator.base_spacing o1) = Return b /\
             descriptor o1
             = (Some false, Some (if hours then hourangle else degree),
                Some (sexagesimal_fields f), Some (sexagesimal_precision f)) /\
             _format o1 = Some fmt).
  { unfold AngleFormatterLocator.parse_format. subst fmt.
    destruct hours, f as [ | | [|n]]; try (eexists _, _; repeat split; fail).
    - assert (E1 : re_match DMS_RE (sexagesimal_format "hh" (Fields3 (S n))) = false)
        by (cbn; apply re_match_Void).
      assert (E2 : re_match HMS_RE (sexagesimal_format "hh" (Fields3 (S n))) = true)
        by (cbn; apply re_match_Star_rep; discriminate).
      rewrite E1, E2.
      assert (E3 : PyStr.contains "." (sexagesimal_format "hh" (Fields3 (S n))) = true)
        by reflexivity.
      rewrite E3.
      assert (E4 : PyStr.len (sexagesimal_format "hh" (Fields3 (S n)))
                   - PyStr.index "." (sexagesimal_format "hh" (Fields3 (S n))) - 1 = S n).
      { unfold PyStr.len. cbn. rewrite length_rep. lia. }
      rewrite E4. eexists _, _. repeat split.
    - assert (E2 : re_match DMS_RE (sexagesimal_format "dd" (Fields3 (S n))) = true)
        by (cbn; apply re_match_Star_rep; discriminate).
      rewrite E2.
      assert (E3 : PyStr.contains "." (sexagesimal_format "dd" (Fields3 (S n))) = true)
        by reflexivity.
      rewrite E3.
      assert (E4 : PyStr.len (sexagesimal_format "dd" (Fields3 (S n)))
                   - PyStr.index "." (sexagesimal_format "dd" (Fields3 (S n))) - 1 = S n).
      { unfold PyStr.len. cbn. rewrite length_rep. lia. }
      rewrite E4. eexists _, _. repeat split. }
  destruct P as (o1 & b & E & Hb & D & F).
  destruct (angle_format_setter_descriptor fmt o E Hb) as (R & D' & F' & _).
  split; [exact R|]. split; [rewrite D'; exact D | rewrite F'; exact F].
Qed.

Lemma decimal_format_contains c n :
  c <> "."%char -> PyStr.contains "." (decimal_format c (S n)) = true.
Proof.
  intros N. unfold decimal_format. cbn [PyStr.contains].
  destruct (Ascii.eqb_spec c "."); [contradiction | reflexivity].
Qed.

Lemma decimal_format_precision c n :
  c <> "."%char ->
  PyStr.len (decimal_format c (S n)) - PyStr.index "." (decimal_format c (S n)) - 1 = S n.
Proof.
  intros N. unfold decimal_format, PyStr.len. cbn [PyStr.index String.length].
  destruct (Ascii.eqb_spec c "."); [contradiction|].
  cbn [Ascii.eqb Bool.eqb]. cbn [String.length PyStr.rep]. rewrite length_rep. lia.
Qed.

Lemma re_match_decimal c n :
  c <> newline ->
  re_match (Cat (Chr c) (Opt (Cat Dot (Plus (Chr c))))) (decimal_format c n) = true.
Proof.
  intros N. unfold decimal_format. destruct n as [|n].
  - cbn. rewrite Ascii.eqb_refl. reflexivity.
  - cbn. rewrite !Ascii.eqb_refl. cbn.
    destruct (Ascii.eqb_spec c newline) as [|_]; [contradiction|]. cbn.
    rewrite Ascii.eqb_refl. cbn.
    rewrite re_match_Star_rep by exact N. rewrite ?orb_true_r. reflexivity.
Qed.

Lemma re_match_other_lead r c s :
  deriv c r = Void -> nullable r = false -> re_match r (String c s) = false.
Proof. intros D N. simpl. rewrite D, N. apply re_match_Void. Qed.

Lemma angle_decimal_parse c u n (o : Instance Quantity) :
  (c, u) = ("d"%char, degree) \/ (c, u) = ("m"%char, arcmin) \/ (c, u) = ("s"%char, arcsec) ->
  let r := AngleFormatterLocator.format_setter (Some (decimal_format c n)) o in
  result r = Return tt /\
  descriptor (self r) = (Some true, Some u, Some 1, Some n) /\
  _format (self r) = Some (decimal_format c n) /\
  result (AngleFormatterLocator.base_spacing (self r)) = Return (Qty (1 / Num.pow10 n) u).
Proof.
  intros Hc. cbv zeta.
  set (fmt := decimal_format c n).
  assert (P : exists o1,
             AngleFormatterLocator.parse_format fmt (set_format (Some fmt) o)
             = Run (Return tt) o1 [] /\
             descriptor o1 = (Some true, Some u, Some 1, Some n) /\
             _format o1 = Some fmt).
  { unfold AngleFormatterLocator.parse_format.
    destruct Hc as [Hc | [Hc | Hc]]; injection Hc as -> ->; subst fmt;
      (destruct n as [|n]; [eexists; repeat split|]).
    - (* d.d+ *)
      assert (E1 : re_match DMS_RE (decimal_format "d" (S n)) = false)
        by (cbn; apply re_match_Void).
      assert (E2 : re_match HMS_RE (decimal_format "d" (S n)) = false)
        by (apply re_match_other_lead; reflexivity).
      assert (E3 : re_match DDEC_RE (decimal_format "d" (S n)) = true)
        by (apply re_match_decimal; discriminate).
      rewrite E1, E2, E3.
      rewrite (@decimal_format_contains "d" n) by discriminate.
      rewrite (@decimal_format_precision "d" n) by discriminate.
      eexists. repeat split.
    - (* m.m+ *)
      assert (E1 : re_match DMS_RE (decimal_format "m" (S n)) = false)
        by (apply re_match_other_lead; reflexivity).
      assert (E2 : re_match HMS_RE (decimal_format "m" (S n)) = false)
        by (apply re_match_other_lead; reflexivity).
      assert (E3 : re_match DDEC_RE (decimal_format "m" (S n)) = false)
        by (apply re_match_other_lead; reflexivity).
      assert (E4 : re_match DMIN_RE (decimal_format "m" (S n)) = true)
        by (apply re_match_decimal; discriminate).
      rewrite E1, E2, E3, E4.
      rewrite (@decimal_format_contains "m" n) by discriminate.
      rewrite (@decimal_format_precision "m" n) by discriminate.
      eexists. repeat split.
    - (* s.s+ *)
      assert (E1 : re_match DMS_RE (decimal_format "s" (S n)) = false)
        by (apply re_match_other_lead; reflexivity).
      assert (E2 : re_match HMS_RE (decimal_format "s" (S n)) = false)
        by (apply re_match_other_lead; reflexivity).
      assert (E3 : re_match DDEC_RE (decimal_format "s" (S n)) = false)
        by (apply re_match_other_lead; reflexivity).
      assert (E4 : re_match DMIN_RE (decimal_format "s" (S n)) = false)
        by (apply re_match_other_lead; reflexivity).
      assert (E5 : re_match DSEC_RE (decimal_format "s" (S n)) = true)
        by (apply re_match_decimal; discriminate).
      rewrite E1, E2, E3, E4, E5.
      rewrite (@decimal_format_contains "s" n) by discriminate.
      rewrite (@decimal_format_precision "s" n) by discriminate.
      eexists. repeat split. }
  destruct P as (o1 & E & D & F).
  assert (Hb : result (AngleFormatterLocator.base_spacing o1)
               = Return (Qty (1 / Num.pow10 n) u)).
  { destruct o1 as [v1 n1 s1 f1 u1 d1 fl1 p1]. unfold descriptor in D. cbn in D.
    injection D as -> -> -> ->.
    destruct Hc as [Hc | [Hc | Hc]]; injection Hc as _ ->; reflexivity. }
  destruct (angle_format_setter_descriptor fmt o E Hb) as (R & D' & F' & B').
  split; [exact R|]. split; [rewrite D'; exact D|]. split; [rewrite F'; exact F | exact B'].
Qed.

Lemma scalar_off_grid_not_zero (s b : Q) :
  Num.ltb ScalarFormatterLocator.tolerance (Num.mod_ s b) = true -> Num.is_zero s = false.
Proof.
  intros G. unfold Num.is_zero. destruct (Qeq_bool s 0) eqn:E; [|reflexivity].
  apply Qeq_bool_iff in E.
  assert (F : Num.ltb ScalarFormatterLocator.tolerance (Num.mod_ s b) = false).
  { apply ltb_false_of_le. rewrite (mod_comp E (Qeq_refl b)), mod_zero. discriminate. }
  congruence.
Qed.

(** The check of the spacing never fails once the precision is known. *)
Lemma scalar_check_spacing_returns (o : Instance Q) b :
  result (ScalarFormatterLocator.base_spacing o) = Return b ->
  result (ScalarFormatterLocator.check_spacing o) = Return tt /\
  _precision (self (ScalarFormatterLocator.check_spacing o)) = _precision o /\
  _format (self (ScalarFormatterLocator.check_spacing o)) = _format o.
Proof.
  intros Hb. rewrite scalar_check_spacing_unfolded, Hb.
  destruct (_spacing o) as [s|]; [|repeat split].
  cbv zeta.
  destruct (Num.ltb s b).
  - destruct (Num.ltb ScalarFormatterLocator.tolerance (Num.mod_ b b)) eqn:G;
      [rewrite (scalar_off_grid_not_zero _ _ G)|]; repeat split.
  - destruct (Num.ltb ScalarFormatterLocator.tolerance (Num.mod_ s b)) eqn:G;
      [rewrite (scalar_off_grid_not_zero _ _ G)|]; repeat split.
Qed.

Lemma scalar_base_spacing_value (o : Instance Q) n :
  _precision o = Some n ->
  result (ScalarFormatterLocator.base_spacing o) = Return (1 / Num.pow10 n)%Q.
Proof. destruct o as [v1 n1 s1 f1 u1 d1 fl1 p1]. cbn. intros ->. reflexivity. Qed.

Lemma scalar_decimal_parse n (o : Instance Q) :
  let r := ScalarFormatterLocator.format_setter (Some (decimal_format "x" n)) o in
  result r = Return tt /\
  _precision (self r) = Some n /\
  _format (self r) = Some (decimal_format "x" n) /\
  result (ScalarFormatterLocator.base_spacing (self r)) = Return (1 / Num.pow10 n)%Q.
Proof.
  cbv zeta. unfold ScalarFormatterLocator.format_setter. rewrite bind_modify.
  set (fmt := decimal_format "x" n).
  assert (P : exists o1,
             ScalarFormatterLocator.parse_format fmt (set_format (Some fmt) o)
             = Run (Return tt) o1 [] /\
             _precision o1 = Some n /\ _format o1 = Some fmt).
  { unfold ScalarFormatterLocator.parse_format. subst fmt.
    destruct n as [|n]; [eexists; repeat split|].
    assert (E : re_match SCAL_RE (decimal_format "x" (S n)) = true)
      by (apply re_match_decimal; discriminate).
    rewrite E.
    rewrite (@decimal_format_contains "x" n) by discriminate.
    rewrite (@decimal_format_precision "x" n) by discriminate.
    eexists. repeat split. }
  destruct P as (o1 & E & Hp & Hf).
  erewrite bind_quiet by exact E.
  pose proof (scalar_base_spacing_value o1 Hp) as Hb.
  destruct (scalar_check_spacing_returns o1 Hb) as (R & Kp & Kf).
  split; [exact R|]. split; [rewrite Kp; exact Hp|]. split; [rewrite Kf; exact Hf|].
  apply scalar_base_spacing_value. rewrite Kp. exact Hp.
Qed.

(** X8.  The descriptor of every format of the grammars with at most
    308 letters after the point (from 309 on, [10. ** precision]
    overflows).  A sexagesimal format sets [_decimal] to false, the unit
    to the degree ([dd...]) or the hour angle ([hh...]), [_fields] to the
    number of its fields and [_precision] to the number of letters after
    the point.  A decimal format [d], [m], [s] followed by a point and
    [n] letters sets [_decimal] to true, the unit to the degree, the
    arcminute or the arcsecond, [_fields] to 1 and [_precision] to [n],
    and its base spacing is [10^-n] of that unit; [x] with [n] letters
    gives the scalar class the precision [n] and the base spacing
    [10^-n].  In every such case the assignment returns, whatever the
    instance. *)
Theorem format_setter_reads_every_grammar_format :
  (forall (hours : bool) f (o : Instance Quantity),
      sexagesimal_precision f <= 308 ->
      let lead := if hours then "hh" else "dd" in
      let r := AngleFormatterLocator.format_setter (Some (sexagesimal_format lead f)) o in
      result r = Return tt /\
      descriptor (self r)
      = (Some false, Some (if hours then hourangle else degree),
         Some (sexagesimal_fields f), Some (sexagesimal_precision f)) /\
      _format (self r) = Some (sexagesimal_format lead f))
  /\
  (forall n (o : Instance Quantity),
      n <= 308 ->
      let r := AngleFormatterLocator.format_setter (Some (decimal_format "d" n)) o in
      result r = Return tt /\
      descriptor (self r) = (Some true, Some degree, Some 1, Some n) /\
      _format (self r) = Some (decimal_format "d" n) /\
      result (AngleFormatterLocator.base_spacing (self r))
      = Return (Qty (1 / Num.pow10 n) degree))
  /\
  (forall n (o : Instance Quantity),
      n <= 308 ->
      let r := AngleFormatterLocator.format_setter (Some (decimal_format "m" n)) o in
      result r = Return tt /\
      descriptor (self r) = (Some true, Some arcmin, Some 1, Some n) /\
      _format (self r) = Some (decimal_format "m" n) /\
      result (AngleFormatterLocator.base_spacing (self r))
      = Return (Qty (1 / Num.pow10 n) arcmin))
  /\
  (forall n (o : Instance Quantity),
      n <= 308 ->
      let r := AngleFormatterLocator.format_setter (Some (decimal_format "s" n)) o in
      result r = Return tt /\
      descriptor (self r) = (Some true, Some arcsec, Some 1, Some n) /\
      _format (self r) = Some (decimal_format "s" n) /\
      result (AngleFormatterLocator.base_spacing (self r))
      = Return (Qty (1 / Num.pow10 n) arcsec))
  /\
  (forall n (o : Instance Q),
      n <= 308 ->
      let r := ScalarFormatterLocator.format_setter (Some (decimal_format "x" n)) o in
      result r = Return tt /\
      _precision (self r) = Some n /\
      _format (self r) = Some (decimal_format "x" n) /\
      result (ScalarFormatterLocator.base_spacing (self r)) = Return (1 / Num.pow10 n)%Q).
Proof.
  split; [intros hours f o _; exact (angle_sexagesimal_parse hours f o)|].
  split; [intros n o _; apply angle_decimal_parse; left; reflexivity|].
  split; [intros n o _; apply angle_decimal_parse; right; left; reflexivity|].
  split; [intros n o _; apply angle_decimal_parse; right; right; reflexivity|].
  intros n o _. exact (scalar_decimal_parse n o).
Qed.

Lemma format_setter_reads_every_grammar_format_witness :
  (let o := self (AngleFormatterLocator.__init__
                    None None (PyAngle (Qty 20 arcsec)) None blank) in
   let r := AngleFormatterLocator.format_setter (Some "hh:mm:ss.ss") o in
   result r = Return tt /\
   descriptor (self r) = (Some false, Some hourangle, Some 3, Some 2) /\
   _format (self r) = Some "hh:mm:ss.ss")
  /\
  (let r := AngleFormatterLocator.format_setter (Some "m.mm") blank in
   result r = Return tt /\
   descriptor (self r) = (Some true, Some arcmin, Some 1, Some 2) /\
   _format (self r) = Some "m.mm" /\
   result (AngleFormatterLocator.base_spacing (self r))
   = Return (Qty (1 / Num.pow10 2) arcmin))
  /\
  (let o := self (ScalarFormatterLocator.__init__ None None (Some (1 # 4)%Q) None blank) in
   let r := ScalarFormatterLocator.format_setter (Some "x.xxx") o in
   result r = Return tt /\
   _precision (self r) = Some 3 /\
   _format (self r) = Some "x.xxx" /\
   result (ScalarFormatterLocator.base_spacing (self r)) = Return (1 / Num.pow10 3)%Q).
Proof.
  split; [|split].
  - apply (proj1 format_setter_reads_every_grammar_format true (Fields3 2)).
    cbn. lia.
  - apply (proj1 (proj2 (proj2 format_setter_reads_every_grammar_format)) 2). lia.
  - apply (proj2 (proj2 (proj2 (proj2 format_setter_reads_every_grammar_format))) 3). lia.
Defined.

Example decimal_format_examples :
  [decimal_format "d" 0; decimal_format "m" 2; decimal_format "x" 3;
   sexagesimal_format "hh" (Fields3 2); sexagesimal_format "dd" Fields2]
  = ["d"; "m.mm"; "x.xxx"; "hh:mm:ss.ss"; "dd:mm"].
Proof. reflexivity. Qed.

(* ================================================================== *)
(** ** The strings of the grammars, and the failures of the setters   *)
(* ================================================================== *)

Lemma Matches_Chr c u : Matches (Chr c) u -> u = String c "".
Proof. intros H. inversion H. reflexivity. Qed.

Lemma Matches_Opt r u : Matches (Opt r) u -> u = "" \/ Matches r u.
Proof.
  intros H. apply Matches_Alt in H. destruct H as [H | H]; [left | right; exact H].
  apply Matches_Eps. exact H.
Qed.

Lemma Matches_Star_Chr c u : Matches (Star (Chr c)) u -> exists n, u = PyStr.rep c n.
Proof.
  intros H. remember (Star (Chr c)) as t eqn:Et.
  induction H as [ | | | | | | r0 | r0 a b H1 _ H2 IH2 ]; try discriminate.
  - exists 0. reflexivity.
  - injection Et as ->. apply Matches_Chr in H1. subst a.
    destruct (IH2 eq_refl) as (n & ->). exists (S n). reflexivity.
Qed.

Lemma Matches_Plus_Chr c u : Matches (Plus (Chr c)) u -> exists n, u = PyStr.rep c (S n).
Proof.
  intros H. apply Matches_Cat in H. destruct H as (a & b & -> & Ha & Hb).
  apply Matches_Chr in Ha. subst a. apply Matches_Star_Chr in Hb. destruct Hb as (n & ->).
  exists n. reflexivity.
Qed.

Lemma Matches_fraction c u :
  Matches (fraction c) u -> u = "" \/ exists n, u = String "." (PyStr.rep c (S n)).
Proof.
  intros H. apply Matches_Opt in H. destruct H as [-> | H]; [left; reflexivity|].
  right. apply Matches_Cat in H. destruct H as (a & b & -> & Ha & Hb).
  apply Matches_Chr in Ha. subst a. apply Matches_Plus_Chr in Hb. destruct Hb as (n & ->).
  exists n. reflexivity.
Qed.

Lemma Matches_Lit s u : Matches (Lit s) u -> u = s.
Proof.
  revert u. induction s as [|c s IH]; intros u H.
  - apply Matches_Eps. exact H.
  - destruct s as [|c' s'].
    + apply Matches_Chr. exact H.
    + change (Lit (String c (String c' s'))) with (Cat (Chr c) (Lit (String c' s'))) in H.
      apply Matches_Cat in H. destruct H as (a & b & -> & Ha & Hb).
      apply Matches_Chr in Ha. subst a. apply IH in Hb. subst b. reflexivity.
Qed.

Lemma sexagesimal_grammar_family lead u :
  Matches (sexagesimal_grammar lead) u -> exists f, u = sexagesimal_format lead f.
Proof.
  unfold sexagesimal_grammar. intros H.
  apply Matches_Cat in H. destruct H as (a & b & -> & Ha & Hb).
  apply Matches_Lit in Ha. subst a.
  apply Matches_Opt in Hb. destruct Hb as [-> | Hb].
  { exists Fields1. simpl. apply append_nil_r. }
  apply Matches_Cat in Hb. destruct Hb as (a & b' & -> & Ha & Hb).
  apply Matches_Lit in Ha. subst a.
  apply Matches_Opt in Hb. destruct Hb as [-> | Hb].
  { exists Fields2. reflexivity. }
  apply Matches_Cat in Hb. destruct Hb as (a & b'' & -> & Ha & Hb).
  apply Matches_Lit in Ha. subst a.
  apply Matches_fraction in Hb. destruct Hb as [-> | (n & ->)].
  - exists (Fields3 0). reflexivity.
  - exists (Fields3 (S n)). reflexivity.
Qed.

Lemma decimal_grammar_family c u :
  Matches (decimal_grammar c) u -> exists n, u = decimal_format c n.
Proof.
  unfold decimal_grammar. intros H.
  apply Matches_Cat in H. destruct H as (a & b & -> & Ha & Hb).
  apply Matches_Chr in Ha. subst a.
  apply Matches_fraction in Hb. destruct Hb as [-> | (n & ->)].
  - exists 0. reflexivity.
  - exists (S n). reflexivity.
Qed.

(** The grammars recognise exactly the generated formats. *)
Lemma angle_grammar_family value :
  in_angle_grammar value = true -> angle_format_family value.
Proof.
  unfold in_angle_grammar, angle_format_family. rewrite !orb_true_iff, !fullmatch_spec.
  intros [[[[H | H] | H] | H] | H].
  - left. apply sexagesimal_grammar_family in H. destruct H as (f & ->).
    exists false, f. reflexivity.
  - left. apply sexagesimal_grammar_family in H. destruct H as (f & ->).
    exists true, f. reflexivity.
  - right. apply decimal_grammar_family in H. destruct H as (n & ->).
    exists "d"%char, n. split; [left; reflexivity | reflexivity].
  - right. apply decimal_grammar_family in H. destruct H as (n & ->).
    exists "m"%char, n. split; [right; left; reflexivity | reflexivity].
  - right. apply decimal_grammar_family in H. destruct H as (n & ->).
    exists "s"%char, n. split; [right; right; reflexivity | reflexivity].
Qed.

Lemma scalar_grammar_family value :
  in_scalar_grammar value = true -> exists n, value = decimal_format "x" n.
Proof.
  unfold in_scalar_grammar. rewrite fullmatch_spec. apply decimal_grammar_family.
Qed.

Lemma angle_family_returns value (o : Instance Quantity) :
  angle_format_family value ->
  result (AngleFormatterLocator.format_setter (Some value) o) = Return tt.
Proof.
  intros [(hours & f & ->) | (c & n & Hc & ->)].
  - apply (angle_sexagesimal_parse hours f o).
  - destruct Hc as [-> | [-> | ->]].
    + apply (@angle_decimal_parse "d" degree n o). left. reflexivity.
    + apply (@angle_decimal_parse "m" arcmin n o). right. left. reflexivity.
    + apply (@angle_decimal_parse "s" arcsec n o). right. right. reflexivity.
Qed.

(** After a successful parse every descriptor attribute is set. *)
Lemma angle_parse_sets_descriptor value (o o1 : Instance Quantity) :
  AngleFormatterLocator.parse_format value o = Run (Return tt) o1 [] ->
  exists d u f p, descriptor o1 = (Some d, Some u, Some f, Some p).
Proof.
  unfold AngleFormatterLocator.parse_format.
  destruct (re_match DMS_RE value);
    [destruct (PyStr.contains "." value); intros E; injection E as <-;
     eexists _, _, _, _; reflexivity|].
  destruct (re_match HMS_RE value);
    [destruct (PyStr.contains "." value); intros E; injection E as <-;
     eexists _, _, _, _; reflexivity|].
  destruct (re_match DDEC_RE value);
    [destruct (PyStr.contains "." value); intros E; injection E as <-;
     eexists _, _, _, _; reflexivity|].
  destruct (re_match DMIN_RE value);
    [destruct (PyStr.contains "." value); intros E; injection E as <-;
     eexists _, _, _, _; reflexivity|].
  destruct (re_match DSEC_RE value);
    [destruct (PyStr.contains "." value); intros E; injection E as <-;
     eexists _, _, _, _; reflexivity|].
  discriminate.
Qed.

Lemma angle_base_spacing_of_full_descriptor (o : Instance Quantity) d u f p :
  descriptor o = (Some d, Some u, Some f, Some p) ->
  (exists b, result (AngleFormatterLocator.base_spacing o) = Return b)
  \/ result (AngleFormatterLocator.base_spacing o) = Raise (UnboundLocalError "spacing").
Proof.
  destruct o as [v1 n1 s1 f1 u1 d1 fl1 p1]. unfold descriptor. cbn.
  intros E. injection E as -> -> -> ->.
  destruct d, u, f as [|[|[|[|f]]]], p as [|p];
    first [ left; eexists; reflexivity | right; reflexivity ].
Qed.

Lemma scalar_parse_sets_precision value (o o1 : Instance Q) :
  ScalarFormatterLocator.parse_format value o = Run (Return tt) o1 [] ->
  exists p, _precision o1 = Some p.
Proof.
  unfold ScalarFormatterLocator.parse_format.
  destruct (re_match SCAL_RE value); [|discriminate].
  destruct (PyStr.contains "." value); intros E; injection E as <-; eexists; reflexivity.
Qed.

(** X9.  How a format assignment can end, for a string of at most 308
    characters (so that [10. ** precision] does not overflow).  The scalar
    setter either returns or raises the invalid-format error, the latter
    exactly for the strings its pattern does not match.  The angle setter
    has one more outcome: [UnboundLocalError] from [base_spacing], which
    needs an explicit spacing on the instance and a string outside the
    grammars (a pattern matches it and gives it four fields); for every
    such string of the grammars both setters return. *)
Theorem format_setter_outcomes :
  (forall value (o : Instance Q),
      String.length value <= 308 ->
      let r := ScalarFormatterLocator.format_setter (Some value) o in
      (re_match SCAL_RE value = true /\ result r = Return tt)
      \/ (re_match SCAL_RE value = false /\ result r = Raise (invalid_format value)))
  /\
  (forall value (o : Instance Quantity),
      String.length value <= 308 ->
      let r := AngleFormatterLocator.format_setter (Some value) o in
      result r = Return tt
      \/ (angle_unmatched value /\ result r = Raise (invalid_format value))
      \/ (result r = Raise (UnboundLocalError "spacing") /\
          _spacing o <> None /\ in_angle_grammar value = false))
  /\
  (forall value (o : Instance Quantity),
      String.length value <= 308 ->
      in_angle_grammar value = true ->
      result (AngleFormatterLocator.format_setter (Some value) o) = Return tt)
  /\
  (forall value (o : Instance Q),
      String.length value <= 308 ->
      in_scalar_grammar value = true ->
      result (ScalarFormatterLocator.format_setter (Some value) o) = Return tt).
Proof.
  split; [|split; [|split]].
  - intros fmt o _. cbv zeta. unfold ScalarFormatterLocator.format_setter.
    rewrite bind_modify.
    destruct (scalar_parse_format_outcome fmt (set_format (Some fmt) o))
      as [(U & E) | (o1 & E & _)].
    + right. erewrite bind_run_Raise by exact E. split; [exact U | reflexivity].
    + left. erewrite bind_quiet by exact E.
      destruct (scalar_parse_sets_precision _ _ E) as (p & Hp).
      destruct (scalar_check_spacing_returns o1 (scalar_base_spacing_value o1 Hp)) as (R & _).
      split; [|exact R].
      destruct (re_match SCAL_RE fmt) eqn:M; [reflexivity|].
      unfold ScalarFormatterLocator.parse_format in E. rewrite M in E. discriminate.
  - intros fmt o _. cbv zeta.
    destruct (in_angle_grammar fmt) eqn:G.
    { left. apply angle_family_returns. apply angle_grammar_family. exact G. }
    unfold AngleFormatterLocator.format_setter. rewrite bind_modify.
    destruct (angle_parse_format_outcome fmt (set_format (Some fmt) o))
      as [(U & E) | (o1 & E & _ & _ & Hs & _)].
    + right. left. erewrite bind_run_Raise by exact E. split; [exact U | reflexivity].
    + erewrite bind_quiet by exact E.
      destruct (angle_parse_sets_descriptor _ _ E) as (d & u & f & p & D).
      apply angle_base_spacing_of_full_descriptor in D. destruct D as [(b & Hb) | Hb].
      * left. apply (angle_check_spacing_returns o1 Hb).
      * rewrite angle_check_spacing_unfolded, Hs, Hb. cbn [_spacing set_format].
        destruct (_spacing o) as [s|]; [|left; reflexivity].
        right. right. repeat split. discriminate.
  - intros fmt o _ G. apply angle_family_returns. apply angle_grammar_family. exact G.
  - intros fmt o _ G. destruct (scalar_grammar_family _ G) as (n & ->).
    apply (scalar_decimal_parse n o).
Qed.

Lemma format_setter_outcomes_witness :
  result (AngleFormatterLocator.format_setter (Some "hh:mm:ss.sss") blank) = Return tt
  /\ result (ScalarFormatterLocator.format_setter (Some "x.xx") blank) = Return tt
  /\ (let r := AngleFormatterLocator.format_setter (Some "dd:mm:ss:s")
                 (self (AngleFormatterLocator.__init__
                          None None (PyAngle (Qty 1 degree)) None blank)) in
      result r = Return tt
      \/ (angle_unmatched "dd:mm:ss:s" /\ result r = Raise (invalid_format "dd:mm:ss:s"))
      \/ (result r = Raise (UnboundLocalError "spacing") /\
          _spacing (self (AngleFormatterLocator.__init__
                            None None (PyAngle (Qty 1 degree)) None blank)) <> None /\
          in_angle_grammar "dd:mm:ss:s" = false))
  /\ (let r := ScalarFormatterLocator.format_setter (Some "y.y") blank in
      (re_match SCAL_RE "y.y" = true /\ result r = Return tt)
      \/ (re_match SCAL_RE "y.y" = false /\ result r = Raise (invalid_format "y.y"))).
Proof.
  split; [|split; [|split]].
  - apply (proj1 (proj2 (proj2 format_setter_outcomes))); [cbn; lia | reflexivity].
  - apply (proj2 (proj2 (proj2 format_setter_outcomes))); [cbn; lia | reflexivity].
  - apply (proj1 (proj2 format_setter_outcomes)). cbn. lia.
  - apply (proj1 format_setter_outcomes). cbn. lia.
Defined.

Example angle_format_setter_unbound_local :
  result (AngleFormatterLocator.__init__
            None None (PyAngle (Qty 1 degree)) (Some "dd:mm:ss:s") blank)
  = Raise (UnboundLocalError "spacing").
Proof. reflexivity. Qed.


(* ================================================================== *)
(** ** Logarithms, rounding and the digits of a label                 *)
(* ================================================================== *)

Example format_f_examples :
  map (PyFormat.format_f 2) [(5 # 2)%Q; (-1 # 1000)%Q; (1005 # 100)%Q; (1 # 8)%Q; (3 # 8)%Q; (-7 # 1)%Q; 0%Q]
  = map Done ["2.50"; "-0.00"; "10.05"; "0.12"; "0.38"; "-7.00"; "0.00"]
  /\ map (PyFormat.format_f 0) [(5 # 2)%Q; (3 # 2)%Q; (1 # 2)%Q; (-4 # 10)%Q; (123 # 1)%Q]
     = map Done ["2"; "2"; "0"; "-0"; "123"]
  /\ map Num.floor_log10 [(1 # 1000)%Q; (2 # 1000)%Q; (999 # 1000)%Q; 1%Q; (99 # 10)%Q; 10%Q; (12345 # 10)%Q]
     = [-3; -3; -1; 0; 0; 1; 3]%Z.
Proof. vm_compute. repeat split. Qed.

Lemma ltb_lt x y : Num.ltb x y = true <-> (x < y)%Q.
Proof.
  unfold Num.ltb. rewrite negb_true_iff. split.
  - intros E. apply Qnot_le_lt. intros H. apply Qle_bool_iff in H. congruence.
  - intros H. destruct (Qle_bool y x) eqn:E; [|reflexivity].
    apply Qle_bool_iff in E. exfalso. exact (Qlt_not_le _ _ H E).
Qed.

Lemma ltb_ge x y : Num.ltb x y = false <-> (y <= x)%Q.
Proof.
  unfold Num.ltb. rewrite negb_false_iff. apply Qle_bool_iff.
Qed.

Lemma pow10_0 : (Num.pow10 0 == 1)%Q.
Proof. reflexivity. Qed.

Lemma pow10_S p : (Num.pow10 (S p) == 10 * Num.pow10 p)%Q.
Proof.
  unfold Num.pow10. rewrite Nat2Z.inj_succ, Z.pow_succ_r by lia.
  rewrite inject_Z_mult. reflexivity.
Qed.

Lemma pow10_mono p q : (p <= q)%nat -> (Num.pow10 p <= Num.pow10 q)%Q.
Proof.
  intros H. unfold Num.pow10. rewrite <- Zle_Qle.
  apply Z.pow_le_mono_r; lia.
Qed.

Lemma log10_below_spec fuel : forall x,
  (0 < x)%Q -> (1 <= x * Num.pow10 fuel)%Q ->
  (1 <= x * Num.pow10 (Num.log10_below fuel x))%Q /\
  forall q, (q < Num.log10_below fuel x)%nat -> (x * Num.pow10 q < 1)%Q.
Proof.
  induction fuel as [|fuel IH]; intros x Hx H; simpl.
  - split; [exact H | intros q Hq; lia].
  - destruct (Qle_bool 1 x) eqn:E.
    + apply Qle_bool_iff in E. split; [rewrite pow10_0; lra | intros q Hq; lia].
    + assert (L : (x < 1)%Q).
      { apply Qnot_le_lt. intros G. apply Qle_bool_iff in G. congruence. }
      destruct (IH (x * 10)%Q) as (A & B).
      * lra.
      * rewrite pow10_S in H. lra.
      * split; [rewrite pow10_S; lra|].
        intros [|q] Hq; [rewrite pow10_0; lra|].
        rewrite pow10_S. specialize (B q ltac:(lia)). lra.
Qed.

Lemma log10_above_spec fuel : forall x,
  (1 <= x)%Q -> (x < Num.pow10 fuel)%Q ->
  (Num.pow10 (Num.log10_above fuel x) <= x)%Q /\
  (x < Num.pow10 (S (Num.log10_above fuel x)))%Q.
Proof.
  induction fuel as [|fuel IH]; intros x Hx H; simpl.
  - rewrite pow10_0 in H. lra.
  - destruct (Qle_bool 10 x) eqn:E.
    + apply Qle_bool_iff in E.
      assert (G : (x == 10 * (x / 10))%Q) by (field; discriminate).
      rewrite pow10_S in H.
      set (y := (x / 10)%Q) in *. clearbody y.
      destruct (IH y) as (A & B); [lra | lra |].
      rewrite pow10_S in B. rewrite !pow10_S. split; lra.
    + assert (L : (x < 10)%Q).
      { apply Qnot_le_lt. intros G. apply Qle_bool_iff in G. congruence. }
      split; [rewrite pow10_0; exact Hx|].
      rewrite pow10_S, pow10_0. lra.
Qed.

Lemma size_nat_bound p : (Z.pos p < 2 ^ Z.of_nat (Pos.size_nat p))%Z.
Proof.
  induction p as [p IH | p IH |]; cbn [Pos.size_nat];
    rewrite ?Nat2Z.inj_succ, ?Z.pow_succ_r by lia; lia.
Qed.

Lemma size_nat_pow10 p : (Z.pos p < 10 ^ Z.of_nat (Pos.size_nat p))%Z.
Proof.
  eapply Z.lt_le_trans; [apply size_nat_bound|].
  apply Z.pow_le_mono_l. lia.
Qed.

(** Below one: [floor_log10 x = - p] with [10^-p <= x < 10^-(p-1)]. *)
Lemma floor_log10_below x :
  (0 < x)%Q -> (x < 1)%Q ->
  exists p, Num.floor_log10 x = (- Z.of_nat (S p))%Z /\
            (1 <= x * Num.pow10 (S p))%Q /\ (x * Num.pow10 p < 1)%Q.
Proof.
  intros Hx H1. unfold Num.floor_log10.
  assert (E : Qle_bool 1 x = false).
  { destruct (Qle_bool 1 x) eqn:E; [|reflexivity].
    apply Qle_bool_iff in E. lra. }
  rewrite E.
  destruct (@log10_below_spec (Pos.size_nat (Qden x)) x Hx) as (A & B).
  - destruct x as [a b]. unfold Qlt in Hx. cbn in Hx. cbn [Qden].
    pose proof (size_nat_pow10 b) as Sz.
    unfold Num.pow10, Qle, Qmult, inject_Z. cbn.
    nia.
  - destruct (Num.log10_below (Pos.size_nat (Qden x)) x) as [|p] eqn:F.
    + rewrite pow10_0 in A. lra.
    + exists p. split; [reflexivity|]. split; [exact A|]. apply B. lia.
Qed.

(** From one on: [floor_log10 x = k] with [10^k <= x < 10^(k+1)]. *)
Lemma floor_log10_above x :
  (1 <= x)%Q ->
  exists k, Num.floor_log10 x = Z.of_nat k /\
            (Num.pow10 k <= x)%Q /\ (x < Num.pow10 (S k))%Q.
Proof.
  intros H1. unfold Num.floor_log10.
  assert (E : Qle_bool 1 x = true) by (apply Qle_bool_iff; exact H1).
  rewrite E.
  destruct (@log10_above_spec (Pos.size_nat (Z.to_pos (Qnum x))) x H1) as (A & B).
  - destruct x as [a b]. unfold Qle in H1. cbn in H1. cbn [Qnum].
    assert (Ha : (0 < a)%Z) by lia.
    pose proof (size_nat_pow10 (Z.to_pos a)) as Sz.
    rewrite Z2Pos.id in Sz by exact Ha.
    unfold Num.pow10, Qlt, inject_Z. cbn.
    nia.
  - eexists. split; [reflexivity|]. split; [exact A | exact B].
Qed.

Lemma round_bounds x :
  (x - (1 # 2) <= inject_Z (Num.round x))%Q /\ (inject_Z (Num.round x) <= x + (1 # 2))%Q.
Proof.
  unfold Num.round. cbv zeta.
  pose proof (Qfloor_le x) as L. pose proof (Qlt_floor x) as U.
  rewrite inject_Z_plus in U. change (inject_Z 1) with 1%Q in U.
  destruct (Num.ltb (x - inject_Z (Qfloor x)) (1 # 2)) eqn:A.
  - apply ltb_lt in A. lra.
  - apply ltb_ge in A.
    destruct (Num.ltb (1 # 2) (x - inject_Z (Qfloor x))) eqn:B.
    + rewrite inject_Z_plus. change (inject_Z 1) with 1%Q. lra.
    + apply ltb_ge in B.
      destruct (Z.even (Qfloor x)).
      * lra.
      * rewrite inject_Z_plus. change (inject_Z 1) with 1%Q. lra.
Qed.

Lemma round_inject_Z i : Num.round (inject_Z i) = i.
Proof.
  unfold Num.round. cbv zeta. rewrite Qfloor_Z.
  assert (A : Num.ltb (inject_Z i - inject_Z i) (1 # 2) = true) by (apply ltb_lt; lra).
  rewrite A. reflexivity.
Qed.

Lemma round_nonneg x : (0 <= x)%Q -> (0 <= Num.round x)%Z.
Proof.
  intros H. destruct (round_bounds x) as (A & _).
  assert (G : (inject_Z (-1) < inject_Z (Num.round x))%Q).
  { change (inject_Z (-1)) with (-1)%Q. lra. }
  rewrite <- Zlt_Qlt in G. lia.
Qed.

(** Two numbers more than one apart round to different integers; so do
    two integers. *)
Lemma round_separates x y :
  (x + 1 < y)%Q -> (Num.round x < Num.round y)%Z.
Proof.
  intros H. destruct (round_bounds x) as (_ & A). destruct (round_bounds y) as (B & _).
  rewrite Zlt_Qlt. lra.
Qed.

Lemma string_length_append (a b : string) :
  String.length (a ++ b) = String.length a + String.length b.
Proof. induction a as [|c a IH]; simpl; [reflexivity | rewrite IH; reflexivity]. Qed.

(** Two strings that end in tails of one length are equal piece by
    piece. *)
Lemma string_app_inj (a b c d : string) :
  a ++ c = b ++ d -> String.length c = String.length d -> a = b /\ c = d.
Proof.
  revert b. induction a as [|x a IH]; intros [|y b] E L; simpl in E.
  - split; [reflexivity | exact E].
  - exfalso. apply (f_equal String.length) in E. simpl in E.
    rewrite string_length_append in E. lia.
  - exfalso. apply (f_equal String.length) in E. simpl in E.
    rewrite string_length_append in E. lia.
  - injection E as -> E. destruct (IH b E L) as (-> & ->). split; reflexivity.
Qed.

Lemma digit_inj a b :
  (0 <= a < 10)%Z -> (0 <= b < 10)%Z -> PyFormat.digit a = PyFormat.digit b -> a = b.
Proof.
  intros Ha Hb E. unfold PyFormat.digit in E.
  apply (f_equal nat_of_ascii) in E.
  rewrite !nat_ascii_embedding in E by lia. lia.
Qed.

Lemma digits_length p n : String.length (PyFormat.digits p n) = p.
Proof. induction p as [|p IH]; simpl; [reflexivity | rewrite IH; reflexivity]. Qed.

Lemma digits_inj p : forall n m,
  PyFormat.digits p n = PyFormat.digits p m ->
  (n mod 10 ^ Z.of_nat p = m mod 10 ^ Z.of_nat p)%Z.
Proof.
  induction p as [|p IH]; intros n m E.
  - simpl. rewrite !Z.mod_1_r. reflexivity.
  - simpl in E. injection E as D E.
    apply IH in E.
    apply digit_inj in D; try (apply Z.mod_pos_bound; lia).
    rewrite Nat2Z.inj_succ, Z.pow_succ_r by lia.
    rewrite (Z.mul_comm 10).
    rewrite !Z.rem_mul_r by lia.
    rewrite E, D. reflexivity.
Qed.

Lemma str_int_inj a b :
  (0 <= a)%Z -> (0 <= b)%Z -> PyFormat.str_int a = PyFormat.str_int b -> a = b.
Proof.
  intros Ha Hb E. unfold PyFormat.str_int in E.
  apply (f_equal NilEmpty.uint_of_string) in E.
  rewrite !NilEmpty.usu in E. injection E as E.
  apply DecimalN.Unsigned.to_uint_inj in E.
  apply Z2N.inj in E; assumption.
Qed.


Lemma string_of_uint_digits d : all_digits (NilEmpty.string_of_uint d) = true.
Proof. induction d; simpl; try rewrite IHd; reflexivity. Qed.

Lemma to_uint_nonnil n : N.to_uint n <> Decimal.Nil.
Proof.
  destruct n as [|p]; [discriminate|].
  apply DecimalPos.Unsigned.to_uint_nonnil.
Qed.

(** [str] of an integer is one digit at least. *)
Lemma str_int_digits n :
  all_digits (PyFormat.str_int n) = true /\ PyFormat.str_int n <> "".
Proof.
  unfold PyFormat.str_int. split; [apply string_of_uint_digits|].
  pose proof (to_uint_nonnil (Z.to_N n)) as H.
  destruct (N.to_uint (Z.to_N n)); try contradiction; discriminate.
Qed.

Lemma fixed_sign p x :
  PyFormat.fixed p x
  = (if Num.ltb x 0 then "-" else "")
      ++ PyFormat.fixed p (Qabs x).
Proof.
  unfold PyFormat.fixed. cbv zeta.
  assert (A : Num.ltb (Qabs x) 0 = false) by (apply ltb_ge; apply Qabs_nonneg).
  rewrite A.
  assert (B : Num.round (Qabs (Qabs x) * inject_Z (10 ^ Z.of_nat p))
              = Num.round (Qabs x * inject_Z (10 ^ Z.of_nat p))).
  { apply round_comp. rewrite (Qabs_pos (Qabs x)) by apply Qabs_nonneg. reflexivity. }
  rewrite B. reflexivity.
Qed.

(** A label gives back the sign of the number and the number rounded to
    the precision. *)
Lemma fixed_inj p x y :
  PyFormat.fixed p x = PyFormat.fixed p y ->
  Num.ltb x 0 = Num.ltb y 0 /\
  Num.round (Qabs x * Num.pow10 p) = Num.round (Qabs y * Num.pow10 p).
Proof.
  unfold PyFormat.fixed, Num.pow10. cbv zeta.
  set (scale := (10 ^ Z.of_nat p)%Z).
  set (rx := Num.round (Qabs x * inject_Z scale)).
  set (ry := Num.round (Qabs y * inject_Z scale)).
  assert (Hs : (0 < scale)%Z) by (apply Z.pow_pos_nonneg; lia).
  assert (Hx : (0 <= rx)%Z).
  { apply round_nonneg. apply Qmult_le_0_compat; [apply Qabs_nonneg|].
    change 0%Q with (inject_Z 0). rewrite <- Zle_Qle. lia. }
  assert (Hy : (0 <= ry)%Z).
  { apply round_nonneg. apply Qmult_le_0_compat; [apply Qabs_nonneg|].
    change 0%Q with (inject_Z 0). rewrite <- Zle_Qle. lia. }
  intros E.
  assert (Sg : Num.ltb x 0 = Num.ltb y 0).
  { destruct (str_int_digits (rx / scale)) as (Dx & Nx).
    destruct (str_int_digits (ry / scale)) as (Dy & Ny).
    destruct (Num.ltb x 0), (Num.ltb y 0); try reflexivity; exfalso; simpl in E.
    - destruct (PyFormat.str_int (ry / scale)) as [|c s]; [contradiction|].
      simpl in E. injection E as <- _. discriminate.
    - destruct (PyFormat.str_int (rx / scale)) as [|c s]; [contradiction|].
      simpl in E. injection E as -> _. discriminate. }
  split; [exact Sg|].
  rewrite Sg in E.
  assert (E' : PyFormat.str_int (rx / scale)
               ++ match p with O => "" | S _ => String "." (PyFormat.digits p rx) end
               = PyFormat.str_int (ry / scale)
               ++ match p with O => "" | S _ => String "." (PyFormat.digits p ry) end).
  { destruct (Num.ltb y 0); simpl in E; [injection E as E|]; exact E. }
  apply string_app_inj in E'.
  - destruct E' as (I & F).
    apply str_int_inj in I; try (apply Z.div_pos; lia).
    assert (M : (rx mod scale = ry mod scale)%Z).
    { destruct p as [|p'].
      - subst scale. simpl. rewrite !Z.mod_1_r. reflexivity.
      - assert (F' : PyFormat.digits (S p') rx = PyFormat.digits (S p') ry) by congruence.
        apply digits_inj in F'. exact F'. }
    rewrite (Z.div_mod rx scale), (Z.div_mod ry scale) by lia.
    rewrite I, M. reflexivity.
  - destruct p; [reflexivity|]. simpl. rewrite !digits_length. reflexivity.
Qed.

Lemma NoDup_map_in {A B} (f : A -> B) (l : list A) :
  (forall x y, In x l -> In y l -> f x = f y -> x = y) -> NoDup l -> NoDup (map f l).
Proof.
  induction l as [|a l IH]; intros Inj N; simpl; [constructor|].
  inversion N as [|? ? Na Nl]; subst. constructor.
  - intros H. apply in_map_iff in H. destruct H as (b & E & Hb).
    assert (b = a) by (apply Inj; [right; exact Hb | left; reflexivity | exact E]).
    subst b. contradiction.
  - apply IH; [|exact Nl]. intros x y Hx Hy. apply Inj; right; assumption.
Qed.

Lemma arange_NoDup start stop : NoDup (Num.arange start stop).
Proof.
  unfold Num.arange. apply NoDup_map_in; [|apply seq_NoDup].
  intros x y _ _ E. lia.
Qed.

(** Multiples of a step of one at least round to different integers. *)
Lemma round_multiples_inj (t : Q) (a b : Z) :
  (1 <= t)%Q -> Num.round (inject_Z a * t) = Num.round (inject_Z b * t) -> a = b.
Proof.
  assert (W : forall a b, (1 <= t)%Q -> (a < b)%Z ->
                          (Num.round (inject_Z a * t) < Num.round (inject_Z b * t))%Z).
  { clear a b. intros a b Ht L.
    assert (G : (inject_Z a + 1 <= inject_Z b)%Q).
    { change 1%Q with (inject_Z 1). rewrite <- inject_Z_plus, <- Zle_Qle. lia. }
    destruct (Qlt_le_dec 1 t) as [T | T].
    - apply round_separates. nra.
    - assert (E : (t == 1)%Q) by lra.
      rewrite (@round_comp (inject_Z a * t) (inject_Z a)) by (rewrite E; ring).
      rewrite (@round_comp (inject_Z b * t) (inject_Z b)) by (rewrite E; ring).
      rewrite !round_inject_Z. exact L. }
  intros Ht E.
  destruct (Z.lt_trichotomy a b) as [L | [L | L]]; [|exact L|].
  - pose proof (W a b Ht L). lia.
  - pose proof (W b a Ht L). lia.
Qed.

Lemma ltb_multiple_neg (i : Z) (s : Q) :
  (0 < s)%Q -> Num.ltb (inject_Z i * s) 0 = (i <? 0)%Z.
Proof.
  intros Hs. destruct (i <? 0)%Z eqn:E.
  - apply Z.ltb_lt in E. apply ltb_lt.
    assert (G : (inject_Z i <= inject_Z (-1))%Q) by (rewrite <- Zle_Qle; lia).
    change (inject_Z (-1)) with (-1)%Q in G. nra.
  - apply Z.ltb_ge in E. apply ltb_ge.
    assert (G : (inject_Z 0 <= inject_Z i)%Q) by (rewrite <- Zle_Qle; lia).
    change (inject_Z 0) with 0%Q in G. nra.
Qed.

(** With a precision that resolves the step, two multiples of the step
    never share a label. *)
Lemma fixed_multiples_inj p (s : Q) (i j : Z) :
  (0 < s)%Q -> (1 <= s * Num.pow10 p)%Q ->
  PyFormat.fixed p (inject_Z i * s) = PyFormat.fixed p (inject_Z j * s) -> i = j.
Proof.
  intros Hs Ht E. apply fixed_inj in E. destruct E as (Sg & R).
  rewrite !ltb_multiple_neg in Sg by exact Hs.
  assert (A : forall k, (Qabs (inject_Z k * s) * Num.pow10 p
                         == inject_Z (Z.abs k) * (s * Num.pow10 p))%Q).
  { intros k. rewrite Qabs_Qmult, (Qabs_pos s) by lra.
    change (Qabs (inject_Z k)) with (inject_Z (Z.abs k)). ring. }
  rewrite (round_comp (A i)), (round_comp (A j)) in R.
  apply round_multiples_inj in R; [|exact Ht].
  destruct (Z.ltb_spec i 0), (Z.ltb_spec j 0); try discriminate; lia.
Qed.

Lemma for_each_format_f p (values : list Q) :
  for_each (PyFormat.format_f (Z.of_nat p)) values = Done (map (PyFormat.fixed p) values).
Proof.
  induction values as [|x values IH]; simpl; [reflexivity|].
  rewrite IH. unfold PyFormat.format_f.
  assert (E : (Z.of_nat p <? 0)%Z = false) by (apply Z.ltb_ge; lia).
  rewrite E, Nat2Z.id. reflexivity.
Qed.

(** The precision of the scalar formatter when no format is set: the
    least number of decimals whose last place does not exceed the
    spacing. *)
Lemma scalar_automatic_precision (spacing : Q) (o : Instance Q) :
  _format o = None -> (0 < spacing)%Q ->
  exists p, ScalarFormatterLocator.formatter_precision spacing o = Done (Z.of_nat p) /\
            (1 <= spacing * Num.pow10 p)%Q /\
            (forall q, (q < p)%nat -> (spacing * Num.pow10 q < 1)%Q).
Proof.
  intros F Hs. unfold ScalarFormatterLocator.formatter_precision. rewrite F.
  destruct (Num.ltb spacing 1) eqn:L.
  - apply ltb_lt in L.
    destruct (floor_log10_below Hs L) as (p & E & A & B).
    exists (S p). unfold PyFormat.int_floor_log10.
    rewrite (is_zero_false (s := spacing)) by lra.
    assert (N : Num.ltb spacing 0 = false) by (apply ltb_ge; lra).
    rewrite N. cbn [and_then]. rewrite E, Z.opp_involutive.
    split; [reflexivity|]. split; [exact A|].
    intros q Hq. assert (M : (Num.pow10 q <= Num.pow10 p)%Q) by (apply pow10_mono; lia).
    pose proof (pow10_pos q). nra.
  - apply ltb_ge in L. exists 0. split; [reflexivity|].
    split; [rewrite pow10_0; lra | intros q Hq; lia].
Qed.

Lemma scalar_formatter_labels (values : list Q) (spacing : Q) (o : Instance Q) p :
  ScalarFormatterLocator.formatter_precision spacing o = Done (Z.of_nat p) ->
  ScalarFormatterLocator.formatter values spacing o = Done (map (PyFormat.fixed p) values).
Proof.
  intros E. unfold ScalarFormatterLocator.formatter.
  destruct values as [|x values]; [reflexivity|].
  rewrite E. cbn [and_then]. apply for_each_format_f.
Qed.

Lemma scalar_format_precision (spacing : Q) (o : Instance Q) f p :
  _format o = Some f -> _precision o = Some p ->
  ScalarFormatterLocator.formatter_precision spacing o = Done (Z.of_nat p).
Proof.
  intros F P. unfold ScalarFormatterLocator.formatter_precision. rewrite F, P. reflexivity.
Qed.

(** The labels of the multiples of a spacing that the precision
    resolves. *)
Lemma scalar_multiples_labels (o : Instance Q) p (s : Q) (imin imax : Z) :
  let ticks := map (fun i => inject_Z i * s)%Q (Num.arange imin imax) in
  ScalarFormatterLocator.formatter_precision s o = Done (Z.of_nat p) ->
  (0 < s)%Q -> (1 <= s * Num.pow10 p)%Q ->
  exists labels, ScalarFormatterLocator.formatter ticks s o = Done labels /\
                 List.length labels = List.length ticks /\ NoDup labels.
Proof.
  intros ticks E Hs Ht. exists (map (PyFormat.fixed p) ticks).
  split; [apply scalar_formatter_labels; exact E|].
  split; [apply length_map|].
  subst ticks. rewrite map_map. apply NoDup_map_in; [|apply arange_NoDup].
  intros i j _ _. apply fixed_multiples_inj; assumption.
Qed.

(* ================================================================== *)
(** ** The labels of the scalar ticks                                 *)
(* ================================================================== *)

Lemma scalar_explicit_spacing ss (o : Instance Q) value_min value_max s :
  _spacing o = Some s ->
  result (ScalarFormatterLocator.locator_spacing ss value_min value_max o) = Return s.
Proof.
  intros Hs. unfold ScalarFormatterLocator.locator_spacing. rewrite bind_get, Hs. reflexivity.
Qed.

Lemma scalar_check_spacing_values (o : Instance Q) :
  _values o = None -> _values (self (ScalarFormatterLocator.check_spacing o)) = None.
Proof.
  intros Hv. rewrite scalar_check_spacing_unfolded.
  destruct (_spacing o) as [s|]; [|exact Hv].
  destruct (result (ScalarFormatterLocator.base_spacing o)) as [b|e]; [|exact Hv].
  cbv zeta.
  destruct (Num.ltb s b);
    match goal with
    | |- context [Num.ltb ScalarFormatterLocator.tolerance ?x] =>
        destruct (Num.ltb ScalarFormatterLocator.tolerance x)
    end;
    try match goal with
      | |- context [Num.is_zero ?x] => destruct (Num.is_zero x)
      end;
    first [exact Hv | reflexivity].
Qed.

(** What a format assignment that returns leaves on the instance. *)
Lemma scalar_format_setter_state fmt (o : Instance Q) :
  result (ScalarFormatterLocator.format_setter (Some fmt) o) = Return tt ->
  let o' := self (ScalarFormatterLocator.format_setter (Some fmt) o) in
  _format o' = Some fmt /\
  (exists p, _precision o' = Some p) /\
  (_values o = None -> _values o' = None).
Proof.
  unfold ScalarFormatterLocator.format_setter. rewrite bind_modify.
  destruct (scalar_parse_format_outcome fmt (set_format (Some fmt) o))
    as [(_ & E) | (o1 & E & Hv & _ & _ & Hf)]; intros H.
  - erewrite bind_run_Raise in H by exact E. discriminate.
  - erewrite bind_quiet by exact E. cbv zeta.
    destruct (scalar_parse_sets_precision _ _ E) as (p & Hp).
    destruct (scalar_check_spacing_returns o1 (scalar_base_spacing_value o1 Hp))
      as (_ & Kp & Kf).
    split; [rewrite Kf; exact Hf|].
    split; [exists p; rewrite Kp; exact Hp|].
    intros V. apply scalar_check_spacing_values. rewrite Hv. exact V.
Qed.

Lemma scalar_spacing_resolved (b s : Q) p :
  (b == 1 / Num.pow10 p)%Q -> Num.ltb s b = false ->
  (0 < s)%Q /\ (1 <= s * Num.pow10 p)%Q.
Proof.
  intros E L. apply ltb_ge in L. rewrite E in L.
  pose proof (pow10_pos p) as P. pose proof (inv_pow10_pos p) as I.
  split; [lra|].
  assert (G : (1 / Num.pow10 p * Num.pow10 p == 1)%Q) by (field; lra).
  rewrite <- G. apply Qmult_le_compat_r; lra.
Qed.

Lemma scalar_labels_of_ticks ss (o : Instance Q) value_min value_max s p :
  _values o = None ->
  result (ScalarFormatterLocator.locator_spacing ss value_min value_max o) = Return s ->
  ScalarFormatterLocator.formatter_precision s o = Done (Z.of_nat p) ->
  (0 < s)%Q -> (1 <= s * Num.pow10 p)%Q ->
  exists ticks labels,
    result (ScalarFormatterLocator.locator ss value_min value_max o) = Return (ticks, s) /\
    ScalarFormatterLocator.formatter ticks s o = Done labels /\
    List.length labels = List.length ticks /\ NoDup labels.
Proof.
  intros Hv Hr Hp Hs Ht.
  destruct (@scalar_multiples_labels o p s (Qceiling (value_min / s))
              (Qfloor (value_max / s) + 1) Hp Hs Ht) as (labels & F & L & N).
  eexists. exists labels. split; [|split; [exact F | split; [exact L | exact N]]].
  apply scalar_locator_ticks; [exact Hv | exact Hr | apply positive_not_zero; exact Hs].
Qed.

(** X10.  The scalar formatter gives the ticks of the locator labels that
    tell them apart.  With no format set, whatever positive spacing the
    locator resolves, the labels of its ticks are pairwise distinct, one
    per tick.  With a format set the same holds whenever the spacing is
    not below the base spacing of the format; this is so, in particular,
    after every format assignment that returns on an instance with an
    explicit spacing. *)
Theorem formatter_tells_the_ticks_apart :
  (forall ss (o : Instance Q) value_min value_max s,
      _values o = None -> _format o = None ->
      result (ScalarFormatterLocator.locator_spacing ss value_min value_max o) = Return s ->
      (0 < s)%Q ->
      exists ticks labels,
        result (ScalarFormatterLocator.locator ss value_min value_max o) = Return (ticks, s) /\
        ScalarFormatterLocator.formatter ticks s o = Done labels /\
        List.length labels = List.length ticks /\ NoDup labels)
  /\
  (forall ss (o : Instance Q) fmt value_min value_max s b,
      _values o = None -> _format o = Some fmt ->
      result (ScalarFormatterLocator.locator_spacing ss value_min value_max o) = Return s ->
      result (ScalarFormatterLocator.base_spacing o) = Return b ->
      Num.ltb s b = false ->
      exists ticks labels,
        result (ScalarFormatterLocator.locator ss value_min value_max o) = Return (ticks, s) /\
        ScalarFormatterLocator.formatter ticks s o = Done labels /\
        List.length labels = List.length ticks /\ NoDup labels)
  /\
  (forall ss (o : Instance Q) fmt value_min value_max s0,
      _values o = None -> _spacing o = Some s0 ->
      result (ScalarFormatterLocator.format_setter (Some fmt) o) = Return tt ->
      let o' := self (ScalarFormatterLocator.format_setter (Some fmt) o) in
      exists ticks s labels,
        result (ScalarFormatterLocator.locator ss value_min value_max o') = Return (ticks, s) /\
        ScalarFormatterLocator.formatter ticks s o' = Done labels /\
        List.length labels = List.length ticks /\ NoDup labels).
Proof.
  assert (B : forall ss (o : Instance Q) fmt value_min value_max s b,
             _values o = None -> _format o = Some fmt ->
             result (ScalarFormatterLocator.locator_spacing ss value_min value_max o)
             = Return s ->
             result (ScalarFormatterLocator.base_spacing o) = Return b ->
             Num.ltb s b = false ->
             exists ticks labels,
               result (ScalarFormatterLocator.locator ss value_min value_max o)
               = Return (ticks, s) /\
               ScalarFormatterLocator.formatter ticks s o = Done labels /\
               List.length labels = List.length ticks /\ NoDup labels).
  { intros ss o fmt vmin vmax s b Hv Hf Hr Hb L.
    destruct (_precision o) as [p|] eqn:Hp.
    2:{ destruct o as [v1 n1 s1 f1 u1 d1 fl1 p1]. cbn in Hp. subst p1. discriminate. }
    rewrite (scalar_base_spacing_value o Hp) in Hb. injection Hb as <-.
    destruct (@scalar_spacing_resolved (1 / Num.pow10 p) s p (Qeq_refl _) L) as (Hs & Ht).
    apply scalar_labels_of_ticks with (p := p); try assumption.
    eapply scalar_format_precision; eassumption. }
  split; [|split; [exact B|]].
  - intros ss o vmin vmax s Hv Hf Hr Hs.
    destruct (scalar_automatic_precision o Hf Hs) as (p & Hp & Ht & _).
    apply scalar_labels_of_ticks with (p := p); assumption.
  - intros ss o fmt vmin vmax s0 Hv Hs0 H. cbv zeta.
    destruct (scalar_format_setter_state fmt o H) as (Hf & _ & Hv').
    destruct (scalar_format_setter_spacing_outcome _ _ Hs0 H) as (b & s & Hb & Hs & O).
    assert (L : Num.ltb s b = false).
    { destruct O as [(L & _ & -> & _) | [(_ & -> & _) | (_ & _ & V & _)]].
      - exact L.
      - apply ltb_false_of_le. apply Qle_refl.
      - apply ltb_false_of_le. rewrite V. apply Qle_refl. }
    destruct (B ss _ fmt vmin vmax s b (Hv' Hv) Hf
                (scalar_explicit_spacing ss _ vmin vmax Hs) Hb L)
      as (ticks & labels & K).
    exists ticks, s, labels. exact K.
Qed.

Lemma formatter_tells_the_ticks_apart_witness :
  (let o := self (ScalarFormatterLocator.__init__ None (Some 5%Z) None None blank) in
   exists ticks labels,
     result (ScalarFormatterLocator.locator (fun dv => (1 # 4)%Q) 0 1 o)
     = Return (ticks, (1 # 4)%Q) /\
     ScalarFormatterLocator.formatter ticks (1 # 4) o = Done labels /\
     List.length labels = List.length ticks /\ NoDup labels)
  /\
  (let o := self (ScalarFormatterLocator.__init__ None (Some 5%Z) None (Some "x.x") blank) in
   exists ticks labels,
     result (ScalarFormatterLocator.locator (fun dv => (1 # 4)%Q) 0 1 o)
     = Return (ticks, (1 # 4)%Q) /\
     ScalarFormatterLocator.formatter ticks (1 # 4) o = Done labels /\
     List.length labels = List.length ticks /\ NoDup labels)
  /\
  (let o := self (ScalarFormatterLocator.__init__ None None (Some (1 # 4)%Q) None blank) in
   let o' := self (ScalarFormatterLocator.format_setter (Some "x.x") o) in
   exists ticks s labels,
     result (ScalarFormatterLocator.locator (fun dv => dv) 0 1 o') = Return (ticks, s) /\
     ScalarFormatterLocator.formatter ticks s o' = Done labels /\
     List.length labels = List.length ticks /\ NoDup labels).
Proof.
  split; [|split].
  - apply (proj1 formatter_tells_the_ticks_apart); [reflexivity | reflexivity | reflexivity |].
    reflexivity.
  - apply (proj1 (proj2 formatter_tells_the_ticks_apart) _ _ "x.x" _ _ _ (1 # 10)%Q);
      reflexivity.
  - apply (proj2 (proj2 formatter_tells_the_ticks_apart) _ _ "x.x" _ _ (1 # 4)%Q);
      reflexivity.
Defined.

(* ================================================================== *)
(** ** The format the angle formatter picks by itself                 *)
(* ================================================================== *)

Lemma units_lt_degrees (a b : Quantity) : Units.lt a b = Num.ltb (degrees a) (degrees b).
Proof.
  unfold Units.lt, Units.to, degrees. cbn [value unit].
  pose proof (in_degrees_pos (unit a)) as Pa.
  set (d := Units.in_degrees (unit a)) in *. set (e := Units.in_degrees (unit b)).
  assert (E : (value b * (e / d) * d == value b * e)%Q) by (field; lra).
  destruct (Num.ltb (value a * d) (value b * e)) eqn:L.
  - apply ltb_lt in L. apply ltb_lt. clearbody d e.
    set (y := (value b * (e / d))%Q) in *. clearbody y. nra.
  - apply ltb_ge in L. apply ltb_ge. clearbody d e.
    set (y := (value b * (e / d))%Q) in *. clearbody y. nra.
Qed.

Lemma units_gt_degrees (a b : Quantity) : Units.gt a b = Num.ltb (degrees b) (degrees a).
Proof.
  unfold Units.gt, Units.to, degrees. cbn [value unit].
  pose proof (in_degrees_pos (unit a)) as Pa.
  set (d := Units.in_degrees (unit a)) in *. set (e := Units.in_degrees (unit b)).
  assert (E : (value b * (e / d) * d == value b * e)%Q) by (field; lra).
  destruct (Num.ltb (value b * e) (value a * d)) eqn:L.
  - apply ltb_lt in L. apply ltb_lt. clearbody d e.
    set (y := (value b * (e / d))%Q) in *. clearbody y. nra.
  - apply ltb_ge in L. apply ltb_ge. clearbody d e.
    set (y := (value b * (e / d))%Q) in *. clearbody y. nra.
Qed.

Lemma arcsec_of_degrees (q : Quantity) :
  (value (Units.to arcsec q) == 3600 * degrees q)%Q.
Proof. unfold Units.to, degrees. cbn [value unit Units.in_degrees]. field. Qed.

(** What [automatic_fields] returns for a positive spacing, read in
    degrees. *)
Lemma automatic_fields_spec (spacing : Quantity) :
  (0 < degrees spacing)%Q ->
  exists fields p,
    AngleFormatterLocator.automatic_fields spacing = Done (fields, Z.of_nat p) /\
    ((fields = 1 /\ p = 0 /\ (1 < degrees spacing)%Q)
     \/ (fields = 2 /\ p = 0 /\ (1 # 60 < degrees spacing)%Q /\ (degrees spacing <= 1)%Q)
     \/ (fields = 3 /\ p = 0 /\ (1 # 3600 <= degrees spacing)%Q
         /\ (degrees spacing <= 1 # 60)%Q)
     \/ (fields = 3 /\ (0 < p)%nat /\ (1 <= 3600 * degrees spacing * Num.pow10 p)%Q
         /\ (forall q, (q < p)%nat -> (3600 * degrees spacing * Num.pow10 q < 1)%Q))).
Proof.
  intros H. unfold AngleFormatterLocator.automatic_fields.
  rewrite !units_gt_degrees. unfold Units.times.
  change (degrees (Qty 1 degree)) with (1 * 1)%Q.
  change (degrees (Qty 1 arcmin)) with (1 * (1 # 60))%Q.
  change (degrees (Qty 1 arcsec)) with (1 * (1 # 3600))%Q.
  set (D := degrees spacing) in *.
  destruct (Num.ltb (1 * 1) D) eqn:L1.
  { apply ltb_lt in L1. exists 1, 0. split; [reflexivity|]. left. repeat split. lra. }
  apply ltb_ge in L1.
  destruct (Num.ltb (1 * (1 # 60)) D) eqn:L2.
  { apply ltb_lt in L2. exists 2, 0. split; [reflexivity|]. right. left.
    repeat split; lra. }
  apply ltb_ge in L2.
  destruct (Num.ltb (1 * (1 # 3600)) D) eqn:L3.
  { apply ltb_lt in L3. exists 3, 0. split; [reflexivity|]. right. right. left.
    repeat split; lra. }
  apply ltb_ge in L3.
  pose proof (arcsec_of_degrees spacing) as A. fold D in A.
  set (a := value (Units.to arcsec spacing)) in *.
  assert (Ha : (0 < a)%Q) by lra.
  unfold PyFormat.int_floor_log10.
  rewrite (is_zero_false (s := a)) by lra.
  assert (N : Num.ltb a 0 = false) by (apply ltb_ge; lra).
  rewrite N. cbn [and_then].
  destruct (Qlt_le_dec a 1) as [B | B].
  - destruct (floor_log10_below Ha B) as (p & E & P1 & P2).
    exists 3, (S p). rewrite E, Z.opp_involutive. split; [reflexivity|].
    right. right. right. split; [reflexivity|]. split; [lia|].
    split.
    + rewrite <- A. exact P1.
    + intros q Hq. rewrite <- A.
      assert (M : (Num.pow10 q <= Num.pow10 p)%Q) by (apply pow10_mono; lia).
      pose proof (pow10_pos q). nra.
  - destruct (floor_log10_above B) as (k & E & P1 & P2).
    assert (K : k = 0).
    { destruct k as [|k]; [reflexivity|]. exfalso.
      assert (M : (Num.pow10 1 <= Num.pow10 (S k))%Q) by (apply pow10_mono; lia).
      rewrite pow10_S, pow10_0 in M. lra. }
    subst k. exists 3, 0. rewrite E. split; [reflexivity|].
    right. right. left. repeat split; lra.
Qed.

Lemma angle_formatter_of_descriptor ts (values : list Q) spacing (o : Instance Quantity)
      f d u fl p :
  values <> [] -> _format o = Some f ->
  descriptor o = (Some d, Some u, Some fl, Some p) ->
  AngleFormatterLocator.formatter ts values spacing o
  = ts values u (Z.of_nat p) d fl (AngleFormatterLocator.separators d u fl).
Proof.
  intros Hv Hf Hd. unfold descriptor in Hd. injection Hd as Hd Hu Hfl Hp.
  unfold AngleFormatterLocator.formatter.
  destruct values as [|x values]; [contradiction|].
  rewrite Hf, Hd, Hu, Hfl, Hp. reflexivity.
Qed.

Lemma angle_formatter_automatic ts (values : list Q) spacing (o : Instance Quantity) fields p :
  values <> [] -> _format o = None ->
  AngleFormatterLocator.automatic_fields spacing = Done (fields, p) ->
  AngleFormatterLocator.formatter ts values spacing o
  = ts values degree p false fields
       (Some (firstn fields AngleFormatterLocator.degree_separators)).
Proof.
  intros Hv Hf E. unfold AngleFormatterLocator.formatter.
  destruct values as [|x values]; [contradiction|].
  rewrite Hf, E. reflexivity.
Qed.

Lemma degrees_pos (q : Quantity) : (0 < value q)%Q -> (0 < degrees q)%Q.
Proof.
  intros H. unfold degrees. pose proof (in_degrees_pos (unit q)). nra.
Qed.

(** X11.  The format a formatter picks when none is set.  The scalar
    formatter writes with the least number of decimals whose last place
    does not exceed the spacing.  The angle formatter asks for sexagesimal
    degrees with the degree separators; the base spacing of the format it
    picks never exceeds the spacing, and the pick follows the strict
    comparisons of the code: one field above one degree, two fields above
    one arcminute and up to one degree, three fields without decimals
    from one arcsecond up to one arcminute, and below one arcsecond three
    fields with the least number of decimals whose last place does not
    exceed the spacing.  At exactly one degree, and at exactly one
    arcminute, it therefore picks the next finer format, although the
    coarser one has a base spacing equal to the spacing: the pick is not
    always the coarsest format that resolves the spacing. *)
Theorem formatter_picks_format_by_thresholds :
  (forall (values : list Q) (spacing : Q) (o : Instance Q),
      _format o = None -> (0 < spacing)%Q ->
      exists p,
        ScalarFormatterLocator.formatter values spacing o
        = Done (map (PyFormat.fixed p) values) /\
        (1 / Num.pow10 p <= spacing)%Q /\
        (forall q, q < p -> (spacing < 1 / Num.pow10 q)%Q))
  /\
  (forall ts (values : list Q) (spacing : Quantity) (o : Instance Quantity),
      values <> [] -> _format o = None -> (0 < value spacing)%Q ->
      exists fields p b,
        AngleFormatterLocator.formatter ts values spacing o
        = ts values degree (Z.of_nat p) false fields
             (Some (firstn fields AngleFormatterLocator.degree_separators)) /\
        result (AngleFormatterLocator.base_spacing (sexagesimal_degrees fields p))
        = Return b /\
        Units.lt spacing b = false /\
        ((fields = 1 /\ p = 0 /\ (1 < degrees spacing)%Q)
         \/ (fields = 2 /\ p = 0 /\
             (1 # 60 < degrees spacing)%Q /\ (degrees spacing <= 1)%Q)
         \/ (fields = 3 /\ p = 0 /\
             (1 # 3600 <= degrees spacing)%Q /\ (degrees spacing <= 1 # 60)%Q)
         \/ (fields = 3 /\ 0 < p /\
             (1 / Num.pow10 p <= 3600 * degrees spacing)%Q /\
             (forall q, q < p -> (3600 * degrees spacing < 1 / Num.pow10 q)%Q))))
  /\
  (forall ts (values : list Q) (spacing : Quantity) (o : Instance Quantity),
      values <> [] -> _format o = None -> (degrees spacing == 1)%Q ->
      AngleFormatterLocator.formatter ts values spacing o
      = ts values degree 0%Z false 2
           (Some (firstn 2 AngleFormatterLocator.degree_separators)) /\
      result (AngleFormatterLocator.base_spacing (sexagesimal_degrees 1 0))
      = Return (Qty 1 degree) /\
      Units.lt spacing (Qty 1 degree) = false)
  /\
  (forall ts (values : list Q) (spacing : Quantity) (o : Instance Quantity),
      values <> [] -> _format o = None -> (degrees spacing == 1 # 60)%Q ->
      AngleFormatterLocator.formatter ts values spacing o
      = ts values degree 0%Z false 3
           (Some (firstn 3 AngleFormatterLocator.degree_separators)) /\
      result (AngleFormatterLocator.base_spacing (sexagesimal_degrees 2 0))
      = Return (Qty 1 arcmin) /\
      Units.lt spacing (Qty 1 arcmin) = false).
Proof.
  split; [|split; [|split]].
  - intros values spacing o Hf Hs.
    destruct (scalar_automatic_precision o Hf Hs) as (p & Hp & A & B).
    exists p. split; [apply scalar_formatter_labels; exact Hp|].
    pose proof (pow10_pos p) as P. split.
    + apply Qle_shift_div_r; [exact P | lra].
    + intros q Hq. specialize (B q Hq). pose proof (pow10_pos q) as P'.
      apply Qlt_shift_div_l; [exact P' | exact B].
  - intros ts values spacing o Hv Hf Hs.
    apply degrees_pos in Hs.
    destruct (automatic_fields_spec Hs) as (fields & p & E & C).
    exists fields, p.
    destruct C as [(-> & -> & C1) | [(-> & -> & C1 & C2)
                                    | [(-> & -> & C1 & C2) | (-> & Hp & C1 & C2)]]].
    + exists (Qty 1 degree). split; [apply angle_formatter_automatic; assumption|].
      split; [reflexivity|]. split.
      * rewrite units_lt_degrees. apply ltb_ge.
        change (degrees (Qty 1 degree)) with (1 * 1)%Q. lra.
      * left. repeat split. exact C1.
    + exists (Qty 1 arcmin). split; [apply angle_formatter_automatic; assumption|].
      split; [reflexivity|]. split.
      * rewrite units_lt_degrees. apply ltb_ge.
        change (degrees (Qty 1 arcmin)) with (1 * (1 # 60))%Q. lra.
      * right. left. repeat split; assumption.
    + exists (Qty 1 arcsec). split; [apply angle_formatter_automatic; assumption|].
      split; [reflexivity|]. split.
      * rewrite units_lt_degrees. apply ltb_ge.
        change (degrees (Qty 1 arcsec)) with (1 * (1 # 3600))%Q. lra.
      * right. right. left. repeat split; assumption.
    + destruct p as [|p]; [lia|].
      exists (Qty (1 / Num.pow10 (S p)) arcsec).
      split; [apply angle_formatter_automatic; assumption|].
      split; [reflexivity|]. split.
      * rewrite units_lt_degrees. apply ltb_ge.
        unfold degrees at 1. cbn [value unit Units.in_degrees].
        pose proof (pow10_pos (S p)) as P.
        assert (G : (1 / Num.pow10 (S p) * Num.pow10 (S p) == 1)%Q) by (field; lra).
        set (y := (1 / Num.pow10 (S p))%Q) in *. clearbody y. nra.
      * right. right. right. split; [reflexivity|]. split; [lia|]. split.
        -- apply Qle_shift_div_r; [apply pow10_pos | exact C1].
        -- intros q Hq. apply Qlt_shift_div_l; [apply pow10_pos | apply C2; exact Hq].
  - intros ts values spacing o Hv Hf D1.
    assert (Hs : (0 < degrees spacing)%Q) by (rewrite D1; reflexivity).
    destruct (automatic_fields_spec Hs) as (fields & p & E & C).
    split; [|split; [reflexivity|]].
    + destruct C as [(-> & -> & C1) | [(-> & -> & C1 & C2)
                                      | [(-> & -> & C1 & C2) | (-> & Hp & C1 & C2)]]].
      * exfalso. set (D := degrees spacing) in *. clearbody D. lra.
      * apply angle_formatter_automatic; assumption.
      * exfalso. set (D := degrees spacing) in *. clearbody D. lra.
      * exfalso. specialize (C2 0 Hp). rewrite pow10_0 in C2.
        set (D := degrees spacing) in *. clearbody D. lra.
    + rewrite units_lt_degrees. apply ltb_ge.
      change (degrees (Qty 1 degree)) with (1 * 1)%Q.
      set (D := degrees spacing) in *. clearbody D. lra.
  - intros ts values spacing o Hv Hf D1.
    assert (Hs : (0 < degrees spacing)%Q) by (rewrite D1; reflexivity).
    destruct (automatic_fields_spec Hs) as (fields & p & E & C).
    split; [|split; [reflexivity|]].
    + destruct C as [(-> & -> & C1) | [(-> & -> & C1 & C2)
                                      | [(-> & -> & C1 & C2) | (-> & Hp & C1 & C2)]]].
      * exfalso. set (D := degrees spacing) in *. clearbody D. lra.
      * exfalso. set (D := degrees spacing) in *. clearbody D. lra.
      * apply angle_formatter_automatic; assumption.
      * exfalso. specialize (C2 0 Hp). rewrite pow10_0 in C2.
        set (D := degrees spacing) in *. clearbody D. lra.
    + rewrite units_lt_degrees. apply ltb_ge.
      change (degrees (Qty 1 arcmin)) with (1 * (1 # 60))%Q.
      set (D := degrees spacing) in *. clearbody D. lra.
Qed.

Lemma formatter_picks_format_by_thresholds_witness :
  (let o := self (ScalarFormatterLocator.__init__ None None None None blank) in
   exists p,
     ScalarFormatterLocator.formatter [0; 1 # 4; 1 # 2]%Q (1 # 4) o
     = Done (map (PyFormat.fixed p) [0; 1 # 4; 1 # 2]%Q) /\
     (1 / Num.pow10 p <= 1 # 4)%Q /\
     (forall q, q < p -> (1 # 4 < 1 / Num.pow10 q)%Q))
  /\
  (let ts := fun (values : list Q) (u : AngleUnit) (precision : Z) (decimal : bool)
                 (fields : nat) (sep : option (list string)) =>
               Done (match sep with Some seps => seps | None => [] end) in
   let o := self (AngleFormatterLocator.__init__ None None PyNone None blank) in
   (AngleFormatterLocator.formatter ts [0; 1]%Q (Qty 1 degree) o
    = ts [0; 1]%Q degree 0%Z false 2
         (Some (firstn 2 AngleFormatterLocator.degree_separators)) /\
    result (AngleFormatterLocator.base_spacing (sexagesimal_degrees 1 0))
    = Return (Qty 1 degree) /\
    Units.lt (Qty 1 degree) (Qty 1 degree) = false)
   /\
   (AngleFormatterLocator.formatter ts [0; 1 # 60]%Q (Qty 1 arcmin) o
    = ts [0; 1 # 60]%Q degree 0%Z false 3
         (Some (firstn 3 AngleFormatterLocator.degree_separators)) /\
    result (AngleFormatterLocator.base_spacing (sexagesimal_degrees 2 0))
    = Return (Qty 1 arcmin) /\
    Units.lt (Qty 1 arcmin) (Qty 1 arcmin) = false)
   /\
   (exists fields p b,
     AngleFormatterLocator.formatter ts [0; 1 # 7200]%Q (Qty (1 # 7200) degree) o
     = ts [0; 1 # 7200]%Q degree (Z.of_nat p) false fields
          (Some (firstn fields AngleFormatterLocator.degree_separators)) /\
     result (AngleFormatterLocator.base_spacing (sexagesimal_degrees fields p))
     = Return b /\
     Units.lt (Qty (1 # 7200) degree) b = false /\
     ((fields = 1 /\ p = 0 /\ (1 < degrees (Qty (1 # 7200) degree))%Q)
      \/ (fields = 2 /\ p = 0 /\
          (1 # 60 < degrees (Qty (1 # 7200) degree))%Q /\
          (degrees (Qty (1 # 7200) degree) <= 1)%Q)
      \/ (fields = 3 /\ p = 0 /\
          (1 # 3600 <= degrees (Qty (1 # 7200) degree))%Q /\
          (degrees (Qty (1 # 7200) degree) <= 1 # 60)%Q)
      \/ (fields = 3 /\ 0 < p /\
          (1 / Num.pow10 p <= 3600 * degrees (Qty (1 # 7200) degree))%Q /\
          (forall q, q < p -> (3600 * degrees (Qty (1 # 7200) degree) < 1 / Num.pow10 q)%Q))))).
Proof.
  split.
  - apply (proj1 formatter_picks_format_by_thresholds); reflexivity.
  - intros ts o. split; [|split].
    + apply (proj1 (proj2 (proj2 formatter_picks_format_by_thresholds)) ts);
        [discriminate | reflexivity | reflexivity].
    + apply (proj2 (proj2 (proj2 formatter_picks_format_by_thresholds)) ts);
        [discriminate | reflexivity | reflexivity].
    + apply (proj1 (proj2 formatter_picks_format_by_thresholds) ts);
        [discriminate | reflexivity | reflexivity].
Defined.

(* ================================================================== *)
(** ** What the formatter writes under a format                       *)
(* ================================================================== *)

Lemma contains_app c (a b : string) :
  PyStr.contains c (a ++ b) = PyStr.contains c a || PyStr.contains c b.
Proof.
  induction a as [|x a IH]; simpl; [reflexivity|]. rewrite IH, orb_assoc. reflexivity.
Qed.

Lemma index_app_absent c (a b : string) :
  PyStr.contains c a = false ->
  PyStr.index c (a ++ b) = String.length a + PyStr.index c b.
Proof.
  induction a as [|x a IH]; simpl; intros H; [reflexivity|].
  apply orb_false_iff in H. destruct H as (H1 & H2).
  rewrite H1, (IH H2). reflexivity.
Qed.

Lemma all_digits_no_point (s : string) :
  all_digits s = true -> PyStr.contains "." s = false.
Proof.
  induction s as [|c s IH]; simpl; intros H; [reflexivity|].
  apply andb_true_iff in H. destruct H as (H1 & H2). rewrite (IH H2).
  destruct (Ascii.eqb_spec c "."); [subst c; discriminate | reflexivity].
Qed.

(** A label shows as many decimals as its precision. *)
Lemma fixed_decimals p x : decimals (PyFormat.fixed p x) = p.
Proof.
  unfold PyFormat.fixed. cbv zeta.
  set (m := (Num.round (Qabs x * inject_Z (10 ^ Z.of_nat p)) / 10 ^ Z.of_nat p)%Z).
  set (r := Num.round (Qabs x * inject_Z (10 ^ Z.of_nat p))).
  set (sign := if Num.ltb x 0 then "-" else "").
  assert (A : PyStr.contains "." (sign ++ PyFormat.str_int m) = false).
  { rewrite contains_app. destruct (str_int_digits m) as (D & _).
    rewrite (all_digits_no_point _ D). subst sign. destruct (Num.ltb x 0); reflexivity. }
  assert (E : forall t, sign ++ PyFormat.str_int m ++ t = (sign ++ PyFormat.str_int m) ++ t).
  { intros t. subst sign. destruct (Num.ltb x 0); reflexivity. }
  rewrite E. unfold decimals. rewrite contains_app, A.
  destruct p as [|p].
  - reflexivity.
  - cbn [PyStr.contains Ascii.eqb Bool.eqb orb].
    unfold PyStr.len. rewrite index_app_absent by exact A.
    rewrite string_length_append. cbn [PyStr.index Ascii.eqb Bool.eqb String.length].
    rewrite digits_length. lia.
Qed.

Lemma decimal_format_decimals c n : c <> "."%char -> decimals (decimal_format c n) = n.
Proof.
  intros N. destruct n as [|n].
  - unfold decimals, decimal_format. cbn [PyStr.contains].
    destruct (Ascii.eqb_spec c "."); [contradiction | reflexivity].
  - unfold decimals. rewrite decimal_format_contains by exact N.
    apply decimal_format_precision. exact N.
Qed.

(** X12.  Under a format of the grammars the formatter writes what the
    format shows, whatever the spacing it is given.  For a sexagesimal
    format astropy is asked for the unit of the format (degrees or hour
    angles), its fields and decimals, and the first separators of the
    degree sign, apostrophe, double quote, or of h, m, s, one per field;
    for a decimal angle format, for the decimal notation in the unit of
    the format with its decimals and no separator; and every label of the
    scalar formatter shows as many decimals as the format string. *)
Theorem formatter_follows_the_format :
  (forall ts (hours : bool) f (o : Instance Quantity) (values : list Q) spacing,
      values <> [] ->
      let lead := if hours then "hh" else "dd" in
      let o' := self (AngleFormatterLocator.format_setter
                        (Some (sexagesimal_format lead f)) o) in
      AngleFormatterLocator.formatter ts values spacing o'
      = ts values (if hours then hourangle else degree)
           (Z.of_nat (sexagesimal_precision f)) false (sexagesimal_fields f)
           (Some (firstn (sexagesimal_fields f)
                         (if hours then AngleFormatterLocator.hour_separators
                          else AngleFormatterLocator.degree_separators))))
  /\
  (forall ts c u n (o : Instance Quantity) (values : list Q) spacing,
      values <> [] ->
      (c, u) = ("d"%char, degree) \/ (c, u) = ("m"%char, arcmin)
      \/ (c, u) = ("s"%char, arcsec) ->
      let o' := self (AngleFormatterLocator.format_setter (Some (decimal_format c n)) o) in
      AngleFormatterLocator.formatter ts values spacing o'
      = ts values u (Z.of_nat n) true 1 None)
  /\
  (forall n (o : Instance Q) (values : list Q) spacing,
      let fmt := decimal_format "x" n in
      let o' := self (ScalarFormatterLocator.format_setter (Some fmt) o) in
      exists labels,
        ScalarFormatterLocator.formatter values spacing o' = Done labels /\
        List.length labels = List.length values /\
        forall l, In l labels -> decimals l = decimals fmt).
Proof.
  split; [|split].
  - intros ts hours f o values spacing Hv. cbv zeta.
    destruct (angle_sexagesimal_parse hours f o) as (_ & D & F).
    rewrite (@angle_formatter_of_descriptor ts values spacing _ _ _ _ _ _ Hv F D).
    destruct hours; reflexivity.
  - intros ts c u n o values spacing Hv Hc. cbv zeta.
    destruct (angle_decimal_parse n o Hc) as (_ & D & F & _).
    rewrite (@angle_formatter_of_descriptor ts values spacing _ _ _ _ _ _ Hv F D). reflexivity.
  - intros n o values spacing. cbv zeta.
    destruct (scalar_decimal_parse n o) as (_ & P & F & _).
    exists (map (PyFormat.fixed n) values).
    split; [apply scalar_formatter_labels; eapply scalar_format_precision; eassumption|].
    split; [apply length_map|].
    intros l Hl. apply in_map_iff in Hl. destruct Hl as (x & <- & _).
    rewrite fixed_decimals, decimal_format_decimals by discriminate. reflexivity.
Qed.

Lemma formatter_follows_the_format_witness :
  let ts := fun (values : list Q) (u : AngleUnit) (precision : Z) (decimal : bool)
                (fields : nat) (sep : option (list string)) =>
              Done (match sep with Some seps => seps | None => [] end) in
  (let o' := self (AngleFormatterLocator.format_setter
                     (Some (sexagesimal_format "hh" (Fields3 1))) blank) in
   AngleFormatterLocator.formatter ts [15 # 1]%Q (Qty 1 degree) o'
   = ts [15 # 1]%Q hourangle 1%Z false 3 (Some ["h"; "m"; "s"]))
  /\
  (let o' := self (AngleFormatterLocator.format_setter (Some (decimal_format "m" 2)) blank) in
   AngleFormatterLocator.formatter ts [15 # 1]%Q (Qty 1 degree) o'
   = ts [15 # 1]%Q arcmin 2%Z true 1 None).
Proof.
  intros ts. split.
  - apply (proj1 formatter_follows_the_format ts true (Fields3 1)). discriminate.
  - apply (proj1 (proj2 formatter_follows_the_format) ts "m"%char arcmin 2).
    + discriminate.
    + right. left. reflexivity.
Defined.

(* ================================================================== *)
(** ** When the formatter fails                                       *)
(* ================================================================== *)

Lemma int_floor_log10_zero x :
  (x == 0)%Q ->
  PyFormat.int_floor_log10 x = OverflowError "cannot convert float infinity to integer".
Proof.
  intros E. unfold PyFormat.int_floor_log10, Num.is_zero.
  apply Qeq_bool_iff in E. rewrite E. reflexivity.
Qed.

Lemma int_floor_log10_negative x :
  (x < 0)%Q ->
  PyFormat.int_floor_log10 x = Fails (ValueError "cannot convert float NaN to integer").
Proof.
  intros L. unfold PyFormat.int_floor_log10.
  rewrite (is_zero_false (s := x)) by lra.
  assert (N : Num.ltb x 0 = true) by (apply ltb_lt; exact L).
  rewrite N. reflexivity.
Qed.

Lemma automatic_fields_not_positive (spacing : Quantity) :
  (value spacing <= 0)%Q ->
  AngleFormatterLocator.automatic_fields spacing
  = (k <- PyFormat.int_floor_log10 (value (Units.to arcsec spacing)) ;;
     Done (3, (- k)%Z))%formatted.
Proof.
  intros H. unfold AngleFormatterLocator.automatic_fields.
  rewrite !units_gt_degrees.
  assert (D : (degrees spacing <= 0)%Q).
  { unfold degrees. pose proof (in_degrees_pos (unit spacing)). nra. }
  assert (L1 : Num.ltb (degrees (Units.times 1 degree)) (degrees spacing) = false).
  { apply ltb_ge. change (degrees (Units.times 1 degree)) with (1 * 1)%Q. lra. }
  assert (L2 : Num.ltb (degrees (Units.times 1 arcmin)) (degrees spacing) = false).
  { apply ltb_ge. change (degrees (Units.times 1 arcmin)) with (1 * (1 # 60))%Q. lra. }
  assert (L3 : Num.ltb (degrees (Units.times 1 arcsec)) (degrees spacing) = false).
  { apply ltb_ge. change (degrees (Units.times 1 arcsec)) with (1 * (1 # 3600))%Q. lra. }
  rewrite L1, L2, L3. reflexivity.
Qed.

Lemma scalar_formatter_nonempty (values : list Q) (spacing : Q) (o : Instance Q) :
  values <> [] ->
  ScalarFormatterLocator.formatter values spacing o
  = (precision <- ScalarFormatterLocator.formatter_precision spacing o ;;
     for_each (PyFormat.format_f precision) values)%formatted.
Proof. intros Hv. destruct values; [contradiction | reflexivity]. Qed.

Lemma angle_formatter_automatic_fails ts (values : list Q) spacing (o : Instance Quantity) :
  values <> [] -> _format o = None ->
  AngleFormatterLocator.formatter ts values spacing o
  = (fp <- AngleFormatterLocator.automatic_fields spacing ;;
     ts values degree (snd fp) false (fst fp)
        (AngleFormatterLocator.separators false degree (fst fp)))%formatted.
Proof.
  intros Hv Hf. unfold AngleFormatterLocator.formatter.
  destruct values; [contradiction|]. rewrite Hf.
  destruct (AngleFormatterLocator.automatic_fields spacing) as [[fields p]|e|msg]; reflexivity.
Qed.

Lemma angle_formatter_attributes ts (values : list Q) spacing (o : Instance Quantity) f :
  values <> [] -> _format o = Some f ->
  AngleFormatterLocator.formatter ts values spacing o
  = (fields <- attribute "_fields" (_fields o) ;;
     precision <- attribute "_precision" (_precision o) ;;
     decimal <- attribute "_decimal" (_decimal o) ;;
     unit <- attribute "_unit" (_unit o) ;;
     ts values unit (Z.of_nat precision) decimal fields
        (AngleFormatterLocator.separators decimal unit fields))%formatted.
Proof.
  intros Hv Hf. unfold AngleFormatterLocator.formatter.
  destruct values; [contradiction|]. rewrite Hf.
  destruct (_fields o), (_precision o), (_decimal o), (_unit o); reflexivity.
Qed.

(** X13.  A formatter fails in three ways only, and never on an empty
    list of values, for which it returns the empty list in every state.
    With no format set, a spacing of zero raises [OverflowError] and a
    negative spacing [ValueError] (the logarithm of the spacing is
    infinite, or not a number); with a format set, an attribute the
    format setter never assigned raises [AttributeError].  Otherwise the
    scalar formatter returns one label per value, and the angle formatter
    what astropy returns. *)
Theorem formatter_fails_only_on_spacing_or_attribute :
  (forall (values : list Q) (spacing : Q) (o : Instance Q),
      ScalarFormatterLocator.formatter [] spacing o = Done [] /\
      (values <> [] -> _format o = None ->
       ((spacing == 0)%Q ->
        ScalarFormatterLocator.formatter values spacing o
        = OverflowError "cannot convert float infinity to integer") /\
       ((spacing < 0)%Q ->
        ScalarFormatterLocator.formatter values spacing o
        = Fails (ValueError "cannot convert float NaN to integer")) /\
       ((0 < spacing)%Q ->
        exists labels, ScalarFormatterLocator.formatter values spacing o = Done labels /\
                       List.length labels = List.length values)) /\
      (values <> [] -> _format o <> None ->
       (_precision o = None ->
        ScalarFormatterLocator.formatter values spacing o
        = Fails (AttributeError "_precision")) /\
       (forall p, _precision o = Some p ->
                  ScalarFormatterLocator.formatter values spacing o
                  = Done (map (PyFormat.fixed p) values))))
  /\
  (forall ts (values : list Q) (spacing : Quantity) (o : Instance Quantity),
      AngleFormatterLocator.formatter ts [] spacing o = Done [] /\
      (values <> [] -> _format o = None ->
       ((value spacing == 0)%Q ->
        AngleFormatterLocator.formatter ts values spacing o
        = OverflowError "cannot convert float infinity to integer") /\
       ((value spacing < 0)%Q ->
        AngleFormatterLocator.formatter ts values spacing o
        = Fails (ValueError "cannot convert float NaN to integer")) /\
       ((0 < value spacing)%Q ->
        exists fields p,
          AngleFormatterLocator.formatter ts values spacing o
          = ts values degree (Z.of_nat p) false fields
               (Some (firstn fields AngleFormatterLocator.degree_separators)))) /\
      (values <> [] -> _format o <> None ->
       (_fields o = None ->
        AngleFormatterLocator.formatter ts values spacing o
        = Fails (AttributeError "_fields")) /\
       (_fields o <> None -> _precision o = None ->
        AngleFormatterLocator.formatter ts values spacing o
        = Fails (AttributeError "_precision")) /\
       (_fields o <> None -> _precision o <> None -> _decimal o = None ->
        AngleFormatterLocator.formatter ts values spacing o
        = Fails (AttributeError "_decimal")) /\
       (_fields o <> None -> _precision o <> None -> _decimal o <> None -> _unit o = None ->
        AngleFormatterLocator.formatter ts values spacing o
        = Fails (AttributeError "_unit")) /\
       (forall d u fl p,
           descriptor o = (Some d, Some u, Some fl, Some p) ->
           AngleFormatterLocator.formatter ts values spacing o
           = ts values u (Z.of_nat p) d fl (AngleFormatterLocator.separators d u fl)))).
Proof.
  split.
  - intros values spacing o. split; [reflexivity|]. split.
    + intros Hv Hf. rewrite (scalar_formatter_nonempty spacing o Hv).
      split; [|split].
      * intros Z0. unfold ScalarFormatterLocator.formatter_precision. rewrite Hf.
        assert (L : Num.ltb spacing 1 = true) by (apply ltb_lt; lra).
        rewrite L, (int_floor_log10_zero Z0). reflexivity.
      * intros N. unfold ScalarFormatterLocator.formatter_precision. rewrite Hf.
        assert (L : Num.ltb spacing 1 = true) by (apply ltb_lt; lra).
        rewrite L, (int_floor_log10_negative N). reflexivity.
      * intros P. destruct (scalar_automatic_precision o Hf P) as (p & Hp & _).
        exists (map (PyFormat.fixed p) values). rewrite Hp. cbn [and_then].
        split; [apply for_each_format_f | apply length_map].
    + intros Hv Hf. destruct (_format o) as [f|] eqn:Ef; [|contradiction]. split.
      * intros Hp. rewrite (scalar_formatter_nonempty spacing o Hv).
        unfold ScalarFormatterLocator.formatter_precision. rewrite Ef, Hp. reflexivity.
      * intros p Hp. apply scalar_formatter_labels.
        eapply scalar_format_precision; eassumption.
  - intros ts values spacing o. split; [reflexivity|]. split.
    + intros Hv Hf. split; [|split].
      * intros Z0. rewrite (angle_formatter_automatic_fails ts spacing o Hv Hf).
        rewrite automatic_fields_not_positive by lra.
        rewrite int_floor_log10_zero; [reflexivity|].
        unfold Units.to. cbn [value]. rewrite Z0. ring.
      * intros N. rewrite (angle_formatter_automatic_fails ts spacing o Hv Hf).
        rewrite automatic_fields_not_positive by lra.
        rewrite int_floor_log10_negative; [reflexivity|].
        rewrite arcsec_of_degrees. unfold degrees.
        pose proof (in_degrees_pos (unit spacing)). nra.
      * intros P. apply degrees_pos in P.
        destruct (automatic_fields_spec P) as (fields & p & E & _).
        exists fields, p. apply angle_formatter_automatic; assumption.
    + intros Hv Hf. destruct (_format o) as [f|] eqn:Ef; [|contradiction].
      rewrite (angle_formatter_attributes ts spacing o Hv Ef).
      split; [intros ->; reflexivity|].
      split; [intros H1 ->; destruct (_fields o); [reflexivity | contradiction]|].
      split; [intros H1 H2 ->; destruct (_fields o), (_precision o);
              try contradiction; reflexivity|].
      split; [intros H1 H2 H3 ->; destruct (_fields o), (_precision o), (_decimal o);
              try contradiction; reflexivity|].
      intros d u fl p D. unfold descriptor in D. injection D as -> -> -> ->. reflexivity.
Qed.

Lemma formatter_fails_only_on_spacing_or_attribute_witness :
  (let o := self (ScalarFormatterLocator.__init__ None None None None blank) in
   ScalarFormatterLocator.formatter [1; 2]%Q 0 o
   = OverflowError "cannot convert float infinity to integer")
  /\
  (let o := self (AngleFormatterLocator.__init__ None None PyNone None blank) in
   let o' := self (AngleFormatterLocator.format_setter (Some "degrees") o) in
   AngleFormatterLocator.formatter (fun _ _ _ _ _ _ => Done []) [1; 2]%Q (Qty 1 degree) o'
   = Fails (AttributeError "_fields")).
Proof.
  split.
  - cbv zeta.
    destruct (proj1 formatter_fails_only_on_spacing_or_attribute [1; 2]%Q 0%Q
                (self (ScalarFormatterLocator.__init__ None None None None blank)))
      as (_ & A & _).
    destruct A as (Z0 & _); [discriminate | reflexivity |].
    apply Z0. reflexivity.
  - cbv zeta.
    destruct (proj2 formatter_fails_only_on_spacing_or_attribute
                (fun _ _ _ _ _ _ => Done []) [1; 2]%Q (Qty 1 degree)
                (self (AngleFormatterLocator.format_setter (Some "degrees")
                         (self (AngleFormatterLocator.__init__
                                  None None PyNone None blank)))))
      as (_ & _ & A).
    destruct A as (F & _); [discriminate | discriminate |].
    apply F. reflexivity.
Defined.

(* ================================================================== *)
(** ** The formatter after a rejected format, and on explicit values  *)
(* ================================================================== *)

Lemma angle_rejected_state value (o : Instance Quantity) :
  angle_unmatched value ->
  self (AngleFormatterLocator.format_setter (Some value) o) = set_format (Some value) o.
Proof.
  intros (H1 & H2 & H3 & H4 & H5).
  unfold AngleFormatterLocator.format_setter, AngleFormatterLocator.parse_format.
  rewrite H1, H2, H3, H4, H5. reflexivity.
Qed.

Lemma scalar_rejected_state value (o : Instance Q) :
  re_match SCAL_RE value = false ->
  self (ScalarFormatterLocator.format_setter (Some value) o) = set_format (Some value) o.
Proof.
  intros H.
  unfold ScalarFormatterLocator.format_setter, ScalarFormatterLocator.parse_format.
  rewrite H. reflexivity.
Qed.

(** X14.  A format assignment that is rejected still switches the
    formatter to the format mode: from then on it no longer derives the
    precision from the spacing, but writes with the precision, fields,
    notation and unit of the last accepted format, and raises
    [AttributeError] when no format was ever accepted. *)
Theorem formatter_after_rejected_format :
  (forall value (o : Instance Q) (values : list Q) spacing,
      re_match SCAL_RE value = false -> values <> [] ->
      let o' := self (ScalarFormatterLocator.format_setter (Some value) o) in
      ScalarFormatterLocator.formatter values spacing o'
      = match _precision o with
        | Some p => Done (map (PyFormat.fixed p) values)
        | None => Fails (AttributeError "_precision")
        end)
  /\
  (forall ts value (o : Instance Quantity) (values : list Q) spacing,
      angle_unmatched value -> values <> [] ->
      let o' := self (AngleFormatterLocator.format_setter (Some value) o) in
      (_fields o = None ->
       AngleFormatterLocator.formatter ts values spacing o'
       = Fails (AttributeError "_fields")) /\
      (forall d u fl p,
          descriptor o = (Some d, Some u, Some fl, Some p) ->
          AngleFormatterLocator.formatter ts values spacing o'
          = ts values u (Z.of_nat p) d fl (AngleFormatterLocator.separators d u fl))).
Proof.
  split.
  - intros value o values spacing H Hv. cbv zeta.
    rewrite (@scalar_rejected_state value o H).
    rewrite (@scalar_formatter_nonempty values spacing _ Hv).
    destruct o as [v1 n1 s1 f1 u1 d1 fl1 p1].
    unfold ScalarFormatterLocator.formatter_precision. cbn [set_format _format _precision].
    destruct p1 as [p|]; [|reflexivity].
    cbn [attribute and_then]. apply for_each_format_f.
  - intros ts value o values spacing H Hv. cbv zeta.
    rewrite (@angle_rejected_state value o H).
    rewrite (@angle_formatter_attributes ts values spacing _ value Hv)
      by (destruct o; reflexivity).
    destruct o as [v1 n1 s1 f1 u1 d1 fl1 p1]. cbn [set_format _fields _precision _decimal _unit].
    split.
    + cbn [_fields]. intros ->. reflexivity.
    + intros d u fl p D. unfold descriptor in D. cbn in D.
      injection D as -> -> -> ->. reflexivity.
Qed.

Lemma formatter_after_rejected_format_witness :
  (let o := self (ScalarFormatterLocator.__init__ None None None None blank) in
   let o' := self (ScalarFormatterLocator.format_setter (Some "%.2f") o) in
   ScalarFormatterLocator.formatter [1 # 4; 1 # 2]%Q (1 # 4) o'
   = Fails (AttributeError "_precision"))
  /\
  (let ts := fun (values : list Q) (u : AngleUnit) (precision : Z) (decimal : bool)
                 (fields : nat) (sep : option (list string)) =>
               Done (match sep with Some seps => seps | None => [] end) in
   let o := self (AngleFormatterLocator.__init__ None None PyNone None blank) in
   let o' := self (AngleFormatterLocator.format_setter (Some "degrees") o) in
   AngleFormatterLocator.formatter ts [1 # 4; 1 # 2]%Q (Qty (1 # 4) degree) o'
   = Fails (AttributeError "_fields")).
Proof.
  split.
  - apply (proj1 formatter_after_rejected_format "%.2f"); [reflexivity | discriminate].
  - intros ts.
    apply (proj2 formatter_after_rejected_format ts "degrees");
      [repeat split | discriminate | reflexivity].
Defined.

(** X15.  For explicit values the locator hands out a stand-in spacing of
    1.1 (1.1 arcsec for angles); with no format set the formatter then
    writes the values without decimals: the scalar labels are the values
    rounded to integers, and astropy is asked for degrees, minutes and
    whole seconds. *)
Theorem explicit_values_are_written_without_decimals :
  (forall ss (o : Instance Q) (values : list Q) value_min value_max,
      _values o = Some values -> _format o = None ->
      exists spacing,
        result (ScalarFormatterLocator.locator ss value_min value_max o)
        = Return (values, spacing) /\
        ScalarFormatterLocator.formatter values spacing o
        = Done (map (PyFormat.fixed 0) values))
  /\
  (forall ts sd sh (o : Instance Quantity) (values : list Q) value_min value_max,
      values <> [] -> _values o = Some values -> _format o = None ->
      exists spacing,
        result (AngleFormatterLocator.locator sd sh value_min value_max o)
        = Return (values, spacing) /\
        AngleFormatterLocator.formatter ts values spacing o
        = ts values degree 0%Z false 3 (Some AngleFormatterLocator.degree_separators)).
Proof.
  split.
  - intros ss o values vmin vmax Hv Hf. exists (11 # 10)%Q. split.
    + unfold ScalarFormatterLocator.locator. rewrite bind_get, Hv. reflexivity.
    + apply (@scalar_formatter_labels values (11 # 10)%Q o 0).
      unfold ScalarFormatterLocator.formatter_precision. rewrite Hf. reflexivity.
  - intros ts sd sh o values vmin vmax Hn Hv Hf. exists (Units.times (11 # 10) arcsec). split.
    + unfold AngleFormatterLocator.locator. rewrite bind_get, Hv. reflexivity.
    + rewrite (@angle_formatter_automatic ts values _ o 3 0%Z Hn Hf); reflexivity.
Qed.

Lemma explicit_values_are_written_without_decimals_witness :
  (let o := self (ScalarFormatterLocator.__init__ (Some [1 # 4; 1 # 2]%Q) None None None blank) in
   exists spacing,
     result (ScalarFormatterLocator.locator (fun dv => dv) 0 1 o)
     = Return ([1 # 4; 1 # 2]%Q, spacing) /\
     ScalarFormatterLocator.formatter [1 # 4; 1 # 2]%Q spacing o
     = Done (map (PyFormat.fixed 0) [1 # 4; 1 # 2]%Q))
  /\
  map (PyFormat.fixed 0) [1 # 4; 1 # 2]%Q = ["0"; "0"]
  /\
  (let ts := fun (values : list Q) (u : AngleUnit) (precision : Z) (decimal : bool)
                 (fields : nat) (sep : option (list string)) =>
               Done (match sep with Some seps => seps | None => [] end) in
   let o := self (AngleFormatterLocator.__init__
                    (Some [1 # 4; 1 # 2]%Q) None PyNone None blank) in
   exists spacing,
     result (AngleFormatterLocator.locator (fun dv => dv) (fun dv => dv) 0 1 o)
     = Return ([1 # 4; 1 # 2]%Q, spacing) /\
     AngleFormatterLocator.formatter ts [1 # 4; 1 # 2]%Q spacing o
     = ts [1 # 4; 1 # 2]%Q degree 0%Z false 3
          (Some AngleFormatterLocator.degree_separators)).
Proof.
  split; [|split].
  - apply (proj1 explicit_values_are_written_without_decimals); reflexivity.
  - reflexivity.
  - intros ts.
    apply (proj2 explicit_values_are_written_without_decimals ts);
      [discriminate | reflexivity | reflexivity].
Defined.

(* ================================================================== *)
(** ** Assigning a format twice                                       *)
(* ================================================================== *)

Lemma angle_check_spacing_settles (o : Instance Quantity) :
  result (AngleFormatterLocator.check_spacing o) = Return tt ->
  let o1 := self (AngleFormatterLocator.check_spacing o) in
  AngleFormatterLocator.check_spacing o1 = Run (Return tt) o1 [] /\
  descriptor o1 = descriptor o /\ _format o1 = _format o.
Proof.
  rewrite angle_check_spacing_unfolded.
  destruct (_spacing o) as [s|] eqn:Es.
  2:{ intros _. cbn [self]. rewrite angle_check_spacing_unfolded, Es. repeat split. }
  destruct (result (AngleFormatterLocator.base_spacing o)) as [b|e] eqn:Eb; [|discriminate].
  intros _. cbv zeta.
  assert (Hb : forall q, result (AngleFormatterLocator.base_spacing (respaced q o)) = Return b)
    by (intros q; rewrite angle_base_spacing_respaced; exact Eb).
  assert (One : unit (Units.scale b (inject_Z 1)) = unit b /\
                (value (Units.scale b (inject_Z 1)) == value b)%Q)
    by (split; [reflexivity | unfold Units.scale; cbn [value]; ring]).
  destruct (Units.lt s b) eqn:L.
  - rewrite angle_rem_self. cbn [self].
    rewrite angle_check_spacing_unfolded.
    change (_spacing (respaced b o)) with (Some b). rewrite Hb. cbv zeta.
    rewrite angle_lt_irrefl, angle_rem_self.
    split; [reflexivity|]. destruct o; repeat split.
  - destruct (Units.gt (Units.rem s b) AngleFormatterLocator.tolerance) eqn:G; cbn [self].
    + assert (N : ~ (value s == 0)%Q).
      { intros Z0. rewrite angle_gt_tolerance_zero in G by exact Z0. discriminate. }
      rewrite angle_round_ratio_self by exact N.
      rewrite angle_check_spacing_unfolded.
      change (_spacing (respaced (Units.scale b (inject_Z 1)) o))
        with (Some (Units.scale b (inject_Z 1))).
      rewrite Hb. cbv zeta.
      destruct One as (U & V).
      rewrite (@angle_lt_comp (Units.scale b (inject_Z 1)) b b U V), angle_lt_irrefl.
      rewrite angle_multiple_on_grid.
      split; [reflexivity|]. destruct o; repeat split.
    + rewrite angle_check_spacing_unfolded, Es, Eb. cbv zeta. rewrite L, G.
      repeat split.
Qed.

Lemma scalar_check_spacing_settles (o : Instance Q) :
  result (ScalarFormatterLocator.check_spacing o) = Return tt ->
  let o1 := self (ScalarFormatterLocator.check_spacing o) in
  ScalarFormatterLocator.check_spacing o1 = Run (Return tt) o1 [] /\
  _precision o1 = _precision o /\ _format o1 = _format o.
Proof.
  rewrite scalar_check_spacing_unfolded.
  destruct (_spacing o) as [s|] eqn:Es.
  2:{ intros _. cbn [self]. rewrite scalar_check_spacing_unfolded, Es. repeat split. }
  destruct (result (ScalarFormatterLocator.base_spacing o)) as [b|e] eqn:Eb; [|discriminate].
  cbv zeta.
  assert (Hb : forall q, result (ScalarFormatterLocator.base_spacing (respaced q o)) = Return b)
    by (intros q; rewrite scalar_base_spacing_respaced; exact Eb).
  assert (Sb : Num.ltb ScalarFormatterLocator.tolerance (Num.mod_ b b) = false).
  { apply ltb_false_of_le.
    assert (E1 : (b == b * inject_Z 1)%Q) by ring.
    rewrite (mod_comp E1 (Qeq_refl b)), (mod_of_multiple 1 (Qeq_refl b)). discriminate. }
  assert (Lb : Num.ltb b b = false) by (apply ltb_false_of_le; apply Qle_refl).
  destruct (Num.ltb s b) eqn:L.
  - rewrite Sb. intros _. cbn [self].
    rewrite scalar_check_spacing_unfolded.
    change (_spacing (respaced b o)) with (Some b). rewrite Hb. cbv zeta.
    rewrite Lb, Sb. split; [reflexivity|]. destruct o; repeat split.
  - destruct (Num.ltb ScalarFormatterLocator.tolerance (Num.mod_ s b)) eqn:G.
    + destruct (Num.is_zero s) eqn:Z0; [discriminate|]. intros _. cbn [self].
      assert (N : ~ (s == 0)%Q).
      { intros Z1. apply Qeq_bool_iff in Z1. unfold Num.is_zero in Z0. congruence. }
      rewrite round_self_ratio by exact N.
      rewrite scalar_check_spacing_unfolded.
      change (_spacing (respaced (b * inject_Z 1)%Q o)) with (Some (b * inject_Z 1)%Q).
      rewrite Hb. cbv zeta.
      assert (L1 : Num.ltb (b * inject_Z 1) b = false).
      { apply ltb_false_of_le. assert (E1 : (b * inject_Z 1 == b)%Q) by ring.
        rewrite E1. apply Qle_refl. }
      rewrite L1, scalar_multiple_on_grid.
      split; [reflexivity|]. destruct o; repeat split.
    + intros _. cbn [self].
      rewrite scalar_check_spacing_unfolded, Es, Eb. cbv zeta. rewrite L, G.
      repeat split.
Qed.

(** Reading a format into an instance that already has its descriptor
    changes nothing. *)
Lemma angle_parse_format_again value (o o0 o2 : Instance Quantity) :
  AngleFormatterLocator.parse_format value o = Run (Return tt) o0 [] ->
  descriptor o2 = descriptor o0 ->
  AngleFormatterLocator.parse_format value o2 = Run (Return tt) o2 [].
Proof.
  unfold AngleFormatterLocator.parse_format, descriptor.
  destruct o2 as [v2 n2 s2 f2 u2 d2 fl2 p2]. cbn [_decimal _unit _fields _precision].
  destruct (re_match DMS_RE value);
    [destruct (PyStr.contains "." value); intros E; injection E as <-;
     intros D; injection D as -> -> -> ->; reflexivity|].
  destruct (re_match HMS_RE value);
    [destruct (PyStr.contains "." value); intros E; injection E as <-;
     intros D; injection D as -> -> -> ->; reflexivity|].
  destruct (re_match DDEC_RE value);
    [destruct (PyStr.contains "." value); intros E; injection E as <-;
     intros D; injection D as -> -> -> ->; reflexivity|].
  destruct (re_match DMIN_RE value);
    [destruct (PyStr.contains "." value); intros E; injection E as <-;
     intros D; injection D as -> -> -> ->; reflexivity|].
  destruct (re_match DSEC_RE value);
    [destruct (PyStr.contains "." value); intros E; injection E as <-;
     intros D; injection D as -> -> -> ->; reflexivity|].
  discriminate.
Qed.

Lemma scalar_parse_format_again value (o o0 o2 : Instance Q) :
  ScalarFormatterLocator.parse_format value o = Run (Return tt) o0 [] ->
  _precision o2 = _precision o0 ->
  ScalarFormatterLocator.parse_format value o2 = Run (Return tt) o2 [].
Proof.
  unfold ScalarFormatterLocator.parse_format.
  destruct o2 as [v2 n2 s2 f2 u2 d2 fl2 p2]. cbn [_precision].
  destruct (re_match SCAL_RE value); [|discriminate].
  destruct (PyStr.contains "." value); intros E; injection E as <-;
    intros D; cbn in D; subst p2; reflexivity.
Qed.

Lemma set_format_same {T} value (o : Instance T) :
  _format o = Some value -> set_format (Some value) o = o.
Proof. destruct o. cbn. intros ->. reflexivity. Qed.

(** X16.  Assigning an accepted format is idempotent: the instance a
    format assignment that returns leaves behind is a fixed point of the
    same assignment, which then returns again, changes no attribute and
    emits no warning. *)
Theorem format_setter_is_idempotent :
  (forall value (o : Instance Quantity),
      result (AngleFormatterLocator.format_setter (Some value) o) = Return tt ->
      let o1 := self (AngleFormatterLocator.format_setter (Some value) o) in
      AngleFormatterLocator.format_setter (Some value) o1 = Run (Return tt) o1 [])
  /\
  (forall value (o : Instance Q),
      result (ScalarFormatterLocator.format_setter (Some value) o) = Return tt ->
      let o1 := self (ScalarFormatterLocator.format_setter (Some value) o) in
      ScalarFormatterLocator.format_setter (Some value) o1 = Run (Return tt) o1 []).
Proof.
  split.
  - intros value o. unfold AngleFormatterLocator.format_setter at 1 2.
    rewrite bind_modify.
    destruct (angle_parse_format_outcome value (set_format (Some value) o))
      as [(_ & E) | (o0 & E & _ & _ & _ & Hf)]; intros H.
    + erewrite bind_run_Raise in H by exact E. discriminate.
    + erewrite bind_quiet in H |- * by exact E. cbv zeta.
      destruct (angle_check_spacing_settles o0 H) as (K & D & F).
      set (o1 := self (AngleFormatterLocator.check_spacing o0)) in *.
      unfold AngleFormatterLocator.format_setter. rewrite bind_modify.
      rewrite set_format_same by (rewrite F; exact Hf).
      erewrite bind_quiet by (eapply angle_parse_format_again; [exact E | exact D]).
      exact K.
  - intros value o. unfold ScalarFormatterLocator.format_setter at 1 2.
    rewrite bind_modify.
    destruct (scalar_parse_format_outcome value (set_format (Some value) o))
      as [(_ & E) | (o0 & E & _ & _ & _ & Hf)]; intros H.
    + erewrite bind_run_Raise in H by exact E. discriminate.
    + erewrite bind_quiet in H |- * by exact E. cbv zeta.
      destruct (scalar_check_spacing_settles o0 H) as (K & D & F).
      set (o1 := self (ScalarFormatterLocator.check_spacing o0)) in *.
      unfold ScalarFormatterLocator.format_setter. rewrite bind_modify.
      rewrite set_format_same by (rewrite F; exact Hf).
      erewrite bind_quiet by (eapply scalar_parse_format_again; [exact E | exact D]).
      exact K.
Qed.

Lemma format_setter_is_idempotent_witness :
  (let o := self (AngleFormatterLocator.__init__
                    None None (PyAngle (Qty 20 arcsec)) None blank) in
   let o1 := self (AngleFormatterLocator.format_setter (Some "hh:mm:ss") o) in
   warned (AngleFormatterLocator.format_setter (Some "hh:mm:ss") o)
   = [not_multiple_warning] /\
   AngleFormatterLocator.format_setter (Some "hh:mm:ss") o1 = Run (Return tt) o1 [])
  /\
  (let o := self (ScalarFormatterLocator.__init__ None None (Some (1 # 1000)%Q) None blank) in
   let o1 := self (ScalarFormatterLocator.format_setter (Some "x.x") o) in
   warned (ScalarFormatterLocator.format_setter (Some "x.x") o) = [too_small_warning] /\
   ScalarFormatterLocator.format_setter (Some "x.x") o1 = Run (Return tt) o1 []).
Proof.
  split.
  - split; [reflexivity|].
    apply (proj1 format_setter_is_idempotent "hh:mm:ss"). reflexivity.
  - split; [reflexivity|].
    apply (proj2 format_setter_is_idempotent "x.x"). reflexivity.
Defined.
